(** * Academic Insight Hub: the LLM response pipeline of [llm_utils.py]

    A shallow embedding of [analyze_question] and [generate_questions]
    (src/llm_utils.py) together with the two report scans of the page
    that stores an analysed question (src/pages/question_generator.py),
    and the properties the specification states about them.

    The development then follows the values further: the client and the
    prompts of [llm_utils.py], the form that stores an analysed question,
    the page that stores generated questions
    (src/pages/bulk_question_generator.py), the pages that show a stored
    question (src/pages/ai_exam.py, src/pages/add.py), the scans of
    src/pages/response_comparison.py.

    Conventions of the model.
    - A Python [str] is a Rocq [string]; a character is a code point in
      U+0000..U+00FF.  The character classes of [re] and [str] ([\s], [\d],
      [\w], [strip], [lower]) are the Unicode ones restricted to that range.
    - A Python [float] is a binary64 primitive float; a Python [int] is a [Z].
    - A [dict] is an association list in insertion order with unique keys.
    - A raised exception is a value of [exn]; a [try] is a [match].
    - The question table is the list of its rows; the session state of a
      page is a record passed in and out; whether the database accepts a
      commit, and what the client library answers, are arguments.
    - Interpreter resource limits (recursion depth, the digit limit of
      [int(str)]) are not modelled; [Json.within] bounds a text so that
      decoding it meets none of them, and no character outside the alphabet.
    - The calls of the Streamlit and pandas libraries are taken not to
      raise. *)

From Stdlib Require Import ZArith List Bool Ascii String Lia.
From Stdlib Require Import Floats.
From Stdlib Require DecimalString.
Import ListNotations.

Local Open Scope string_scope.
Local Open Scope Z_scope.

(* ================================================================== *)
(** ** Text *)

Module Text.

Definition code (c : ascii) : N := N_of_ascii c.

Definition in_range (lo hi : N) (c : ascii) : bool :=
  (N.leb lo (code c) && N.leb (code c) hi)%bool.

(** [str.isspace] and the [\s] of a [str] pattern. *)
Definition is_space (c : ascii) : bool :=
  (in_range 9 13 c || in_range 28 32 c
   || N.eqb (code c) 133 || N.eqb (code c) 160)%bool.

(** [\d] of a [str] pattern: the decimal digits. *)
Definition is_digit (c : ascii) : bool := in_range 48 57 c.

Definition is_upper_ascii (c : ascii) : bool := in_range 65 90 c.
Definition is_lower_ascii (c : ascii) : bool := in_range 97 122 c.

(** [\w] of a [str] pattern: alphanumeric characters and the underscore. *)
Definition is_word (c : ascii) : bool :=
  (is_digit c || is_upper_ascii c || is_lower_ascii c || N.eqb (code c) 95
   || N.eqb (code c) 170 || N.eqb (code c) 178 || N.eqb (code c) 179
   || N.eqb (code c) 181 || N.eqb (code c) 185 || N.eqb (code c) 186
   || in_range 188 190 c
   || in_range 192 214 c || in_range 216 246 c || in_range 248 255 c)%bool.

(** [str.lower] on one character. *)
Definition lower_char (c : ascii) : ascii :=
  if (is_upper_ascii c
      || (in_range 192 222 c && negb (N.eqb (code c) 215)))%bool
  then ascii_of_N (code c + 32) else c.

Fixpoint lower (s : string) : string :=
  match s with
  | EmptyString => EmptyString
  | String c s' => String (lower_char c) (lower s')
  end.

(** The text without its leading characters of the class [p]. *)
Fixpoint lstrip_of (p : ascii -> bool) (s : string) : string :=
  match s with
  | String c s' => if p c then lstrip_of p s' else s
  | EmptyString => EmptyString
  end.

(** The text without its trailing characters of the class [p]: it is rebuilt
    from the right, and a character is kept when it is not of the class or
    something is kept after it. *)
Fixpoint rstrip_of (p : ascii -> bool) (s : string) : string :=
  match s with
  | EmptyString => EmptyString
  | String c s' =>
      match rstrip_of p s' with
      | EmptyString => if p c then EmptyString else String c EmptyString
      | r => String c r
      end
  end.

(** [str.strip()]. *)
Definition strip (s : string) : string :=
  rstrip_of is_space (lstrip_of is_space s).

(** The white space [int()] and [float()] allow around a number: the ASCII
    white space and the spaces above U+007F; the separators U+001C..U+001F
    are not among them. *)
Definition is_space_num (c : ascii) : bool :=
  (in_range 9 13 c || N.eqb (code c) 32
   || N.eqb (code c) 133 || N.eqb (code c) 160)%bool.

Definition strip_num (s : string) : string :=
  rstrip_of is_space_num (lstrip_of is_space_num s).

(** [s.startswith(p)]. *)
Fixpoint startswith (p s : string) : bool :=
  match p with
  | EmptyString => true
  | String a p' =>
      match s with
      | String b s' => (Ascii.eqb a b && startswith p' s')%bool
      | EmptyString => false
      end
  end.

(** [p in s] for two strings. *)
Fixpoint contains (p s : string) : bool :=
  (startswith p s ||
   match s with
   | EmptyString => false
   | String _ s' => contains p s'
   end)%bool.

Fixpoint all_chars (p : ascii -> bool) (s : string) : bool :=
  match s with
  | EmptyString => true
  | String c s' => (p c && all_chars p s')%bool
  end.

(** The text [s] does not go on with a character of the class [p]. *)
Definition stops (p : ascii -> bool) (s : string) : Prop :=
  match s with
  | EmptyString => True
  | String c _ => p c = false
  end.

(** Any character but the asterisk. *)
Definition plain (c : ascii) : bool := negb (Ascii.eqb "*" c).

(** Any character but an upper-case letter of the alphabet. *)
Definition no_upper (c : ascii) : bool := negb (is_upper_ascii c).

(** A text without the character [sep]. *)
Definition free (sep : ascii) (s : string) : bool :=
  all_chars (fun c => negb (Ascii.eqb c sep)) s.

(** The first [n] characters. *)
Fixpoint take (n : nat) (s : string) : string :=
  match n, s with
  | S n', String c s' => String c (take n' s')
  | _, _ => EmptyString
  end.

Fixpoint drop (n : nat) (s : string) : string :=
  match n, s with
  | S n', String _ s' => drop n' s'
  | _, _ => s
  end.

(** [sep.join(l)]. *)
Fixpoint join (sep : string) (l : list string) : string :=
  match l with
  | [] => ""
  | [x] => x
  | x :: l' => x ++ sep ++ join sep l'
  end.

(** The double quote, and a text in which every apostrophe stands for one:
    [dq "{'a': 1}"] is the text of a JSON object. *)
Definition dquote : ascii := ascii_of_N 34.

Fixpoint dq (s : string) : string :=
  match s with
  | EmptyString => EmptyString
  | String c s' => String (if Ascii.eqb c "'" then dquote else c) (dq s')
  end.

(** [str(n)] for an integer. *)
Definition str_of_Z (z : Z) : string :=
  DecimalString.NilZero.string_of_int (Z.to_int z).

End Text.

(* ================================================================== *)
(** ** Regular expressions

    The patterns of the program use literals, character classes, greedy
    repetition of a class, alternation and one capturing group.  The matcher
    is the backtracking one of [re]: alternatives left to right, repetitions
    longest first, the leftmost match wins. *)

Module Re.

Import Text.

Inductive regex : Type :=
| Lit (l : string)
| Cls (p : ascii -> bool)
| Star (p : ascii -> bool)
| Plus (p : ascii -> bool)
| Cat (r1 r2 : regex)
| Alt (r1 r2 : regex)
| Group (r : regex).

(** Greedy repetition: take a character of the class when there is one and
    go on; when the rest of the pattern fails after that, stop here. *)
Fixpoint star {A} (p : ascii -> bool) (s : string) (k : string -> option A)
  : option A :=
  match s with
  | String c s' =>
      if p c then
        match star p s' k with
        | Some x => Some x
        | None => k s
        end
      else k s
  | EmptyString => k s
  end.

(** [m r s caps k]: match [r] at the start of [s], then continue with [k] on
    what is left and the groups captured so far. *)
Fixpoint m {A} (r : regex) (s : string) (caps : list string)
  (k : string -> list string -> option A) : option A :=
  match r with
  | Lit l =>
      if startswith l s then k (drop (String.length l) s) caps else None
  | Cls p =>
      match s with
      | String c s' => if p c then k s' caps else None
      | EmptyString => None
      end
  | Star p => star p s (fun s' => k s' caps)
  | Plus p =>
      match s with
      | String c s' => if p c then star p s' (fun s'' => k s'' caps) else None
      | EmptyString => None
      end
  | Cat r1 r2 => m r1 s caps (fun s' caps' => m r2 s' caps' k)
  | Alt r1 r2 =>
      match m r1 s caps k with
      | Some x => Some x
      | None => m r2 s caps k
      end
  | Group r =>
      m r s caps
        (fun s' caps' =>
           k s' (caps' ++ [take (String.length s - String.length s') s])%list)
  end.

(** A match that starts at the first character of [s]: [group(0)] and the
    captured groups. *)
Definition match_at (r : regex) (s : string) : option (string * list string) :=
  m r s [] (fun s' caps => Some (take (String.length s - String.length s') s, caps)).

(** [re.search(r, s)]: the match at the leftmost position that has one. *)
Fixpoint search (r : regex) (s : string) : option (string * list string) :=
  match match_at r s with
  | Some mo => Some mo
  | None =>
      match s with
      | EmptyString => None
      | String _ s' => search r s'
      end
  end.

Definition group0 (mo : string * list string) : string := fst mo.

(** [group(1)]; a pattern without a group has none, the empty text here (the
    program asks for [group(1)] only of patterns that have one). *)
Definition group1 (mo : string * list string) : string := nth 0 (snd mo) "".

(** [re.sub(r, '', s)]: every match, left to right and without overlap, is
    removed.  [skip] counts the characters of the current match still to be
    dropped.  An empty match removes nothing. *)
Fixpoint sub_empty_from (r : regex) (skip : nat) (s : string) : string :=
  match s with
  | EmptyString => EmptyString
  | String c s' =>
      match skip with
      | S n => sub_empty_from r n s'
      | O =>
          match match_at r s with
          | Some (g0, _) =>
              match String.length g0 with
              | O => String c (sub_empty_from r 0 s')
              | S n => sub_empty_from r n s'
              end
          | None => String c (sub_empty_from r 0 s')
          end
      end
  end.

Definition sub_empty (r : regex) (s : string) : string := sub_empty_from r 0 s.

Definition any_char (_ : ascii) : bool := true.
Definition is_char (a : ascii) (c : ascii) : bool := Ascii.eqb a c.
Definition not_brace (c : ascii) : bool :=
  negb (Ascii.eqb c "{" || Ascii.eqb c "}")%bool.

End Re.

(* ================================================================== *)
(** ** Floating-point numbers

    Python's [float] is the binary64 format, as are the primitive floats.
    Conversions from integers and from decimal text round to nearest, ties to
    even; [repr] prints the shortest decimal text that reads back as the same
    number. *)

Module PyFloat.

Import Text.

Definition SF := spec_float.

(** The binary64 number nearest to [num / den], for [num > 0] and [den > 0]:
    the quotient is taken with at least 62 significant bits and the remainder
    decides the rounding. *)
Definition round_ratio (neg : bool) (num den : Z) : SF :=
  let s := Z.max 0 (64 + Z.log2 den - Z.log2 num) in
  let '(q, r) := Z.div_eucl (Z.shiftl num s) den in
  let loc := if Z.eqb r 0 then loc_Exact else loc_Inexact (Z.compare (2 * r) den) in
  binary_round_aux prec emax neg q (- s) loc.

(** The binary64 number nearest to [c * 10 ^ e10], for [c >= 0]. *)
Definition dec_to_SF (neg : bool) (c e10 : Z) : SF :=
  if Z.eqb c 0 then S754_zero neg
  else if Z.leb 0 e10 then round_ratio neg (c * 10 ^ e10) 1
  else round_ratio neg c (10 ^ (- e10)).

Definition float_of_dec (neg : bool) (c e10 : Z) : float :=
  SF2Prim (dec_to_SF neg c e10).

(** [float(n)] for an integer: [None] stands for [OverflowError]. *)
Definition float_of_Z (z : Z) : option float :=
  match dec_to_SF (Z.ltb z 0) (Z.abs z) 0 with
  | S754_infinity _ => None
  | x => Some (SF2Prim x)
  end.

(** [int(x)] for a float cuts the fraction off.  [inl true] stands for
    [ValueError] (a NaN), [inl false] for [OverflowError] (an infinity). *)
Definition trunc (x : float) : bool + Z :=
  match Prim2SF x with
  | S754_nan => inl true
  | S754_infinity _ => inl false
  | S754_zero _ => inr 0
  | S754_finite s mt e =>
      let a := if Z.leb 0 e then Z.shiftl (Zpos mt) e else Z.shiftr (Zpos mt) (- e) in
      inr (if s then - a else a)
  end.

(** [min(a, b)] and [max(a, b)] on two floats: the first argument is the
    result unless the second is strictly smaller (larger). *)
Definition py_min (a b : float) : float := if PrimFloat.ltb b a then b else a.
Definition py_max (a b : float) : float := if PrimFloat.ltb a b then b else a.

(** [max(1.0, min(5.0, d))]. *)
Definition clamp_difficulty (d : float) : float :=
  py_max 1.0%float (py_min 5.0%float d).

(** *** [repr] *)

(** The position of the decimal point of [num / den > 0]: the [k] with
    [10^(k-1) <= num/den < 10^k]. *)
Fixpoint decpt_small (fuel : nat) (num den : Z) (k : Z) : Z :=
  match fuel with
  | O => k
  | S f => if Z.leb den num then k else decpt_small f (10 * num) den (k - 1)
  end.

Definition decpt_of (num den : Z) : Z :=
  if Z.leb den num then Z.of_nat (String.length (str_of_Z (num / den)))
  else decpt_small 400 (10 * num) den 0.

Definition same_SF (x y : SF) : bool := SFeqb x y.

(** The [n]-digit decimal nearest to [num / den] among those that read back
    as [x], if there is one: the digits as an integer, and the position of
    the decimal point. *)
Definition candidate (x : SF) (num den : Z) (k : Z) (n : Z) : option (Z * Z) :=
  let sc := n - k in
  let '(lo, r) :=
    if Z.leb 0 sc then Z.div_eucl (num * 10 ^ sc) den
    else Z.div_eucl num (den * 10 ^ (- sc)) in
  let d := if Z.leb 0 sc then den else den * 10 ^ (- sc) in
  let hi := lo + 1 in
  let ok_lo := same_SF (dec_to_SF false lo (- sc)) x in
  let ok_hi := same_SF (dec_to_SF false hi (- sc)) x in
  let lo_nearer :=
    match Z.compare (2 * r) d with
    | Lt => true
    | Eq => Z.even lo
    | Gt => false
    end in
  if (ok_lo && (lo_nearer || negb ok_hi))%bool then Some (lo, k)
  else if ok_hi then Some (hi, if Z.eqb hi (10 ^ n) then k + 1 else k)
  else None.

Fixpoint shortest (fuel : nat) (x : SF) (num den k n : Z) : Z * Z :=
  match fuel with
  | O => (0, 0)
  | S f =>
      match candidate x num den k n with
      | Some r => r
      | None => shortest f x num den k (n + 1)
      end
  end.

Fixpoint strip_zeros_rev (s : list ascii) : list ascii :=
  match s with
  | c :: s' => if Ascii.eqb c "0" then strip_zeros_rev s' else s
  | [] => []
  end.

(** The digits without their trailing zeros (one digit is kept). *)
Definition strip_trailing_zeros (s : string) : string :=
  match rev (strip_zeros_rev (rev (list_ascii_of_string s))) with
  | [] => "0"
  | l => string_of_list_ascii l
  end.

Fixpoint zeros (n : nat) : string :=
  match n with
  | O => ""
  | S n' => String "0" (zeros n')
  end.

(** The text of a positive number from its digits and the position of its
    decimal point, in the layout [repr] uses. *)
Definition layout (digits : string) (decpt : Z) : string :=
  let nd := Z.of_nat (String.length digits) in
  if (Z.ltb (- 4) decpt && Z.leb decpt 16)%bool then
    if Z.leb decpt 0 then "0." ++ zeros (Z.to_nat (- decpt)) ++ digits
    else if Z.leb nd decpt then digits ++ zeros (Z.to_nat (decpt - nd)) ++ ".0"
    else take (Z.to_nat decpt) digits ++ "." ++ drop (Z.to_nat decpt) digits
  else
    let e := decpt - 1 in
    let mant :=
      match digits with
      | String c EmptyString => digits
      | String c rest => String c ("." ++ rest)
      | EmptyString => digits
      end in
    let ea := str_of_Z (Z.abs e) in
    mant ++ "e" ++ (if Z.ltb e 0 then "-" else "+")
         ++ (if Z.ltb (Z.abs e) 10 then "0" ++ ea else ea).

(** [repr(x)], which is also [str(x)] and what an f-string prints. *)
Definition repr (x : float) : string :=
  match Prim2SF x with
  | S754_nan => "nan"
  | S754_infinity s => if s then "-inf" else "inf"
  | S754_zero s => if s then "-0.0" else "0.0"
  | S754_finite s mt e =>
      let num := if Z.leb 0 e then Z.shiftl (Zpos mt) e else Zpos mt in
      let den := if Z.leb 0 e then 1 else Z.shiftl 1 (- e) in
      let k := decpt_of num den in
      let '(c, k') := shortest 17 (S754_finite false mt e) num den k 1 in
      (if s then "-" else "") ++ layout (strip_trailing_zeros (str_of_Z c)) k'
  end.

End PyFloat.

(* ================================================================== *)
(** ** Python values and exceptions *)

Module Py.

Import Text.

#[warnings="-register-all"] Inductive value : Type :=
| VNone
| VBool (b : bool)
| VInt (z : Z)
| VFloat (x : float)
| VStr (s : string)
| VList (l : list value)
| VDict (d : list (string * value)).

Definition dict : Type := list (string * value).

(** The exceptions the two procedures can meet.  [APIError] stands for
    whatever the client library raises when the call to the endpoint fails. *)
Inductive exn : Type :=
| JSONDecodeError
| AttributeError
| TypeError
| ValueError
| OverflowError
| KeyError
| APIError.

Inductive res (A : Type) : Type :=
| Ok (a : A)
| Raise (e : exn).
Arguments Ok {A} a.
Arguments Raise {A} e.

Definition bind {A B} (x : res A) (f : A -> res B) : res B :=
  match x with
  | Ok a => f a
  | Raise e => Raise e
  end.

Notation "x <- c1 ;; c2" := (bind c1 (fun x => c2))
  (at level 61, c1 at next level, right associativity).

(** *** Dictionaries *)

Fixpoint lookup (k : string) (d : dict) : option value :=
  match d with
  | [] => None
  | (k', v) :: d' => if String.eqb k k' then Some v else lookup k d'
  end.

(** [k in d]. *)
Definition has_key (k : string) (d : dict) : bool :=
  match lookup k d with
  | Some _ => true
  | None => false
  end.

(** [d.get(k)] and [d.get(k, default)]. *)
Definition get (k : string) (d : dict) : value :=
  match lookup k d with
  | Some v => v
  | None => VNone
  end.

Definition get_default (k : string) (dflt : value) (d : dict) : value :=
  match lookup k d with
  | Some v => v
  | None => dflt
  end.

(** [d[k] = v]: a key already there keeps its place, a new one goes last. *)
Fixpoint set (k : string) (v : value) (d : dict) : dict :=
  match d with
  | [] => [(k, v)]
  | (k', v') :: d' =>
      if String.eqb k k' then (k, v) :: d' else (k', v') :: set k v d'
  end.

(** *** Truth value, as [not x] and [if x] see it *)

Definition truthy (v : value) : bool :=
  match v with
  | VNone => false
  | VBool b => b
  | VInt z => negb (Z.eqb z 0)
  | VFloat x => negb (PrimFloat.eqb x 0%float)
  | VStr s => negb (String.eqb s "")
  | VList l => match l with [] => false | _ => true end
  | VDict d => match d with [] => false | _ => true end
  end.

(** *** [str] and [repr] *)

Definition hex_digit (n : N) : ascii :=
  if N.ltb n 10 then ascii_of_N (48 + n) else ascii_of_N (87 + n).

Definition printable (c : ascii) : bool :=
  (in_range 32 126 c || (in_range 161 255 c && negb (N.eqb (code c) 173)))%bool.

Fixpoint escape (quote : ascii) (s : string) : string :=
  match s with
  | EmptyString => EmptyString
  | String c s' =>
      (if (Ascii.eqb c quote || Ascii.eqb c "\")%bool then String "\" (String c "")
       else if N.eqb (code c) 9 then "\t"
       else if N.eqb (code c) 10 then "\n"
       else if N.eqb (code c) 13 then "\r"
       else if printable c then String c ""
       else String "\" (String "x" (String (hex_digit (code c / 16))
                                      (String (hex_digit (code c mod 16)) ""))))
      ++ escape quote s'
  end.

(** [repr(s)] for a string: single quotes, unless the text has a single
    quote and no double quote. *)
Definition repr_str (s : string) : string :=
  let quote : ascii :=
    if (contains "'" s && negb (contains (String dquote "") s))%bool
    then dquote else "'"%char in
  String quote (escape quote s) ++ String quote "".

Fixpoint repr (v : value) : string :=
  match v with
  | VNone => "None"
  | VBool b => if b then "True" else "False"
  | VInt z => str_of_Z z
  | VFloat x => PyFloat.repr x
  | VStr s => repr_str s
  | VList l => "[" ++ join ", " (map repr l) ++ "]"
  | VDict d =>
      "{" ++ join ", "
               (map (fun kv => match kv with
                               | (k, v') => repr_str k ++ ": " ++ repr v'
                               end) d)
          ++ "}"
  end.

(** [str(v)], what [f"{v}"] prints. *)
Definition str (v : value) : string :=
  match v with
  | VStr s => s
  | _ => repr v
  end.

End Py.

(* ================================================================== *)
(** ** Numbers in text *)

Module Num.

Import Text.

Definition digit_val (c : ascii) : Z := Z.of_N (code c) - 48.

(** The longest run of decimal digits at the start of [s]: its value after
    [acc], the number of digits read after [n], and what follows. *)
Fixpoint read_digits (s : string) (acc : Z) (n : nat) : Z * nat * string :=
  match s with
  | String c s' =>
      if is_digit c then read_digits s' (10 * acc + digit_val c) (S n)
      else (acc, n, s)
  | EmptyString => (acc, n, s)
  end.

(** An optional sign: whether it is a minus, and what follows. *)
Definition read_sign (s : string) : bool * string :=
  match s with
  | String c s' =>
      if Ascii.eqb c "-" then (true, s')
      else if Ascii.eqb c "+" then (false, s')
      else (false, s)
  | EmptyString => (false, s)
  end.

(** A fraction [.ddd] with at least one digit: the digits' value, their
    number, and what follows. *)
Definition read_frac (s : string) : option (Z * nat * string) :=
  match s with
  | String c s' =>
      if Ascii.eqb c "." then
        match read_digits s' 0 0 with
        | (_, O, _) => None
        | r => Some r
        end
      else None
  | EmptyString => None
  end.

(** An exponent [e+dd], [E-dd], [edd] with at least one digit. *)
Definition read_exp (s : string) : option (Z * string) :=
  match s with
  | String c s' =>
      if (Ascii.eqb c "e" || Ascii.eqb c "E")%bool then
        let '(neg, s1) := read_sign s' in
        match read_digits s1 0 0 with
        | (_, O, _) => None
        | (v, _, rest) => Some (if neg then - v else v, rest)
        end
      else None
  | EmptyString => None
  end.

(** Underscores in a numeric literal given to [int()] or [float()]: each
    must stand between two digits, and is then dropped. *)
Fixpoint drop_underscores (prev_digit : bool) (s : string) : option string :=
  match s with
  | EmptyString => Some EmptyString
  | String c s' =>
      if Ascii.eqb c "_" then
        match s' with
        | String d _ =>
            if (prev_digit && is_digit d)%bool then drop_underscores false s'
            else None
        | EmptyString => None
        end
      else
        match drop_underscores (is_digit c) s' with
        | Some r => Some (String c r)
        | None => None
        end
  end.

(** [int(s)] for a string: white space around, a sign, digits. *)
Definition int_of_string (s : string) : option Z :=
  match drop_underscores false (strip_num s) with
  | None => None
  | Some t =>
      let '(neg, t1) := read_sign t in
      match read_digits t1 0 0 with
      | (_, O, _) => None
      | (v, _, EmptyString) => Some (if neg then - v else v)
      | _ => None
      end
  end.

(** [float(s)] for a string: white space around, a sign, then [inf],
    [infinity] or [nan] in any case, or a decimal literal with digits before
    or after the point and an optional exponent. *)
Definition float_of_string (s : string) : option float :=
  match drop_underscores false (strip_num s) with
  | None => None
  | Some t =>
      let '(neg, t1) := read_sign t in
      let w := lower t1 in
      if (String.eqb w "inf" || String.eqb w "infinity")%bool
      then Some (if neg then neg_infinity else infinity)
      else if String.eqb w "nan" then Some nan
      else
        let '(ip, ni, t2) := read_digits t1 0 0 in
        let '(fp, nf, t3) :=
          match t2 with
          | String c t2' =>
              if Ascii.eqb c "." then read_digits t2' 0 0 else (0, O, t2)
          | EmptyString => (0, O, t2)
          end in
        match (ni + nf)%nat with
        | O => None
        | _ =>
            let '(ex, t4) :=
              match read_exp t3 with
              | Some r => r
              | None => (0, t3)
              end in
            match t4 with
            | EmptyString =>
                Some (PyFloat.float_of_dec neg (ip * 10 ^ Z.of_nat nf + fp)
                        (ex - Z.of_nat nf))
            | _ => None
            end
        end
  end.

End Num.

(* ================================================================== *)
(** ** [json.loads]

    The decoder of the [json] module in its default configuration: white
    space is space, tab, line feed and carriage return; a number without
    fraction and exponent is an [int], any other a [float]; [NaN], [Infinity]
    and [-Infinity] are accepted; a key given twice keeps its last value;
    text after the value is an error.  [None] stands for [JSONDecodeError],
    on the texts the decoder is meant for: see [within] at the end. *)

Module Json.

Import Text Num Py.

Definition is_ws (c : ascii) : bool :=
  (Ascii.eqb c " " || N.eqb (code c) 9 || N.eqb (code c) 10 || N.eqb (code c) 13)%bool.

Fixpoint skip_ws (s : string) : string :=
  match s with
  | String c s' => if is_ws c then skip_ws s' else s
  | EmptyString => s
  end.

Definition hex_val (c : ascii) : option N :=
  if is_digit c then Some (code c - 48)%N
  else if in_range 97 102 c then Some (code c - 87)%N
  else if in_range 65 70 c then Some (code c - 55)%N
  else None.

Definition hex4 (a b c d : ascii) : option N :=
  match hex_val a, hex_val b, hex_val c, hex_val d with
  | Some x, Some y, Some z, Some w => Some (((x * 16 + y) * 16 + z) * 16 + w)%N
  | _, _, _, _ => None
  end.

Definition unescape (c : ascii) : option ascii :=
  if Ascii.eqb c dquote then Some dquote
  else if Ascii.eqb c "\" then Some "\"%char
  else if Ascii.eqb c "/" then Some "/"%char
  else if Ascii.eqb c "b" then Some (ascii_of_N 8)
  else if Ascii.eqb c "f" then Some (ascii_of_N 12)
  else if Ascii.eqb c "n" then Some (ascii_of_N 10)
  else if Ascii.eqb c "r" then Some (ascii_of_N 13)
  else if Ascii.eqb c "t" then Some (ascii_of_N 9)
  else None.

Definition push (c : ascii) (r : option (string * string)) : option (string * string) :=
  match r with
  | Some (t, rest) => Some (String c t, rest)
  | None => None
  end.

(** The body of a string literal, after its opening quote: the decoded text
    and what follows the closing quote. *)
Fixpoint scanstring (s : string) : option (string * string) :=
  match s with
  | EmptyString => None
  | String c s' =>
      if Ascii.eqb c dquote then Some (EmptyString, s')
      else if Ascii.eqb c "\" then
        match s' with
        | String e s'' =>
            if Ascii.eqb e "u" then
              match s'' with
              | String h1 (String h2 (String h3 (String h4 r))) =>
                  match hex4 h1 h2 h3 h4 with
                  | Some n =>
                      if N.leb n 255 then push (ascii_of_N n) (scanstring r)
                      else None
                  | None => None
                  end
              | _ => None
              end
            else
              match unescape e with
              | Some ch => push ch (scanstring s'')
              | None => None
              end
        | EmptyString => None
        end
      else if N.ltb (code c) 32 then None
      else push c (scanstring s')
  end.

(** A number at the start of [s]. *)
Definition scan_number (s : string) : option (value * string) :=
  let '(neg, s1) :=
    match s with
    | String c s' => if Ascii.eqb c "-" then (true, s') else (false, s)
    | EmptyString => (false, s)
    end in
  match s1 with
  | String c s1' =>
      if is_digit c then
        let '(ip, s2) :=
          if Ascii.eqb c "0" then (0, s1')
          else let '(v, _, rest) := read_digits s1 0 0 in (v, rest) in
        let '(fp, nf, s3, has_frac) :=
          match read_frac s2 with
          | Some (v, n, rest) => (v, n, rest, true)
          | None => (0, O, s2, false)
          end in
        let '(ex, s4, has_exp) :=
          match read_exp s3 with
          | Some (v, rest) => (v, rest, true)
          | None => (0, s3, false)
          end in
        if (has_frac || has_exp)%bool then
          Some (VFloat (PyFloat.float_of_dec neg (ip * 10 ^ Z.of_nat nf + fp)
                          (ex - Z.of_nat nf)), s4)
        else Some (VInt (if neg then - ip else ip), s4)
      else None
  | EmptyString => None
  end.

(** A constant word at the start of [s]. *)
Definition scan_word (w : string) (v : value) (s : string) : option (value * string) :=
  if startswith w s then Some (v, drop (String.length w) s) else None.

Definition first_of {A} (a b : option A) : option A :=
  match a with
  | Some _ => a
  | None => b
  end.

(** One value at the start of [s], and what follows it. *)
Fixpoint scan_once (fuel : nat) (s : string) : option (value * string) :=
  match fuel with
  | O => None
  | S f =>
      match s with
      | EmptyString => None
      | String c s' =>
          if Ascii.eqb c dquote then
            match scanstring s' with
            | Some (t, rest) => Some (VStr t, rest)
            | None => None
            end
          else if Ascii.eqb c "{" then
            match skip_ws s' with
            | String c1 r1 =>
                if Ascii.eqb c1 "}" then Some (VDict [], r1)
                else scan_members f (String c1 r1) []
            | EmptyString => None
            end
          else if Ascii.eqb c "[" then
            match skip_ws s' with
            | String c1 r1 =>
                if Ascii.eqb c1 "]" then Some (VList [], r1)
                else scan_elements f (String c1 r1) []
            | EmptyString => None
            end
          else
            first_of (scan_word "null" VNone s)
            (first_of (scan_word "true" (VBool true) s)
            (first_of (scan_word "false" (VBool false) s)
            (first_of (scan_number s)
            (first_of (scan_word "NaN" (VFloat nan) s)
            (first_of (scan_word "Infinity" (VFloat infinity) s)
                      (scan_word "-Infinity" (VFloat neg_infinity) s))))))
      end
  end

(** The members of an object from a key on: ["key" : value] then [,] and the
    next member, or [}]. *)
with scan_members (fuel : nat) (s : string) (acc : dict) : option (value * string) :=
  match fuel with
  | O => None
  | S f =>
      match s with
      | String c s' =>
          if Ascii.eqb c dquote then
            match scanstring s' with
            | Some (key, r1) =>
                match skip_ws r1 with
                | String c2 r2 =>
                    if Ascii.eqb c2 ":" then
                      match scan_once f (skip_ws r2) with
                      | Some (v, r3) =>
                          let acc' := set key v acc in
                          match skip_ws r3 with
                          | String c4 r4 =>
                              if Ascii.eqb c4 "}" then Some (VDict acc', r4)
                              else if Ascii.eqb c4 "," then
                                scan_members f (skip_ws r4) acc'
                              else None
                          | EmptyString => None
                          end
                      | None => None
                      end
                    else None
                | EmptyString => None
                end
            | None => None
            end
          else None
      | EmptyString => None
      end
  end

(** The elements of an array from a value on. *)
with scan_elements (fuel : nat) (s : string) (acc : list value) : option (value * string) :=
  match fuel with
  | O => None
  | S f =>
      match scan_once f s with
      | Some (v, r1) =>
          let acc' := (acc ++ [v])%list in
          match skip_ws r1 with
          | String c2 r2 =>
              if Ascii.eqb c2 "]" then Some (VList acc', r2)
              else if Ascii.eqb c2 "," then scan_elements f (skip_ws r2) acc'
              else None
          | EmptyString => None
          end
      | None => None
      end
  end.

(** [json.loads(s)]. *)
Definition loads (s : string) : option value :=
  match scan_once (2 * String.length s + 2) (skip_ws s) with
  | Some (v, rest) =>
      match skip_ws rest with
      | EmptyString => Some v
      | _ => None
      end
  | None => None
  end.

(** *** The texts the decoder is meant for

    On three kinds of text [json.loads] does what [loads] cannot follow.  It
    decodes a [\u] escape above U+00FF into a character that the alphabet of
    the model does not have, where [scanstring] above stops.  It raises
    [ValueError], which is no [JSONDecodeError], on an integer of more than
    4300 digits.  It raises [RecursionError] when arrays and objects are
    nested deeper than the interpreter allows, about 1000 levels.  There
    the [None] of [loads] is no [JSONDecodeError], and its [Some] may be an
    exception.  [within] keeps a text clear of the three by counting: no such
    escape anywhere in the text, at most 4300 digits in all, and at most 100
    opening brackets and braces. *)

(** A backslash, [u] and four hexadecimal digits above [00FF], somewhere in
    the text. *)
Fixpoint wide_escape (s : string) : bool :=
  match s with
  | EmptyString => false
  | String b s' =>
      (match s' with
       | String u (String h1 (String h2 (String h3 (String h4 _)))) =>
           (Ascii.eqb b "\" && Ascii.eqb u "u"
            && match hex4 h1 h2 h3 h4 with
               | Some n => N.ltb 255 n
               | None => false
               end)%bool
       | _ => false
       end
       || wide_escape s')%bool
  end.

(** How many characters of the class [p] the text has. *)
Fixpoint count (p : ascii -> bool) (s : string) : nat :=
  match s with
  | EmptyString => O
  | String c s' => if p c then S (count p s') else count p s'
  end.

Definition opens (c : ascii) : bool := (Ascii.eqb c "[" || Ascii.eqb c "{")%bool.

Definition within (s : string) : bool :=
  (negb (wide_escape s)
   && Nat.leb (count is_digit s) 4300
   && Nat.leb (count opens s) 100)%bool.

End Json.

(* ================================================================== *)
(** ** Coercions: [float(v)], [int(v)], [k in v] *)

Module Coerce.

Import Text Py.

Definition py_float (v : value) : res float :=
  match v with
  | VFloat x => Ok x
  | VInt z =>
      match PyFloat.float_of_Z z with
      | Some x => Ok x
      | None => Raise OverflowError
      end
  | VBool b => Ok (if b then 1%float else 0%float)
  | VStr s =>
      match Num.float_of_string s with
      | Some x => Ok x
      | None => Raise ValueError
      end
  | VNone | VList _ | VDict _ => Raise TypeError
  end.

Definition py_int (v : value) : res Z :=
  match v with
  | VInt z => Ok z
  | VBool b => Ok (if b then 1 else 0)
  | VFloat x =>
      match PyFloat.trunc x with
      | inr z => Ok z
      | inl true => Raise ValueError
      | inl false => Raise OverflowError
      end
  | VStr s =>
      match Num.int_of_string s with
      | Some z => Ok z
      | None => Raise ValueError
      end
  | VNone | VList _ | VDict _ => Raise TypeError
  end.

Definition is_str (k : string) (v : value) : bool :=
  match v with
  | VStr s => String.eqb k s
  | _ => false
  end.

(** [k in q] for a string [k]: a key of a dict, a piece of a string, an
    element of a list; nothing else can be searched. *)
Definition py_in (k : string) (q : value) : res bool :=
  match q with
  | VDict d => Ok (has_key k d)
  | VStr s => Ok (contains k s)
  | VList l => Ok (existsb (is_str k) l)
  | VNone | VBool _ | VInt _ | VFloat _ => Raise TypeError
  end.

(** [q[k]] for a string [k]. *)
Definition subscript (k : string) (q : value) : res value :=
  match q with
  | VDict d =>
      match lookup k d with
      | Some v => Ok v
      | None => Raise KeyError
      end
  | _ => Raise TypeError
  end.

End Coerce.

(* ================================================================== *)
(** ** [llm_utils.py] *)

Module LlmUtils.

Import Text Re Py Coerce.

(** What the call to the endpoint comes to: [get_groq_client()] gave no
    client; the call (or reading the message out of its answer) raised; or the
    text of the answer.  The prompts, built from the question and its course,
    go to the endpoint only: nothing after the call reads them. *)
Inductive gateway : Type :=
| NoClient
| CallRaised (e : exn)
| Response (content : string).

Definition nl : string := String (ascii_of_N 10) "".

(** [r'```json\s*|\s*```'] *)
Definition fence_re : regex :=
  Alt (Cat (Lit "```json") (Star is_space)) (Cat (Star is_space) (Lit "```")).

(** [r'\{[^{}]*\}'] *)
Definition brace_re : regex := Cat (Lit "{") (Cat (Star not_brace) (Lit "}")).

(** [r'\[.*\]'] with [re.DOTALL] *)
Definition bracket_re : regex := Cat (Lit "[") (Cat (Star any_char) (Lit "]")).

Definition placeholder : string := "No specific improvement suggestions provided.".

(** The f-string of the report, from the printed fields. *)
Definition analysis_text (difficulty_rating estimated_time student_level
                          improvement_suggestions : string) : string :=
  "## Question Analysis" ++ nl ++ nl
  ++ "**Difficulty Rating:** " ++ difficulty_rating ++ "/5.0" ++ nl ++ nl
  ++ "**Estimated Time:** " ++ estimated_time ++ " minutes" ++ nl ++ nl
  ++ "**Appropriate Student Level:** " ++ student_level ++ nl ++ nl
  ++ "### Improvement Suggestions:" ++ nl
  ++ improvement_suggestions ++ nl.

(** Lines 176-182: the estimated time of the direct path. *)
Definition validate_time (estimated_time : value) : res Z :=
  match estimated_time with
  | VNone => Ok 5
  | v => t <- py_int v ;; Ok (Z.max 1 (Z.min 60 t))
  end.

(** Lines 184-195: the student level of the direct path.  Only a string has
    [lower()]. *)
Definition validate_level (student_level : value) : res string :=
  match student_level with
  | VNone => Ok "Intermediate"
  | VStr s =>
      let l := lower s in
      if contains "beginner" l then Ok "Beginner"
      else if contains "advanced" l then Ok "Advanced"
      else Ok "Intermediate"
  | _ => Raise AttributeError
  end.

(** Lines 197-198. *)
Definition validate_suggestions (improvement_suggestions : value) : string :=
  if truthy improvement_suggestions then str improvement_suggestions
  else placeholder.

(** Lines 163-213: the direct path, from the parsed response on.  Only a
    dict has [get]. *)
Definition analyze_result (result : value) : res (option float * string) :=
  match result with
  | VDict d =>
      match get "difficulty_rating" d with
      | VNone => Ok (None, "Error: No difficulty rating provided in analysis")
      | v =>
          x <- py_float v ;;
          let difficulty_rating := PyFloat.clamp_difficulty x in
          estimated_time <- validate_time (get "estimated_time" d) ;;
          student_level <- validate_level (get "student_level" d) ;;
          let improvement_suggestions :=
            validate_suggestions (get "improvement_suggestions" d) in
          Ok (Some difficulty_rating,
              analysis_text (PyFloat.repr difficulty_rating)
                (str_of_Z estimated_time) student_level
                improvement_suggestions)
      end
  | _ => Raise AttributeError
  end.

(** Lines 220-242: the second attempt, on the first brace-delimited piece of
    the text.  [Ok None] is the [if json_match:] not taken. *)
Definition analyze_fallback (response_text : string)
  : res (option (float * string)) :=
  match search brace_re response_text with
  | None => Ok None
  | Some json_match =>
      match Json.loads (group0 json_match) with
      | None => Raise JSONDecodeError
      | Some (VDict d) =>
          difficulty_rating <-
            py_float (get_default "difficulty_rating" (VFloat 3.0%float) d) ;;
          estimated_time <- py_int (get_default "estimated_time" (VInt 5) d) ;;
          let student_level :=
            get_default "student_level" (VStr "Intermediate") d in
          let improvement_suggestions :=
            get_default "improvement_suggestions" (VStr placeholder) d in
          Ok (Some (difficulty_rating,
                    analysis_text (PyFloat.repr difficulty_rating)
                      (str_of_Z estimated_time) (str student_level)
                      (str improvement_suggestions)))
      | Some _ => Raise AttributeError
      end
  end.

(** Lines 156-158: the fence markers are removed and the text stripped. *)
Definition clean (response_text : string) : string :=
  strip (sub_empty fence_re response_text).

(** Lines 149-247: from the text of the answer on.  [except
    json.JSONDecodeError] takes the failure of the first [json.loads] only;
    the inner [except Exception] takes every failure of the second attempt. *)
Definition analyze_response (content : string) : res (option float * string) :=
  let response_text := clean (strip content) in
  match Json.loads response_text with
  | Some result => analyze_result result
  | None =>
      match analyze_fallback response_text with
      | Ok (Some (difficulty_rating, text)) => Ok (Some difficulty_rating, text)
      | Ok None | Raise _ =>
          Ok (Some 3.0%float, "Analysis (raw): " ++ response_text)
      end
  end.

Section Messages.

(** [str(e)], the message of an exception: the interpreter's and the client
    library's wording. *)
Variable str_exn : exn -> string.

(** [analyze_question], as a function of what the call comes to. *)
Definition analyze_question (g : gateway) : option float * string :=
  match g with
  | NoClient =>
      (None, "Error: Groq client not initialized. Please check your API key configuration.")
  | CallRaised e => (None, "Error calling Groq API: " ++ str_exn e)
  | Response content =>
      match analyze_response content with
      | Ok r => r
      | Raise e => (None, "Error calling Groq API: " ++ str_exn e)
      end
  end.

End Messages.

(** *** [generate_questions] *)

Definition required : list string :=
  ["question_content"; "question_type"; "difficulty"; "correct_answer"].

(** [all(k in q for k in ks)]: stops at the first key that is not in [q]. *)
Fixpoint all_in (ks : list string) (q : value) : res bool :=
  match ks with
  | [] => Ok true
  | k :: ks' => b <- py_in k q ;; if b then all_in ks' q else Ok false
  end.

(** Lines 365-382, the body of the loop: [Ok None] is the [continue], [Ok
    (Some q')] the element appended. *)
Definition validate_question (q : value) : res (option value) :=
  ok <- all_in required q ;;
  if negb ok then Ok None
  else
    v <- subscript "difficulty" q ;;
    x <- py_float v ;;
    match q with
    | VDict d =>
        let d1 := set "difficulty" (VFloat (PyFloat.clamp_difficulty x)) d in
        d2 <- (if has_key "estimated_time" d1
               then t <- py_int (get "estimated_time" d1) ;;
                    Ok (set "estimated_time" (VInt t) d1)
               else Ok (set "estimated_time" (VInt 5) d1)) ;;
        let d3 :=
          if has_key "student_level" d2 then d2
          else set "student_level" (VStr "Intermediate") d2 in
        Ok (Some (VDict d3))
    | _ => Raise TypeError
    end.

(** Lines 363-384: the loop. *)
Fixpoint validate_questions (questions validated_questions : list value)
  : res (list value) :=
  match questions with
  | [] => Ok validated_questions
  | q :: rest =>
      r <- validate_question q ;;
      validate_questions rest
        (match r with
         | Some q' => validated_questions ++ [q']
         | None => validated_questions
         end)%list
  end.

(** Lines 354-390: from the text of the answer on.  The text matched starts
    with a bracket, so what [json.loads] makes of it is a list. *)
Definition generate_response (response_text : string) : res (list value) :=
  match search bracket_re response_text with
  | Some json_match =>
      match Json.loads (group0 json_match) with
      | None => Ok []
      | Some (VList questions) => validate_questions questions []
      | Some _ => Raise TypeError
      end
  | None => Ok []
  end.

(** [generate_questions], as a function of what the call comes to. *)
Definition generate_questions (g : gateway) : list value :=
  match g with
  | NoClient => []
  | CallRaised _ => []
  | Response content =>
      match generate_response content with
      | Ok l => l
      | Raise _ => []
      end
  end.

End LlmUtils.

(* ================================================================== *)
(** ** [pages/question_generator.py]: reading the report back *)

Module QuestionGenerator.

Import Text Re Py.

(** [r'\*\*Estimated Time:\*\* (\d+) minutes'] *)
Definition time_re : regex :=
  Cat (Lit "**Estimated Time:** ") (Cat (Group (Plus is_digit)) (Lit " minutes")).

(** [r'\*\*Appropriate Student Level:\*\* (\w+)'] *)
Definition level_re : regex :=
  Cat (Lit "**Appropriate Student Level:** ") (Group (Plus is_word)).

(** Lines 151-152. *)
Definition estimated_time (analysis_text : string) : res Z :=
  match search time_re analysis_text with
  | Some time_match =>
      match Num.int_of_string (group1 time_match) with
      | Some t => Ok t
      | None => Raise ValueError
      end
  | None => Ok 5
  end.

(** Lines 155-156. *)
Definition student_level (analysis_text : string) : string :=
  match search level_re analysis_text with
  | Some level_match => group1 level_match
  | None => "Intermediate"
  end.

End QuestionGenerator.

(* ================================================================== *)
(** ** The discard rule, in the words of the specification *)

Module Spec.

Import Py.
Local Open Scope string_scope.

(** A record is kept when it is an object that has all of
    [question_content], [question_type], [difficulty] and [correct_answer]. *)
Definition has_required (q : value) : bool :=
  match q with
  | VDict d => forallb (fun k => has_key k d) LlmUtils.required
  | _ => false
  end.

(** The three fields the Generator rewrites. *)
Definition normalised_key (k : string) : bool :=
  (String.eqb k "difficulty" || String.eqb k "estimated_time"
   || String.eqb k "student_level")%bool.

(** The three fields as the loop leaves them, for the difficulty [x] and the
    time [t] the coercions gave. *)
Definition rewritten (d : dict) (x : float) (t : Z) : dict :=
  let d2 := set "estimated_time" (VInt t)
              (set "difficulty" (VFloat (PyFloat.clamp_difficulty x)) d) in
  if has_key "student_level" d2 then d2
  else set "student_level" (VStr "Intermediate") d2.

(** A kept record and the element it comes from: both are objects, and
    they agree on every key but the three rewritten ones. *)
Definition kept_as (q q' : value) : Prop :=
  exists d d',
    q = VDict d /\ q' = VDict d'
    /\ (forall k, normalised_key k = false -> lookup k d' = lookup k d).

End Spec.

(* ================================================================== *)
(** ** Sample replies *)

Module Samples.

Import Text.

(** A reply wrapped in prose, whose object rates the difficulty 9. *)
Definition prose_reply_9 : string := dq "Result: {'difficulty_rating': 9}".

(** A reply wrapped in prose, whose object gives 999 minutes. *)
Definition prose_reply_999 : string :=
  dq "Result: {'difficulty_rating': 3, 'estimated_time': 999}".

(** A reply that is prose between fence markers. *)
Definition fenced_prose : string := "```json The question is fine. ```".

(** A reply wrapped in prose, whose object gives a level in two words. *)
Definition prose_reply_level : string :=
  dq "Result: {'difficulty_rating': 3, 'student_level': 'not advanced'}".

(** A reply whose suggestions repeat the markers of the report. *)
Definition echo_reply : string :=
  dq "{'difficulty_rating': '2.5', 'estimated_time': 12.5, 'student_level': 'Not advanced', 'improvement_suggestions': '**Estimated Time:** 3 minutes, **Appropriate Student Level:** Beginner'}".

(** The object of the specification's example, and a reply that wraps a
    payload in fence markers with white space [w0] .. [w3] around them. *)
Definition example_payload : string :=
  dq "{'difficulty_rating': 7, 'estimated_time': 999, 'student_level': 'novice', 'improvement_suggestions': ''}".


(** A batch of three questions, the second of which has no difficulty. *)
Definition batch_of_three : string :=
  dq "Here you are: [{'question_content': 'a', 'question_type': 'Essay', 'difficulty': 9, 'correct_answer': 'x'}, {'question_content': 'b', 'question_type': 'Essay', 'correct_answer': 'y'}, {'question_content': 'c', 'question_type': 'Essay', 'difficulty': '2.5', 'correct_answer': 'z', 'estimated_time': '90'}]".

(** A batch of two complete questions, the second with a difficulty in
    words. *)
Definition batch_with_hard : string :=
  dq "[{'question_content': 'a', 'question_type': 'Essay', 'difficulty': 3, 'correct_answer': 'x'}, {'question_content': 'b', 'question_type': 'Essay', 'difficulty': 'hard', 'correct_answer': 'y'}]".

(** A batch of one question whose level is none of the three labels. *)
Definition batch_with_expert : string :=
  dq "[{'question_content': 'a', 'question_type': 'Essay', 'difficulty': 3, 'correct_answer': 'x', 'student_level': 'Expert'}]".

(** A batch of one multiple-choice question with its explanation, rated
    below the scale. *)
Definition batch_to_save : string :=
  dq "[{'question_content': 'What is 2 + 2?', 'question_type': 'Multiple Choice', 'difficulty': 0.5, 'correct_answer': '4', 'explanation': 'Two and two make four.', 'options': ['A. 3', 'B. 4', 'C. 5', 'D. 22']}]".

(** A record as [generate_questions] returns it. *)
Definition generated_record : Py.value :=
  Py.VDict [("question_content", Py.VStr "What is 2 + 2?");
            ("question_type", Py.VStr "Multiple Choice");
            ("difficulty", Py.VFloat 1);
            ("correct_answer", Py.VStr "4");
            ("explanation", Py.VStr "Two and two make four.");
            ("options", Py.VList [Py.VStr "A. 3"; Py.VStr "B. 4";
                                  Py.VStr "C. 5"; Py.VStr "D. 22"]);
            ("estimated_time", Py.VInt 2);
            ("student_level", Py.VStr "Beginner")].

End Samples.

(* ================================================================== *)
(** ** The rows of the question table

    The keyword arguments the pages give to [Question(...)]; the class itself
    is in models.py, which is not among the sources.  The two time stamps
    ([datetime.utcnow()]) are left out.  A field holds the Python object the
    page passes: text from a form, any JSON value from a generated record. *)

Module Models.

Import Py.

Record Question : Type := {
  chapter_id : Z;
  content : value;
  question_type : value;
  correct_answer : value;
  explanation : value;
  difficulty : float;
  estimated_time : Z;
  student_level : value;
  tags : option value;
  created_by : option Z
}.

(** What a page can meet besides the exceptions of the two procedures: an
    index past the end of a list, and a failure of the database. *)
Inductive failure : Type :=
| Python (e : exn)
| IndexError
| DatabaseError.

Inductive outcome (A : Type) : Type :=
| Done (a : A)
| Failed (f : failure).
Arguments Done {A} a.
Arguments Failed {A} f.

Definition lift {A} (r : res A) : outcome A :=
  match r with
  | Ok a => Done a
  | Raise e => Failed (Python e)
  end.

Definition and_then {A B} (x : outcome A) (f : A -> outcome B) : outcome B :=
  match x with
  | Done a => f a
  | Failed e => Failed e
  end.

Notation "x <~ c1 ;; c2" := (and_then c1 (fun x => c2))
  (at level 61, c1 at next level, right associativity).

End Models.

(* ================================================================== *)
(** ** [llm_utils.py]: the client, the prompts and the call *)

Module Gateway.

Import Text Py Coerce.

(** The arguments of [client.chat.completions.create]; the two messages
    are the system and the user prompt. *)
Record request : Type := {
  system_prompt : string;
  user_prompt : string;
  model : string;
  temperature : float;
  max_tokens : Z;
  top_p : Z;
  stream : bool
}.

(** Line 69. *)
Definition analysis_system_prompt : string :=
  "You are an educational expert that analyzes academic questions and provides feedback. Always respond in valid JSON format.".

(** Line 289. *)
Definition generation_system_prompt : string :=
  "You are an educational expert specialized in creating high-quality academic questions that assess understanding and critical thinking.".

(** Lines 295-296, the loop over the examples kept: [i] counts from 0. *)
Fixpoint example_lines (i : nat) (qs : list string) : string :=
  match qs with
  | [] => ""
  | q :: rest =>
      "Example " ++ str_of_Z (Z.of_nat (i + 1)) ++ ":" ++ String (ascii_of_N 10) ""
      ++ q ++ String (ascii_of_N 10) (String (ascii_of_N 10) "")
      ++ example_lines (S i) rest
  end.

(** Lines 291-296. *)
Definition examples_text (existing_questions : list string) : string :=
  match existing_questions with
  | [] => ""
  | _ =>
      "Here are some example questions from this course:"
      ++ String (ascii_of_N 10) (String (ascii_of_N 10) "")
      ++ example_lines 0 (firstn 3 existing_questions)
  end.

(** Lines 71-133, the f-string of the Evaluator's prompt. *)
Definition analysis_user_prompt (question_content question_type course_title chapter_title ilos : string) : string :=
  let q := String dquote EmptyString in
  "
        Analyze this academic question and provide feedback:
        
        COURSE: "
  ++ course_title
  ++ "
        CHAPTER: "
  ++ chapter_title
  ++ "
        QUESTION TYPE: "
  ++ question_type
  ++ "
        INTENDED LEARNING OUTCOMES (ILOs): "
  ++ ilos
  ++ "
        
        QUESTION: "
  ++ question_content
  ++ "
        
        Please analyze this question and provide:
        
        1. DIFFICULTY RATING: Rate the question's difficulty on a scale of 1.0 to 5.0 (where 1 is easiest and 5 is hardest). Consider the complexity, cognitive load, and alignment with the ILOs.
        
        2. ESTIMATED TIME: Carefully evaluate and suggest a precise time (in minutes) that students would need to answer this question. You must be extremely accurate with time estimation. Follow these specific guidelines by question type:

           For Multiple Choice Questions:
           - Basic recall MC questions: 30-60 seconds per option
           - Application/analysis MC questions: 1-2 minutes per option
           - Complex scenario-based MC questions: 2-3 minutes total plus 1 minute per option

           For True/False Questions:
           - Simple factual T/F: 30-45 seconds
           - Complex conceptual T/F: 1-2 minutes

           For Short Answer Questions:
           - Basic recall: 2-3 minutes
           - Application/analysis: 3-5 minutes
           - Problem-solving: 5-8 minutes depending on complexity

           For Essay Questions:
           - Brief response (paragraph): 5-8 minutes
           - Standard essay: 10-20 minutes
           - Complex analysis essay: 20-30 minutes

           For Calculation/Problem-Solving Questions:
           - Simple calculations: 1-2 minutes
           - Multi-step problems: 3-5 minutes per step
           - Complex applications: 10-15 minutes

           Additional factors to consider:
           - Reading time: 200-250 words per minute for question text
           - Cognitive complexity level (recall: fastest, create: slowest)
           - Number of distinct concepts that must be integrated
           - Time needed to review and check work (add 10-20% of total time)

           Calculate the time precisely and provide a whole number of minutes. Be realistic and consider the actual time students need, not the ideal time.
        
        3. STUDENT LEVEL: Indicate which level of student this question is most appropriate for (Beginner, Intermediate, or Advanced).
        
        4. IMPROVEMENT SUGGESTIONS: Provide specific suggestions to improve the question's quality, clarity, and alignment with the ILOs. Consider aspects like:
           - Clarity and precision of language
           - Alignment with stated learning outcomes
           - Cognitive level (knowledge, comprehension, application, analysis, etc.)
           - Potential ambiguities or issues
           - Suggestions for better wording or structure
           - Whether the estimated time is appropriate for the question's complexity
        
        Format your response as a JSON object with the following structure:
        {" ++ q ++ "difficulty_rating" ++ q ++ ": float, " ++ q ++ "estimated_time" ++ q ++ ": int, " ++ q ++ "student_level" ++ q ++ ": string, " ++ q ++ "improvement_suggestions" ++ q ++ ": string}
        
        IMPORTANT: Ensure your response is ONLY the JSON object, with no additional text before or after.
        ".

(** Lines 298-333, the f-string of the Generator's prompt. *)
Definition generation_user_prompt (course_title chapter_title chapter_summary ilos : string)
  (num_questions : Z) (difficulty_level : string) (question_types existing_questions : list string) : string :=
  let q := String dquote EmptyString in
  "
        Create "
  ++ str_of_Z num_questions
  ++ " educational questions for:
        
        COURSE: "
  ++ course_title
  ++ "
        CHAPTER: "
  ++ chapter_title
  ++ "
        CHAPTER SUMMARY: "
  ++ chapter_summary
  ++ "
        INTENDED LEARNING OUTCOMES (ILOs): "
  ++ ilos
  ++ "
        
        "
  ++ examples_text existing_questions
  ++ "
        
        GUIDELINES:
        1. Create "
  ++ str_of_Z num_questions
  ++ " unique questions with the following distribution:
           - Difficulty: "
  ++ difficulty_level
  ++ "
           - Question types: "
  ++ join ", " question_types
  ++ "
        
        2. Each question should:
           - Directly align with the ILOs
           - Be clearly worded and academically rigorous
           - Include the correct answer and a brief explanation
           - For multiple-choice questions, include 4 options with only one correct answer
        
        Format each question as a JSON object with the following structure:
        {
            " ++ q ++ "question_content" ++ q ++ ": " ++ q ++ "The full question text" ++ q ++ ",
            " ++ q ++ "question_type" ++ q ++ ": " ++ q ++ "Multiple Choice/True/False/Short Answer/Essay" ++ q ++ ",
            " ++ q ++ "difficulty" ++ q ++ ": float (1.0-5.0 where 1=easiest, 5=hardest),
            " ++ q ++ "estimated_time" ++ q ++ ": int (minutes to complete),
            " ++ q ++ "student_level" ++ q ++ ": " ++ q ++ "Beginner/Intermediate/Advanced" ++ q ++ ",
            " ++ q ++ "tags" ++ q ++ ": " ++ q ++ "comma-separated tags" ++ q ++ ",
            " ++ q ++ "correct_answer" ++ q ++ ": " ++ q ++ "The correct answer" ++ q ++ ",
            " ++ q ++ "explanation" ++ q ++ ": " ++ q ++ "Explanation of why this is correct" ++ q ++ ",
            " ++ q ++ "options" ++ q ++ ": [" ++ q ++ "A. option1" ++ q ++ ", " ++ q ++ "B. option2" ++ q ++ ", " ++ q ++ "C. option3" ++ q ++ ", " ++ q ++ "D. option4" ++ q ++ "] (for multiple choice only)
        }
        
        Return a JSON array of question objects. The output should be valid parseable JSON.
        ".

(** Lines 136-146. *)
#[warnings="-inexact-float"] Definition analysis_request (question_content question_type course_title chapter_title ilos : string) : request :=
  {| system_prompt := analysis_system_prompt;
     user_prompt := analysis_user_prompt question_content question_type
                      course_title chapter_title ilos;
     model := "llama-3.1-8b-instant";
     temperature := 0.1%float;
     max_tokens := 1024;
     top_p := 1;
     stream := false |}.

(** Lines 337-347. *)
#[warnings="-inexact-float"] Definition generation_request (course_title chapter_title chapter_summary ilos : string) (num_questions : Z) (difficulty_level : string) (question_types existing_questions : list string) (model_name : string) : request :=
  {| system_prompt := generation_system_prompt;
     user_prompt := generation_user_prompt course_title chapter_title
                      chapter_summary ilos num_questions difficulty_level
                      question_types existing_questions;
     model := model_name;
     temperature := 0.7%float;
     max_tokens := 2048;
     top_p := 1;
     stream := false |}.

(** The defaults of [generate_questions]. *)
Definition default_question_types : list string :=
  ["Multiple Choice"; "True/False"; "Short Answer"].
Definition default_model : string := "llama-3.1-8b-instant".

Section Client.

(** The client library: the type of a client, its constructor
    [Groq(api_key=...)], and [chat.completions.create] followed by the reading
    of [choices[0].message.content], which is a text or [None].  [create] is
    what the endpoint answers at the one call a run of a procedure makes: the
    endpoint samples (the temperature is 0.1 and 0.7), so two runs need not
    get the same answer, and nothing below compares two runs. *)
Variable Client : Type.
Variable Groq : value -> res Client.
Variable create : Client -> request -> res (option string).

(** Lines 13-35.  [environ_key] is [os.environ.get("GROQ_API_KEY")], [secret]
    is [st.secrets["groq_api_key"]], which may raise. *)
Definition get_groq_client (environ_key : option string) (secret : res value)
  : option Client :=
  let api_key : value :=
    match environ_key with
    | Some k => VStr k
    | None => VNone
    end in
  let api_key : value :=
    if truthy api_key then api_key
    else match secret with
         | Ok v => v
         | Raise _ => api_key
         end in
  if truthy api_key then
    match Groq api_key with
    | Ok client => Some client
    | Raise _ => None
    end
  else None.

(** Lines 62-65 and 136-149: what the call comes to for the Evaluator.  A
    content that is [None] has no [strip]. *)
Definition analysis_call (environ_key : option string) (secret : res value)
  (question_content question_type course_title chapter_title ilos : string)
  : LlmUtils.gateway :=
  match get_groq_client environ_key secret with
  | None => LlmUtils.NoClient
  | Some client =>
      match create client (analysis_request question_content question_type
                             course_title chapter_title ilos) with
      | Ok (Some content) => LlmUtils.Response content
      | Ok None => LlmUtils.CallRaised AttributeError
      | Raise e => LlmUtils.CallRaised e
      end
  end.

(** Lines 282-285 and 337-357: what the call comes to for the Generator.  A
    content that is [None] cannot be searched. *)
Definition generation_call (environ_key : option string) (secret : res value)
  (course_title chapter_title chapter_summary ilos : string)
  (num_questions : Z) (difficulty_level : string)
  (question_types existing_questions : list string) (model_name : string)
  : LlmUtils.gateway :=
  match get_groq_client environ_key secret with
  | None => LlmUtils.NoClient
  | Some client =>
      match create client (generation_request course_title chapter_title
                             chapter_summary ilos num_questions
                             difficulty_level question_types
                             existing_questions model_name) with
      | Ok (Some content) => LlmUtils.Response content
      | Ok None => LlmUtils.CallRaised TypeError
      | Raise e => LlmUtils.CallRaised e
      end
  end.

(** [analyze_question] with its arguments. *)
Definition analyze_question (str_exn : exn -> string)
  (environ_key : option string) (secret : res value)
  (question_content question_type course_title chapter_title ilos : string)
  : option float * string :=
  LlmUtils.analyze_question str_exn
    (analysis_call environ_key secret question_content question_type
       course_title chapter_title ilos).

(** [generate_questions] with its arguments. *)
Definition generate_questions (environ_key : option string) (secret : res value)
  (course_title chapter_title chapter_summary ilos : string)
  (num_questions : Z) (difficulty_level : string)
  (question_types existing_questions : list string) (model_name : string)
  : list value :=
  LlmUtils.generate_questions
    (generation_call environ_key secret course_title chapter_title
       chapter_summary ilos num_questions difficulty_level question_types
       existing_questions model_name).

End Client.

End Gateway.

(* ================================================================== *)
(** ** [pages/ai_exam.py] and [pages/add.py]: showing a stored question *)

Module Exam.

Import Text.

(** [s.split(sep)] for a separator of one character. *)
Fixpoint split (sep : ascii) (s : string) : list string :=
  match s with
  | EmptyString => [EmptyString]
  | String c s' =>
      if Ascii.eqb c sep then EmptyString :: split sep s'
      else
        match split sep s' with
        | part :: parts => String c part :: parts
        | [] => [String c EmptyString]
        end
  end.

(** ai_exam.py lines 65-74 and add.py lines 226-235: the correct answer and
    the options shown for a stored question; [None] when the block is not
    entered and no option is shown. *)
Definition shown_options (question_type correct_answer : string)
  : option (string * list string) :=
  if (String.eqb question_type "Multiple Choice"
      && contains "|" correct_answer)%bool
  then
    let parts := split "|" correct_answer in
    Some (hd "" parts,
          if Nat.ltb 1 (List.length parts) then tl parts else [])
  else None.

(** ai_exam.py lines 47-51, add.py lines 210-214, and the classes of
    response_comparison.py lines 118-122 and 167-171 under other names. *)
Definition difficulty_text (difficulty : float) : string :=
  if (PrimFloat.ltb 2.5 difficulty && PrimFloat.leb difficulty 3.5)%bool
  then "Medium"
  else if PrimFloat.ltb 3.5 difficulty then "Hard"
  else "Easy".

End Exam.

(* ================================================================== *)
(** ** [pages/question_generator.py]: the form *)

Module QuestionForm.

Import Text Py Coerce Models.

(** Line 118: [f"{chr(65+i)}. {option}"]. *)
Definition option_label (i : nat) (option : string) : string :=
  String (ascii_of_nat (65 + i)) (". " ++ option).

(** Lines 111-118: the options kept from the four inputs. *)
Definition form_options (question_type : string) (text_input : nat -> string)
  : list string :=
  if String.eqb question_type "Multiple Choice" then
    flat_map (fun i =>
                let option := text_input i in
                if String.eqb option "" then [] else [option_label i option])
             (seq 0 4)
  else [].

(** Lines 122-128: the message of the form when it stops there. *)
Definition form_error (question_content correct_answer explanation
                       question_type : string) (options : list string)
  : option string :=
  if (String.eqb question_content "" || String.eqb correct_answer ""
      || String.eqb explanation "")%bool
  then Some "Please fill in all required fields: question content, correct answer, and explanation."
  else if (String.eqb question_type "Multiple Choice"
           && (negb (Nat.eqb (List.length options) 4)
               || negb (forallb (fun o => negb (String.eqb o "")) options)))%bool
  then Some "Please provide all 4 options for multiple choice questions."
  else None.

(** [options[i]]. *)
Definition item (options : list string) (i : nat) : outcome string :=
  match nth_error options i with
  | Some o => Done o
  | None => Failed IndexError
  end.

(** Lines 159-162. *)
Definition final_correct_answer (question_type correct_answer : string)
  (options : list string) : outcome string :=
  if String.eqb question_type "Multiple Choice" then
    o0 <~ item options 0 ;;
    o1 <~ item options 1 ;;
    o2 <~ item options 2 ;;
    o3 <~ item options 3 ;;
    Done (correct_answer ++ "|" ++ o0 ++ "|" ++ o1 ++ "|" ++ o2 ++ "|" ++ o3)
  else Done correct_answer.

(** What pressing the button comes to: a message and nothing stored, a row
    added and committed, or a failure caught by one of the handlers. *)
Inductive submitted : Type :=
| Refused (message : string)
| Added (q : Question)
| Caught (f : failure).

(** Lines 121-180, up to the commit.  [analysis] is what [analyze_question]
    returned, [text_input] the four option inputs, [commit] whether the
    database accepts the row; [user_id] is [st.session_state.user["id"]],
    read at line 176, when reading it does not raise.  What the same [try]
    does after the commit (lines 182-202: the session state and the
    dashboard) is left out, and so is a failure there. *)
Definition submit (selected_chapter_id user_id : Z)
  (question_content question_type correct_answer explanation : string)
  (text_input : nat -> string) (analysis : option float * string)
  (commit : Question -> bool) : submitted :=
  let options := form_options question_type text_input in
  match form_error question_content correct_answer explanation question_type
          options with
  | Some message => Refused message
  | None =>
      let '(difficulty_rating, analysis_text) := analysis in
      match difficulty_rating with
      | None => Refused "Failed to analyze question. Please try again."
      | Some difficulty_rating =>
          match
            (estimated_time <~ lift (QuestionGenerator.estimated_time analysis_text) ;;
             let student_level := QuestionGenerator.student_level analysis_text in
             final <~ final_correct_answer question_type correct_answer options ;;
             let new_question :=
               {| chapter_id := selected_chapter_id;
                  content := VStr question_content;
                  question_type := VStr question_type;
                  correct_answer := VStr final;
                  explanation := VStr explanation;
                  difficulty := difficulty_rating;
                  estimated_time := estimated_time;
                  student_level := VStr student_level;
                  tags := None;
                  created_by := Some user_id |} in
             if commit new_question then Done new_question
             else Failed DatabaseError)
          with
          | Done q => Added q
          | Failed f => Caught f
          end
      end
  end.

End QuestionForm.

(* ================================================================== *)
(** ** [pages/bulk_question_generator.py] *)

Module Bulk.

Import Text Py Coerce Models.

(** [st.session_state.bulk_generator]. *)
Record bulk_generator : Type := {
  generated_questions : list value;
  form_submitted : bool;
  selected_questions : list nat;
  generation_complete : bool
}.

(** [l.remove(x)]: the first [x] goes (it is there when this is called). *)
Fixpoint remove_first (x : nat) (l : list nat) : list nat :=
  match l with
  | [] => []
  | y :: l' => if Nat.eqb x y then l' else y :: remove_first x l'
  end.

(** Lines 213-218: the check box of question [i]. *)
Definition tick (checked : bool) (i : nat) (selected : list nat) : list nat :=
  if checked then
    if existsb (Nat.eqb i) selected then selected else (selected ++ [i])%list
  else
    if existsb (Nat.eqb i) selected then remove_first i selected else selected.

(** The loop of lines 193-218 as far as the selection goes, when no question
    raises while it is shown ([display_generated_questions] below has the
    other case): [checked i] is the check box of question [i]. *)
Definition tick_all (checked : nat -> bool) (n : nat) (selected : list nat)
  : list nat :=
  fold_left (fun sel i => tick (checked i) i sel) (seq 0 n) selected.

(** [sep.join(v)] for any value: a list of strings, the characters of a
    string, the keys of a dict. *)
Fixpoint texts (l : list value) : res (list string) :=
  match l with
  | [] => Ok []
  | VStr s :: l' => r <- texts l' ;; Ok (s :: r)
  | _ :: _ => Raise TypeError
  end.

Fixpoint chars (s : string) : list string :=
  match s with
  | EmptyString => []
  | String c s' => String c EmptyString :: chars s'
  end.

Definition py_join (sep : string) (v : value) : res string :=
  match v with
  | VList l => r <- texts l ;; Ok (join sep r)
  | VStr s => Ok (join sep (chars s))
  | VDict d => Ok (join sep (map fst d))
  | VNone | VBool _ | VInt _ | VFloat _ => Raise TypeError
  end.

(** [q.get(k, default)]: only a dict has [get]. *)
Definition py_get (k : string) (dflt : value) (q : value) : res value :=
  match q with
  | VDict d => Ok (get_default k dflt d)
  | _ => Raise AttributeError
  end.

(** [a == "text"] for any value [a]. *)
Definition is_text (t : string) (a : value) : bool :=
  match a with
  | VStr s => String.eqb s t
  | _ => false
  end.

(** *** Showing the questions (lines 170-218)

    What is printed does not matter here, what can raise does: the reads of
    a question are kept in their order, an f-string prints any value. *)

(** [v[:100]]: a text and a list can be cut (a dict raises [TypeError] up to
    Python 3.11, [KeyError] from 3.12 on). *)
Definition slice100 (v : value) : res value :=
  match v with
  | VStr s => Ok (VStr (take 100 s))
  | VList l => Ok (VList (firstn 100 l))
  | VNone | VBool _ | VInt _ | VFloat _ | VDict _ => Raise TypeError
  end.

(** [v + "..."]. *)
Definition add_dots (v : value) : res value :=
  match v with
  | VStr s => Ok (VStr (s ++ "..."))
  | _ => Raise TypeError
  end.

(** [for option in v]: a text, a list and a dict can be gone through. *)
Definition iterate (v : value) : res unit :=
  match v with
  | VStr _ | VList _ | VDict _ => Ok tt
  | VNone | VBool _ | VInt _ | VFloat _ => Raise TypeError
  end.

(** Lines 178-187: the row of the table for one question. *)
Definition table_row (q : value) : res unit :=
  content <- subscript "question_content" q ;;
  cut <- slice100 content ;;
  shown <- add_dots cut ;;
  question_type <- subscript "question_type" q ;;
  difficulty <- subscript "difficulty" q ;;
  estimated_time <- py_get "estimated_time" (VInt 5) q ;;
  student_level <- py_get "student_level" (VStr "Intermediate") q ;;
  Ok tt.

(** Lines 177-187: the table. *)
Fixpoint table (questions : list value) : res unit :=
  match questions with
  | [] => Ok tt
  | q :: rest => row <- table_row q ;; table rest
  end.

(** Lines 194-210: one question, before its check box. *)
Definition expander (question : value) : res unit :=
  content <- subscript "question_content" question ;;
  cut <- slice100 content ;;
  content <- subscript "question_content" question ;;
  question_type <- subscript "question_type" question ;;
  difficulty <- subscript "difficulty" question ;;
  estimated_time <- py_get "estimated_time" (VInt 5) question ;;
  student_level <- py_get "student_level" (VStr "Intermediate") question ;;
  has_tags <- py_in "tags" question ;;
  tags <- (if has_tags then
             tags <- subscript "tags" question ;;
             if truthy tags then subscript "tags" question else Ok tags
           else Ok VNone) ;;
  correct_answer <- subscript "correct_answer" question ;;
  explanation <- subscript "explanation" question ;;
  question_type <- subscript "question_type" question ;;
  if is_text "Multiple Choice" question_type then
    has_options <- py_in "options" question ;;
    if has_options then
      options <- subscript "options" question ;;
      iterate options
    else Ok tt
  else Ok tt.

(** Lines 193-218: the loop from question [i] on.  The selection is a list
    of the session, changed in place: what was done before a question raises
    stays done. *)
Fixpoint expanders (checked : nat -> bool) (i : nat) (questions : list value)
  (selected : list nat) : list nat * option exn :=
  match questions with
  | [] => (selected, None)
  | question :: rest =>
      match expander question with
      | Ok _ => expanders checked (S i) rest (tick (checked i) i selected)
      | Raise e => (selected, Some e)
      end
  end.

(** Lines 170-218: the selection afterwards, and the exception that left the
    function, if one did. *)
Definition display_generated_questions (checked : nat -> bool)
  (generated : list value) (selected : list nat) : list nat * option exn :=
  match table generated with
  | Ok _ => expanders checked 0 generated selected
  | Raise e => (selected, Some e)
  end.

(** *** Saving the questions *)

(** Lines 237-257: the row made of one generated question. *)
Definition new_question (chapter : Z) (q : value) : res Question :=
  answer <- subscript "correct_answer" q ;;
  question_type <- subscript "question_type" q ;;
  final_correct_answer <-
    (if is_text "Multiple Choice" question_type then
       has <- py_in "options" q ;;
       if has then
         options <- subscript "options" q ;;
         options_str <- py_join "|" options ;;
         Ok (VStr (str answer ++ "|" ++ options_str))
       else Ok answer
     else Ok answer) ;;
  content <- subscript "question_content" q ;;
  question_type <- subscript "question_type" q ;;
  explanation <- subscript "explanation" q ;;
  d <- subscript "difficulty" q ;;
  difficulty <- py_float d ;;
  t <- py_get "estimated_time" (VInt 5) q ;;
  estimated_time <- py_int t ;;
  student_level <- py_get "student_level" (VStr "Intermediate") q ;;
  tags <- py_get "tags" (VStr "") q ;;
  Ok {| chapter_id := chapter;
        content := content;
        question_type := question_type;
        correct_answer := final_correct_answer;
        explanation := explanation;
        difficulty := difficulty;
        estimated_time := estimated_time;
        student_level := student_level;
        tags := Some tags;
        created_by := None |}.

(** Lines 234-260, the loop: the rows added to the session so far. *)
Fixpoint add_all (generated : list value) (selected_indices : list nat)
  (chapter : Z) (added : list Question) : outcome (list Question) :=
  match selected_indices with
  | [] => Done added
  | idx :: rest =>
      match nth_error generated idx with
      | None => Failed IndexError
      | Some q =>
          row <~ lift (new_question chapter q) ;;
          add_all generated rest chapter (added ++ [row])%list
      end
  end.

(** The state of lines 268-273. *)
Definition reset : bulk_generator :=
  {| generated_questions := [];
     form_submitted := true;
     selected_questions := [];
     generation_complete := false |}.

Section Save.

(** [str(e)] for what the handler catches, and whether [db.commit()] accepts
    the rows of the session. *)
Variable str_failure : failure -> string.
Variable commit : list Question -> bool.

(** Lines 224-279.  The table is the list of its rows; the result is the
    message shown, the table and the state of the page afterwards. *)
Definition save_questions_to_database (generated : list value)
  (selected_indices : list nat) (chapter : Z) (table : list Question)
  (state : bulk_generator) : string * list Question * bulk_generator :=
  match selected_indices with
  | [] => ("Please select at least one question to save.", table, state)
  | _ =>
      match
        (rows <~ add_all generated selected_indices chapter [] ;;
         if commit rows then Done rows else Failed DatabaseError)
      with
      | Done rows =>
          ("Successfully saved " ++ str_of_Z (Z.of_nat (List.length rows))
           ++ " questions to the database!",
           (table ++ rows)%list, reset)
      | Failed f => ("Error: " ++ str_failure f, table, state)
      end
  end.

End Save.

End Bulk.

(* ================================================================== *)
(** ** [pages/response_comparison.py]: reading the report *)

Module Comparison.

Import Text Re Py.

(** [r'Estimated Time:\*\* (\d+)'] *)
Definition estimated_time_re : regex :=
  Cat (Lit "Estimated Time:** ") (Group (Plus is_digit)).

(** [r'Student Level:\*\* (\w+)'] *)
Definition student_level_re : regex :=
  Cat (Lit "Student Level:** ") (Group (Plus is_word)).

(** Line 163. *)
Definition ai_estimated_time (analysis_text : string) : res Z :=
  match search estimated_time_re analysis_text with
  | Some estimated_time_match =>
      match Num.int_of_string (group1 estimated_time_match) with
      | Some t => Ok t
      | None => Raise ValueError
      end
  | None => Ok 5
  end.

(** Line 164. *)
Definition ai_student_level (analysis_text : string) : string :=
  match search student_level_re analysis_text with
  | Some student_level_match => group1 student_level_match
  | None => "Intermediate"
  end.

(** Lines 218-219: the difference of the two times and its word. *)
Definition time_diff_text (ai_time professor_time : Z) : string :=
  str_of_Z (Z.abs (ai_time - professor_time)) ++ " min "
  ++ (if Z.ltb 0 (ai_time - professor_time) then "longer" else "shorter").

(** Lines 234-235. *)
Definition level_text (ai_level professor_level : string) : string :=
  if String.eqb (lower ai_level) (lower professor_level)
  then "Match" else "Mismatch".

End Comparison.

(* ================================================================== *)
(** * Properties *)

(** ** Text and patterns *)

Module TextFacts.

Import Text Re.

Lemma length_app (a b : string) :
  String.length (a ++ b) = (String.length a + String.length b)%nat.
Proof. induction a as [|c a IH]; simpl; [reflexivity | now rewrite IH]. Qed.

Lemma app_assoc (a b c : string) : (a ++ b) ++ c = a ++ (b ++ c).
Proof. induction a as [|x a IH]; simpl; [reflexivity | now rewrite IH]. Qed.


Lemma take_app (a b : string) : take (String.length a) (a ++ b) = a.
Proof. induction a as [|c a IH]; simpl; [now destruct b | now rewrite IH]. Qed.

Lemma take_app_length (a b : string) :
  take (String.length (a ++ b) - String.length b) (a ++ b) = a.
Proof.
  rewrite length_app.
  replace (String.length a + String.length b - String.length b)%nat
    with (String.length a) by lia.
  apply take_app.
Qed.

Lemma all_chars_app p (a b : string) :
  all_chars p (a ++ b) = (all_chars p a && all_chars p b)%bool.
Proof.
  induction a as [|c a IH]; simpl; [reflexivity|].
  rewrite IH. now rewrite andb_assoc.
Qed.

Lemma all_chars_impl (p q : ascii -> bool) (s : string) :
  (forall c, p c = true -> q c = true) ->
  all_chars p s = true -> all_chars q s = true.
Proof.
  intros Hpq. induction s as [|c s IH]; simpl; [reflexivity|].
  intros H. apply andb_true_iff in H as [H1 H2].
  rewrite (Hpq _ H1), (IH H2). reflexivity.
Qed.

(** A greedy repetition takes a whole run when the rest of the pattern
    accepts what follows the run. *)
Lemma star_run {A} p (ds rest : string) (k : string -> option A) x :
  all_chars p ds = true -> stops p rest -> k rest = Some x ->
  star p (ds ++ rest) k = Some x.
Proof.
  intros Hds Hstop Hk. induction ds as [|c ds IH]; simpl.
  - destruct rest as [|c r]; simpl; [exact Hk|].
    simpl in Hstop. rewrite Hstop. exact Hk.
  - simpl in Hds. apply andb_true_iff in Hds as [Hc Hds].
    rewrite Hc, (IH Hds). reflexivity.
Qed.

(** A repetition fails when the rest of the pattern fails everywhere. *)
Lemma star_none {A} p (s : string) (k : string -> option A) :
  (forall a b, s = a ++ b -> k b = None) -> star p s k = None.
Proof.
  induction s as [|c s IH]; intros H; simpl.
  - apply (H "" ""). reflexivity.
  - assert (Hs : star p s k = None).
    { apply IH. intros a b E. apply (H (String c a) b). now rewrite E. }
    rewrite Hs. destruct (p c); apply (H "" (String c s)); reflexivity.
Qed.

(** A repetition of any character succeeds when the rest of the pattern
    accepts some suffix. *)
Lemma star_any_some {A} (a b : string) (k : string -> option A) :
  k b <> None -> star any_char (a ++ b) k <> None.
Proof.
  intros Hk. induction a as [|c a IH]; simpl.
  - destruct b as [|c b]; simpl; [exact Hk|].
    destruct (star any_char b k); [discriminate | exact Hk].
  - destruct (star any_char (a ++ b) k); [discriminate | contradiction].
Qed.

(** A pattern that opens with a literal has no match where the literal does
    not start. *)
Lemma match_at_lit_none l r (s : string) :
  startswith l s = false -> match_at (Cat (Lit l) r) s = None.
Proof. intros H. unfold match_at. simpl. now rewrite H. Qed.

Lemma search_step r c (s : string) :
  match_at r (String c s) = None -> search r (String c s) = search r s.
Proof. intros H. simpl. now rewrite H. Qed.

Lemma search_found r (s : string) mo :
  match_at r s = Some mo -> search r s = Some mo.
Proof. intros H. destruct s; simpl; now rewrite H. Qed.

(** The search passes over a stretch of text none of whose characters is the
    first of the literal the pattern opens with. *)
Lemma search_skip a l r (pre rest : string) :
  all_chars (fun c => negb (Ascii.eqb a c)) pre = true ->
  search (Cat (Lit (String a l)) r) (pre ++ rest)
  = search (Cat (Lit (String a l)) r) rest.
Proof.
  induction pre as [|c pre IH]; intros H; [reflexivity|].
  simpl in H. apply andb_true_iff in H as [Hc Hpre].
  change (String c pre ++ rest) with (String c (pre ++ rest)).
  rewrite search_step; [now apply IH|].
  apply match_at_lit_none. simpl.
  apply negb_true_iff in Hc. now rewrite Hc.
Qed.

Lemma m_cat {A} r1 r2 (s : string) caps (k : string -> list string -> option A) :
  m (Cat r1 r2) s caps k = m r1 s caps (fun s' caps' => m r2 s' caps' k).
Proof. reflexivity. Qed.

Lemma m_lit {A} l (s : string) caps (k : string -> list string -> option A) :
  startswith l s = true -> m (Lit l) s caps k = k (drop (String.length l) s) caps.
Proof. intros H. simpl. now rewrite H. Qed.

(** A group over a non-empty run of one class captures the run. *)
Lemma m_group_plus {A} p c (r rest : string) caps
      (k : string -> list string -> option A) x :
  all_chars p (String c r) = true -> stops p rest ->
  k rest (caps ++ [String c r])%list = Some x ->
  m (Group (Plus p)) (String c r ++ rest) caps k = Some x.
Proof.
  intros Hrun Hstop Hk. simpl in Hrun. apply andb_true_iff in Hrun as [Hc Hr].
  cbn [m append]. rewrite Hc.
  apply star_run; [exact Hr | exact Hstop |].
  change (String c (r ++ rest)) with (String c r ++ rest).
  rewrite take_app_length. exact Hk.
Qed.









Lemma m_star {A} p (s : string) caps (k : string -> list string -> option A) :
  m (Star p) s caps k = star p s (fun s' => k s' caps).
Proof. reflexivity. Qed.

Lemma m_lit_none {A} l (s : string) caps (k : string -> list string -> option A) :
  startswith l s = false -> m (Lit l) s caps k = None.
Proof. intros H. simpl. now rewrite H. Qed.

(** A repetition that succeeds stopped somewhere the rest of the pattern
    accepts. *)
Lemma star_some {A} p (s : string) (k : string -> option A) x :
  star p s k = Some x -> exists a b, s = a ++ b /\ k b = Some x.
Proof.
  induction s as [|c s IH]; simpl; intros H.
  - exists "", "". auto.
  - destruct (p c); [|exists "", (String c s); auto].
    destruct (star p s k) as [y|].
    + destruct (IH H) as (a & b & -> & Hk).
      exists (String c a), b. auto.
    + exists "", (String c s). auto.
Qed.

(** A match found by the search starts somewhere in the text. *)
Lemma search_some r (s : string) mo :
  search r s = Some mo -> exists a b, s = a ++ b /\ match_at r b = Some mo.
Proof.
  induction s as [|c s IH]; simpl; intros H.
  - destruct (match_at r "") eqn:E; [|discriminate].
    exists "", "". split; [reflexivity | congruence].
  - destruct (match_at r (String c s)) eqn:E.
    + exists "", (String c s). split; [reflexivity | congruence].
    + destruct (IH H) as (a & b & -> & Hb). exists (String c a), b. auto.
Qed.

Lemma search_app_some r (a b : string) :
  match_at r b <> None -> search r (a ++ b) <> None.
Proof.
  intros H. induction a as [|c a IH]; simpl.
  - destruct b; simpl; destruct (match_at r _); congruence.
  - destruct (match_at r (String c (a ++ b))); congruence.
Qed.

Lemma startswith_char c (s : string) :
  startswith (String c "") s = true -> exists s', s = String c s'.
Proof.
  destruct s as [|c' s']; simpl; [discriminate|]. rewrite andb_true_r.
  intros H. apply Ascii.eqb_eq in H. subst. eauto.
Qed.

End TextFacts.

(** ** Numbers *)

Module NumFacts.

Import Text TextFacts.

Lemma ltb_leb (x y : float) : PrimFloat.ltb x y = true -> PrimFloat.leb x y = true.
Proof.
  rewrite ltb_spec, leb_spec. unfold SFltb, SFleb.
  destruct (SFcompare (Prim2SF x) (Prim2SF y)) as [[]|]; congruence.
Qed.

(** [max(1.0, min(5.0, x))] lies between 1.0 and 5.0 for every float [x],
    a NaN and the infinities included. *)
Lemma clamp_difficulty_range (x : float) :
  PrimFloat.leb 1 (PyFloat.clamp_difficulty x) = true
  /\ PrimFloat.leb (PyFloat.clamp_difficulty x) 5 = true.
Proof.
  unfold PyFloat.clamp_difficulty, PyFloat.py_min, PyFloat.py_max.
  destruct (PrimFloat.ltb x 5) eqn:H5.
  - destruct (PrimFloat.ltb 1 x) eqn:H1.
    + split; now apply ltb_leb.
    + split; reflexivity.
  - split; reflexivity.
Qed.

(** No character of a printed number is an asterisk. *)
Lemma digit_plain c : is_digit c = true -> plain c = true.
Proof.
  intros H. unfold plain. destruct (Ascii.eqb_spec "*" c) as [<-|]; [discriminate H | reflexivity].
Qed.

Lemma digits_of_uint (d : Decimal.uint) :
  all_chars is_digit (DecimalString.NilEmpty.string_of_uint d) = true.
Proof. induction d; simpl; auto. Qed.

Lemma digits_of_uint_zero (d : Decimal.uint) :
  all_chars is_digit (DecimalString.NilZero.string_of_uint d) = true.
Proof. destruct d; try reflexivity; apply (digits_of_uint (_ d)). Qed.

Lemma plain_str_of_Z (z : Z) : all_chars plain (str_of_Z z) = true.
Proof.
  unfold str_of_Z, DecimalString.NilZero.string_of_int.
  destruct (Z.to_int z) as [d|d]; simpl;
    apply (all_chars_impl _ _ _ digit_plain), digits_of_uint_zero.
Qed.

Lemma all_chars_take p n (s : string) :
  all_chars p s = true -> all_chars p (take n s) = true.
Proof.
  revert n. induction s as [|c s IH]; intros [|n] H; simpl; try reflexivity.
  simpl in H. apply andb_true_iff in H as [H1 H2]. now rewrite H1, IH.
Qed.

Lemma all_chars_drop p n (s : string) :
  all_chars p s = true -> all_chars p (drop n s) = true.
Proof.
  revert n. induction s as [|c s IH]; intros [|n] H; simpl; try reflexivity;
    try exact H.
  simpl in H. apply andb_true_iff in H as [H1 H2]. now apply IH.
Qed.

Lemma all_chars_zeros n : all_chars plain (PyFloat.zeros n) = true.
Proof. induction n; simpl; auto. Qed.

Lemma all_chars_of_list p (l : list ascii) :
  all_chars p (string_of_list_ascii l) = forallb p l.
Proof. induction l as [|c l IH]; simpl; [reflexivity | now rewrite IH]. Qed.

Lemma forallb_of_string p (s : string) :
  forallb p (list_ascii_of_string s) = all_chars p s.
Proof. induction s as [|c s IH]; simpl; [reflexivity | now rewrite IH]. Qed.

Lemma forallb_strip_zeros_rev p (l : list ascii) :
  forallb p l = true -> forallb p (PyFloat.strip_zeros_rev l) = true.
Proof.
  induction l as [|c l IH]; simpl; [trivial|]. intros H.
  destruct (Ascii.eqb c "0").
  - apply IH. now apply andb_true_iff in H as [_ H].
  - exact H.
Qed.

Lemma forallb_rev {A} (p : A -> bool) (l : list A) :
  forallb p l = true -> forallb p (rev l) = true.
Proof.
  rewrite !forallb_forall. intros H x Hx. apply H. now apply in_rev.
Qed.

Lemma plain_strip_trailing_zeros (s : string) :
  all_chars plain s = true ->
  all_chars plain (PyFloat.strip_trailing_zeros s) = true.
Proof.
  intros H. unfold PyFloat.strip_trailing_zeros.
  assert (Hl : forallb plain (rev (PyFloat.strip_zeros_rev (rev (list_ascii_of_string s)))) = true).
  { apply forallb_rev, forallb_strip_zeros_rev, forallb_rev.
    now rewrite forallb_of_string. }
  destruct (rev (PyFloat.strip_zeros_rev (rev (list_ascii_of_string s)))) as [|c l];
    [reflexivity|].
  now rewrite all_chars_of_list.
Qed.

Lemma plain_layout (digits : string) (k : Z) :
  all_chars plain digits = true -> all_chars plain (PyFloat.layout digits k) = true.
Proof.
  intros H. unfold PyFloat.layout.
  destruct (Z.ltb (-4) k && Z.leb k 16)%bool.
  - destruct (Z.leb k 0); [|destruct (Z.leb _ k)];
      rewrite ?all_chars_app, ?all_chars_zeros, ?H, ?all_chars_take,
        ?all_chars_drop by exact H; reflexivity.
  - assert (Hm : all_chars plain
                   match digits with
                   | String c EmptyString => digits
                   | String c rest => String c ("." ++ rest)
                   | EmptyString => digits
                   end = true).
    { destruct digits as [|c [|c' r]]; exact H. }
    rewrite !all_chars_app, Hm.
    destruct (Z.ltb (k - 1) 0), (Z.ltb (Z.abs (k - 1)) 10);
      rewrite ?all_chars_app, ?plain_str_of_Z; reflexivity.
Qed.

(** [repr] of a float has no asterisk. *)
Lemma plain_repr (x : float) : all_chars plain (PyFloat.repr x) = true.
Proof.
  unfold PyFloat.repr.
  destruct (Prim2SF x) as [[]|[]| |s mt e]; try reflexivity.
  destruct (PyFloat.shortest _ _ _ _ _ _) as [c k'].
  rewrite all_chars_app, plain_layout
    by apply plain_strip_trailing_zeros, plain_str_of_Z.
  now destruct s.
Qed.

(** The text of a number of minutes between 1 and 60 is made of digits and
    reads back as the number. *)
Lemma minutes_text (t : Z) :
  1 <= t <= 60 ->
  all_chars is_digit (str_of_Z t) = true
  /\ (exists c r, str_of_Z t = String c r)
  /\ Num.int_of_string (str_of_Z t) = Some t.
Proof.
  intros H. destruct t as [|p|p]; try lia.
  do 6 (try destruct p as [p|p|]); try lia;
    (split; [reflexivity | split; [eexists; eexists; reflexivity | reflexivity]]).
Qed.

End NumFacts.

(** ** The report and its scans *)

Module ReportFacts.

Import Text Re Py Coerce LlmUtils TextFacts NumFacts QuestionGenerator.

Ltac pass_over :=
  repeat (rewrite search_step by (apply match_at_lit_none; reflexivity)).

(** The scan for the time finds the time the report was printed with,
    whatever the suggestions say. *)
Lemma search_time_report (R T L S : string) c r :
  all_chars plain R = true -> T = String c r -> all_chars is_digit T = true ->
  exists g0, search time_re (analysis_text R T L S) = Some (g0, [T]).
Proof.
  intros HR -> HT. unfold analysis_text, time_re, nl.
  cbn [append]. pass_over.
  rewrite search_skip by exact HR.
  cbn [append]. pass_over.
  eexists. apply search_found. unfold match_at.
  rewrite m_cat, m_lit by reflexivity. cbn [drop String.length].
  rewrite m_cat.
  eapply (m_group_plus is_digit c r); [exact HT | reflexivity |].
  rewrite m_lit by reflexivity. reflexivity.
Qed.

(** The scan for the level finds the label the report was printed with. *)
Lemma search_level_report (R T L S : string) :
  all_chars plain R = true -> all_chars is_digit T = true ->
  (L = "Beginner" \/ L = "Intermediate" \/ L = "Advanced") ->
  exists g0, search level_re (analysis_text R T L S) = Some (g0, [L]).
Proof.
  intros HR HT HL. unfold analysis_text, level_re, nl.
  cbn [append]. pass_over.
  rewrite search_skip by exact HR.
  cbn [append]. pass_over.
  rewrite search_skip by (apply (all_chars_impl _ _ _ digit_plain), HT).
  cbn [append]. pass_over.
  eexists. apply search_found. unfold match_at.
  rewrite m_cat, m_lit by reflexivity. cbn [drop String.length].
  destruct HL as [-> | [-> | ->]];
    (eapply (m_group_plus is_word); [reflexivity | reflexivity | reflexivity]).
Qed.

Lemma validate_time_range v t : validate_time v = Ok t -> 1 <= t <= 60.
Proof.
  unfold validate_time, bind. intros H.
  destruct v; try (destruct (py_int _); inversion H; lia).
  inversion H. lia.
Qed.

Lemma validate_level_labels v l :
  validate_level v = Ok l ->
  l = "Beginner" \/ l = "Intermediate" \/ l = "Advanced".
Proof.
  unfold validate_level. intros H. destruct v; try discriminate.
  - inversion H. auto.
  - destruct (contains "beginner" (lower s)); [inversion H; auto|].
    destruct (contains "advanced" (lower s)); inversion H; auto.
Qed.

(** What a report of the direct path is made of. *)
Lemma analyze_result_some result x text :
  analyze_result result = Ok (Some x, text) ->
  exists d raw t lvl,
    result = VDict d
    /\ py_float (get "difficulty_rating" d) = Ok raw
    /\ x = PyFloat.clamp_difficulty raw
    /\ validate_time (get "estimated_time" d) = Ok t
    /\ validate_level (get "student_level" d) = Ok lvl
    /\ text = analysis_text (PyFloat.repr x) (str_of_Z t) lvl
                (validate_suggestions (get "improvement_suggestions" d)).
Proof.
  intros H. destruct result as [| | | | |l|d]; try discriminate.
  exists d. unfold analyze_result in H.
  assert (E : exists raw, py_float (get "difficulty_rating" d) = Ok raw
             /\ (raw' <- Ok raw ;;
                 estimated_time <- validate_time (get "estimated_time" d) ;;
                 student_level <- validate_level (get "student_level" d) ;;
                 Ok (Some (PyFloat.clamp_difficulty raw'),
                     analysis_text (PyFloat.repr (PyFloat.clamp_difficulty raw'))
                       (str_of_Z estimated_time) student_level
                       (validate_suggestions (get "improvement_suggestions" d))))
                = Ok (Some x, text)).
  { destruct (get "difficulty_rating" d) eqn:Ed; try discriminate;
      (destruct (py_float _) as [raw|e] eqn:Ef; [|discriminate H]);
      exists raw; split; auto. }
  destruct E as (raw & Ef & E). exists raw. simpl in E.
  destruct (validate_time _) as [t|] eqn:Et; [|discriminate]. simpl in E.
  destruct (validate_level _) as [lvl|] eqn:El; [|discriminate]. simpl in E.
  inversion E; subst. exists t, lvl. auto 10.
Qed.

(** A reply of [analyze_question] with a difficulty comes from
    [analyze_response]. *)
Lemma analyze_question_some str_exn content x text :
  analyze_question str_exn (Response content) = (Some x, text) ->
  analyze_response content = Ok (Some x, text).
Proof.
  unfold analyze_question. destruct (analyze_response content) as [r|e].
  - now intros ->.
  - discriminate.
Qed.

(** The two scans of the page on a report of the direct path. *)
Lemma direct_report_scans result x text :
  analyze_result result = Ok (Some x, text) ->
  exists d t lvl,
    result = VDict d
    /\ validate_time (get "estimated_time" d) = Ok t
    /\ validate_level (get "student_level" d) = Ok lvl
    /\ estimated_time text = Ok t
    /\ student_level text = lvl.
Proof.
  intros H.
  apply analyze_result_some in H as (d & raw & t & lvl & -> & _ & -> & Ht & Hlvl & ->).
  exists d, t, lvl. repeat split; try assumption.
  - destruct (minutes_text t (validate_time_range _ _ Ht)) as (Hd & (c & r & Hc) & Hi).
    destruct (search_time_report (PyFloat.repr (PyFloat.clamp_difficulty raw))
                (str_of_Z t) lvl
                (validate_suggestions (get "improvement_suggestions" d)) c r
                (plain_repr _) Hc Hd) as [g0 Hs].
    unfold estimated_time. rewrite Hs. unfold group1. simpl. now rewrite Hi.
  - destruct (minutes_text t (validate_time_range _ _ Ht)) as (Hd & _ & _).
    destruct (search_level_report (PyFloat.repr (PyFloat.clamp_difficulty raw))
                (str_of_Z t) lvl
                (validate_suggestions (get "improvement_suggestions" d))
                (plain_repr _) Hd (validate_level_labels _ _ Hlvl)) as [g0 Hs].
    unfold student_level. now rewrite Hs.
Qed.

(** The label of a level given as text. *)
Lemma validate_level_text s lvl :
  validate_level (VStr s) = Ok lvl ->
  (lvl = "Beginner" <-> contains "beginner" (lower s) = true)
  /\ (lvl = "Advanced"
      <-> contains "beginner" (lower s) = false
          /\ contains "advanced" (lower s) = true).
Proof.
  unfold validate_level.
  destruct (contains "beginner" (lower s)), (contains "advanced" (lower s));
    intros H; inversion H; subst; clear H;
    (split; split; intros H; try discriminate H; try reflexivity; auto;
     try (destruct H; discriminate)).
Qed.

End ReportFacts.

(* ================================================================== *)
(** ** The Evaluator: [analyze_question] *)

Module Evaluator.

Import Text Re Py Coerce LlmUtils TextFacts NumFacts ReportFacts QuestionGenerator Samples.

(** The direct path returns a difficulty between 1.0 and 5.0. *)
Lemma analyze_result_difficulty_range result x text :
  analyze_result result = Ok (Some x, text) ->
  PrimFloat.leb 1 x = true /\ PrimFloat.leb x 5 = true.
Proof.
  intros H. apply analyze_result_some in H as (d & raw & t & lvl & _ & _ & -> & _).
  apply clamp_difficulty_range.
Qed.

(** C1, at the failing input.  The reply [Result: {"difficulty_rating": 9}]
    is not JSON as a whole, so the second attempt reads the braces; it
    returns the difficulty 9.0, which is above 5.0: that path does not clamp. *)
Theorem fallback_difficulty_unclamped (str_exn : exn -> string) :
  Json.loads (clean (strip prose_reply_9)) = None
  /\ fst (analyze_question str_exn (Response prose_reply_9)) = Some 9%float
  /\ PrimFloat.leb 9 5 = false.
Proof. repeat split; vm_compute; reflexivity. Qed.

(** C4, at the failing input.  On the second attempt the estimated time is
    printed as the reply gives it, 999 minutes, and the page reads 999 back
    from the report: that path does not clamp to 60. *)
Theorem fallback_time_unclamped (str_exn : exn -> string) :
  analyze_question str_exn (Response prose_reply_999)
  = (Some 3%float, analysis_text "3.0" "999" "Intermediate" placeholder)
  /\ estimated_time (snd (analyze_question str_exn (Response prose_reply_999)))
     = Ok 999.
Proof. split; vm_compute; reflexivity. Qed.

(** On the second attempt a null estimated time is no default either: the
    coercion fails and the raw text is returned. *)
Lemma fallback_time_null (str_exn : exn -> string) :
  analyze_question str_exn
    (Response (dq "Result: {'difficulty_rating': 3, 'estimated_time': null}"))
  = (Some 3%float,
     "Analysis (raw): " ++ dq "Result: {'difficulty_rating': 3, 'estimated_time': null}").
Proof. vm_compute. reflexivity. Qed.

(** The direct path prints a time between 1 and 60, and 5 when the field is
    absent or null. *)
Lemma validate_time_default d :
  lookup "estimated_time" d = None \/ lookup "estimated_time" d = Some VNone ->
  validate_time (get "estimated_time" d) = Ok 5.
Proof. unfold get. now intros [-> | ->]. Qed.

(** C2, as stated, fails: the call succeeded, the reply is a JSON object
    without a difficulty rating, and the difficulty returned is null. *)
Lemma null_difficulty_after_successful_call :
  analyze_question (fun _ => "") (Response (dq "{'estimated_time': 5}"))
  = (None, "Error: No difficulty rating provided in analysis").
Proof. vm_compute. reflexivity. Qed.

(** The direct path gives no difficulty exactly when the object is not
    usable. *)
Lemma analyze_result_no_difficulty (d : dict) :
  (exists text, analyze_result (VDict d) = Ok (None, text))
  \/ (exists e, analyze_result (VDict d) = Raise e)
  <-> get "difficulty_rating" d = VNone
      \/ (exists e, py_float (get "difficulty_rating" d) = Raise e)
      \/ (exists e, validate_time (get "estimated_time" d) = Raise e)
      \/ (exists e, validate_level (get "student_level" d) = Raise e).
Proof.
  unfold analyze_result.
  destruct (get "difficulty_rating" d) as [|b|z|x|s|l|d'] eqn:E.
  1:{ split; [auto|]. intros _. left. eauto. }
  all: destruct (py_float _) as [raw|e0] eqn:F; cbn [bind];
    [|split; [intros _; right; left; eauto | intros _; right; eauto]].
  all: destruct (validate_time _) as [t|e1] eqn:T; cbn [bind];
    [|split; [intros _; right; right; left; eauto | intros _; right; eauto]].
  all: destruct (validate_level _) as [lvl|e2] eqn:L; cbn [bind];
    [|split; [intros _; right; right; right; eauto | intros _; right; eauto]].
  all: split;
    [intros [[text H]|[e H]]; discriminate
    |intros [H|[[e H]|[[e H]|[e H]]]]; discriminate].
Qed.

(** A reply that is not JSON always gets a difficulty. *)
Lemma analyze_response_fallback content :
  Json.loads (clean (strip content)) = None ->
  exists x text, analyze_response content = Ok (Some x, text).
Proof.
  intros H. unfold analyze_response. rewrite H.
  destruct (analyze_fallback _) as [[[x text]|]|e]; eauto.
Qed.

(** The direct path on an object whose fields can be used. *)
Lemma analyze_result_usable (d : dict) raw t lvl :
  py_float (get "difficulty_rating" d) = Ok raw ->
  validate_time (get "estimated_time" d) = Ok t ->
  validate_level (get "student_level" d) = Ok lvl ->
  analyze_result (VDict d)
  = Ok (Some (PyFloat.clamp_difficulty raw),
        analysis_text (PyFloat.repr (PyFloat.clamp_difficulty raw)) (str_of_Z t)
          lvl (validate_suggestions (get "improvement_suggestions" d))).
Proof.
  intros F T L. unfold analyze_result.
  destruct (get "difficulty_rating" d) eqn:E; [discriminate F|..];
    rewrite F; cbn [bind]; rewrite T; cbn [bind]; rewrite L; reflexivity.
Qed.

(** C2, amended.  Without a client the result is null with the
    configuration message.  After a call that gave a text, whose cleaned
    form is within the bounds of the decoder: the difficulty is null exactly
    when that form is valid JSON the direct path cannot use, which is to say
    it is not an object, or its difficulty rating is absent or null, or its
    difficulty, time or level cannot be coerced; an object without a
    difficulty rating yields null with the message that says so; an object
    whose fields can be used yields its difficulty, clamped. *)
Theorem analyze_question_null_difficulty (str_exn : exn -> string) :
  analyze_question str_exn NoClient
  = (None, "Error: Groq client not initialized. Please check your API key configuration.")
  /\ (forall content,
        Json.within (clean (strip content)) = true ->
        (fst (analyze_question str_exn (Response content)) = None
         <-> exists result,
               Json.loads (clean (strip content)) = Some result
               /\ ((forall d, result <> VDict d)
                   \/ exists d,
                        result = VDict d
                        /\ (get "difficulty_rating" d = VNone
                            \/ (exists e, py_float (get "difficulty_rating" d) = Raise e)
                            \/ (exists e, validate_time (get "estimated_time" d) = Raise e)
                            \/ (exists e, validate_level (get "student_level" d) = Raise e)))))
  /\ (forall content d,
        Json.within (clean (strip content)) = true ->
        Json.loads (clean (strip content)) = Some (VDict d) ->
        get "difficulty_rating" d = VNone ->
        analyze_question str_exn (Response content)
        = (None, "Error: No difficulty rating provided in analysis"))
  /\ (forall content d raw t lvl,
        Json.within (clean (strip content)) = true ->
        Json.loads (clean (strip content)) = Some (VDict d) ->
        py_float (get "difficulty_rating" d) = Ok raw ->
        validate_time (get "estimated_time" d) = Ok t ->
        validate_level (get "student_level" d) = Ok lvl ->
        fst (analyze_question str_exn (Response content))
        = Some (PyFloat.clamp_difficulty raw)).
Proof.
  split; [reflexivity|]. split; [|split].
  - intros content _. unfold analyze_question. split.
    + destruct (Json.loads (clean (strip content))) as [result|] eqn:Hl.
      * intros H. exists result. split; [reflexivity|].
        destruct result as [| | | | | |d]; try (left; discriminate).
        right. exists d. split; [reflexivity|].
        apply analyze_result_no_difficulty.
        unfold analyze_response in H. rewrite Hl in H.
        destruct (analyze_result (VDict d)) as [[[x|] text]|e];
          [discriminate | left; eauto | right; eauto].
      * destruct (analyze_response_fallback _ Hl) as (x & text & ->). discriminate.
    + intros (result & Hl & H). unfold analyze_response. rewrite Hl.
      destruct H as [H|(d & -> & H)].
      * destruct result as [| | | | | |d]; try reflexivity.
        now destruct (H d).
      * apply analyze_result_no_difficulty in H as [[text ->]|[e ->]]; reflexivity.
  - intros content d _ H Hd. unfold analyze_question, analyze_response.
    rewrite H. unfold analyze_result. now rewrite Hd.
  - intros content d raw t lvl _ H F T L. unfold analyze_question, analyze_response.
    rewrite H, (analyze_result_usable d raw t lvl F T L). reflexivity.
Qed.

Lemma analyze_question_null_difficulty_witness :
  analyze_question (fun _ => "") NoClient
  = (None, "Error: Groq client not initialized. Please check your API key configuration.")
  /\ fst (analyze_question (fun _ => "") (Response "[1, 2]")) = None
  /\ analyze_question (fun _ => "") (Response (dq "{'estimated_time': 5}"))
     = (None, "Error: No difficulty rating provided in analysis")
  /\ fst (analyze_question (fun _ => "") (Response example_payload)) = Some 5%float.
Proof.
  destruct (analyze_question_null_difficulty (fun _ => "")) as (H1 & H2 & H3 & H4).
  split; [exact H1 | split; [|split]].
  - apply (H2 "[1, 2]"); [reflexivity|].
    exists (VList [VInt 1; VInt 2]). split; [reflexivity | left; discriminate].
  - apply (H3 _ [("estimated_time", VInt 5)]); vm_compute; reflexivity.
  - apply (H4 example_payload
             [("difficulty_rating", VInt 7); ("estimated_time", VInt 999);
              ("student_level", VStr "novice"); ("improvement_suggestions", VStr "")]
             7%float 60 "Intermediate"); vm_compute; reflexivity.
Defined.

(** C9, as stated, fails: neither the whole reply nor a brace-delimited piece
    of it parses, before cleaning or after, and the report is the sentinel
    prefix followed by the cleaned text, not by the reply as received. *)
Lemma raw_report_is_cleaned :
  Json.loads fenced_prose = None
  /\ search brace_re fenced_prose = None
  /\ Json.loads (clean (strip fenced_prose)) = None
  /\ analyze_fallback (clean (strip fenced_prose)) = Ok None
  /\ analyze_question (fun _ => "") (Response fenced_prose)
     = (Some 3%float, "Analysis (raw): The question is fine.")
  /\ String.eqb "Analysis (raw): The question is fine."
       ("Analysis (raw): " ++ fenced_prose) = false.
Proof. repeat split; vm_compute; reflexivity. Qed.

Lemma startswith_app (a b t : string) :
  startswith (a ++ b) t = true -> startswith a t = true.
Proof.
  revert t. induction a as [|c a IH]; intros t H; [reflexivity|].
  destruct t as [|c' t]; simpl in *; [discriminate|].
  apply andb_true_iff in H as [H1 H2]. now rewrite H1, (IH _ H2).
Qed.

Lemma contains_suffix p (a b : string) :
  contains p (a ++ b) = false -> contains p b = false.
Proof.
  induction a as [|c a IH]; [trivial|]. simpl.
  intros H. apply orb_false_iff in H as [_ H]. now apply IH.
Qed.

Lemma contains_startswith p (s : string) :
  contains p s = false -> startswith p s = false.
Proof. destruct s; simpl; intros H; now apply orb_false_iff in H as [H _]. Qed.

(** Where no fence marker is ahead the fence pattern has no match. *)
Lemma fence_no_match (s : string) :
  contains "```" s = false -> match_at fence_re s = None.
Proof.
  intros H. unfold match_at, fence_re. cbn [m].
  destruct (startswith "```json" s) eqn:E.
  - apply (startswith_app "```" "json") in E.
    now rewrite (contains_startswith _ _ H) in E.
  - rewrite star_none; [reflexivity|].
    intros a b ->. apply contains_suffix in H.
    now rewrite (contains_startswith _ _ H).
Qed.

(** A text without fence marker is left as it is. *)
Lemma sub_fence_id (s : string) :
  contains "```" s = false -> sub_empty fence_re s = s.
Proof.
  unfold sub_empty. induction s as [|c s IH]; intros H; [reflexivity|].
  cbn [sub_empty_from]. rewrite (fence_no_match _ H).
  rewrite IH; [reflexivity|].
  simpl in H. now apply orb_false_iff in H as [_ H].
Qed.

(** A match of the brace pattern is a piece of the text between braces. *)
Lemma brace_span text mo :
  search brace_re text = Some mo ->
  exists a b c, text = a ++ "{" ++ b ++ "}" ++ c /\ group0 mo = "{" ++ b ++ "}".
Proof.
  intros H. apply search_some in H as (a & s & -> & H).
  unfold match_at, brace_re in H. rewrite m_cat in H. cbn [m] in H.
  destruct (startswith "{" s) eqn:E1; [|discriminate].
  apply startswith_char in E1 as [s1 ->]. cbn [drop String.length] in H.
  apply star_some in H as (b & v & -> & H).
  destruct (startswith "}" v) eqn:E2; [|discriminate].
  apply startswith_char in E2 as [c ->]. cbn [drop String.length] in H.
  change (S (String.length (b ++ String "}" c)))
    with (String.length (String "{" (b ++ String "}" c))) in H.
  assert (E : String "{" (b ++ String "}" c) = ("{" ++ b ++ "}") ++ c).
  { cbn [append]. now rewrite TextFacts.app_assoc. }
  rewrite E, take_app_length in H. inversion H.
  exists a, b, c. split; reflexivity.
Qed.

(** What the decoder makes of the members of an object is a dict. *)
Lemma scan_members_dict fuel : forall s acc v rest,
  Json.scan_members fuel s acc = Some (v, rest) -> exists d, v = VDict d.
Proof.
  induction fuel as [|f IH]; intros s acc v rest; [discriminate|].
  cbn [Json.scan_members].
  destruct s as [|c s']; [discriminate|].
  destruct (Ascii.eqb c dquote); [|discriminate].
  destruct (Json.scanstring s') as [[key r1]|]; [|discriminate].
  destruct (Json.skip_ws r1) as [|c2 r2]; [discriminate|].
  destruct (Ascii.eqb c2 ":"); [|discriminate].
  destruct (Json.scan_once f (Json.skip_ws r2)) as [[v0 r3]|]; [|discriminate].
  destruct (Json.skip_ws r3) as [|c4 r4]; [discriminate|].
  destruct (Ascii.eqb c4 "}"); [intros [= <- _]; eauto|].
  destruct (Ascii.eqb c4 ","); [apply IH | discriminate].
Qed.

(** A text that opens with a brace decodes to a dict, if it decodes. *)
Lemma loads_brace_dict (s : string) v :
  Json.loads (String "{" s) = Some v -> exists d, v = VDict d.
Proof.
  unfold Json.loads. cbn [Json.skip_ws Json.is_ws].
  change (Json.is_ws "{") with false. cbv iota.
  destruct (Json.scan_once _ _) as [[v0 rest]|] eqn:E; [|discriminate].
  destruct (Json.skip_ws rest); [|discriminate]. intros [= <-].
  rewrite Nat.add_comm in E. cbn [Nat.add Json.scan_once] in E.
  change (Ascii.eqb "{" dquote) with false in E.
  change (Ascii.eqb "{" "{") with true in E. cbv iota in E.
  destruct (Json.skip_ws s) as [|c1 r1]; [discriminate|].
  destruct (Ascii.eqb c1 "}"); [injection E as <- _; eauto|].
  eapply scan_members_dict, E.
Qed.

(** What the second attempt comes to on a piece that decodes. *)
Lemma analyze_fallback_cases (text : string) :
  match analyze_fallback text with
  | Ok (Some (x, report)) =>
      exists mo d t,
        search brace_re text = Some mo
        /\ Json.loads (group0 mo) = Some (VDict d)
        /\ py_float (get_default "difficulty_rating" (VFloat 3) d) = Ok x
        /\ py_int (get_default "estimated_time" (VInt 5) d) = Ok t
        /\ report = analysis_text (PyFloat.repr x) (str_of_Z t)
                      (str (get_default "student_level" (VStr "Intermediate") d))
                      (str (get_default "improvement_suggestions" (VStr placeholder) d))
  | Ok None | Raise _ =>
      search brace_re text = None
      \/ exists mo,
           search brace_re text = Some mo
           /\ (Json.loads (group0 mo) = None
               \/ exists d,
                    Json.loads (group0 mo) = Some (VDict d)
                    /\ ((exists e, py_float (get_default "difficulty_rating"
                                               (VFloat 3) d) = Raise e)
                        \/ (exists e, py_int (get_default "estimated_time"
                                                (VInt 5) d) = Raise e)))
  end.
Proof.
  unfold analyze_fallback.
  destruct (search brace_re text) as [mo|] eqn:Hs; [|now left].
  destruct (brace_span _ _ Hs) as (a & b & c & _ & Hg).
  destruct (Json.loads (group0 mo)) as [v|] eqn:Hl; [|right; eauto].
  assert (Hd : exists d, v = VDict d).
  { rewrite Hg in Hl. exact (loads_brace_dict _ _ Hl). }
  destruct Hd as [d ->].
  destruct (py_float _) as [x|e] eqn:F; cbn [bind];
    [|right; exists mo; split; [reflexivity|]; right; exists d; eauto].
  destruct (py_int _) as [t|e] eqn:T; cbn [bind];
    [|right; exists mo; split; [reflexivity|]; right; exists d; eauto].
  exists mo, d, t. auto.
Qed.

(** C9, amended.  For a reply whose cleaned form is within the bounds of the
    decoder and is rejected by it, the result is the difficulty 3.0 and the
    sentinel prefix followed by the cleaned reply exactly when the second
    attempt gives nothing: the cleaned reply has no piece between braces, or
    the first such piece is rejected by the decoder, or it decodes to an
    object whose difficulty or time cannot be coerced.  The cleaned reply is
    the reply stripped, without its fence markers, stripped again; it is the
    reply as received when that has no fence marker and no white space
    around it. *)
Theorem raw_fallback (str_exn : exn -> string) (content : string) :
  Json.within (clean (strip content)) = true ->
  Json.loads (clean (strip content)) = None ->
  (analyze_question str_exn (Response content)
   = (Some 3%float, "Analysis (raw): " ++ clean (strip content))
   <-> search brace_re (clean (strip content)) = None
       \/ exists mo,
            search brace_re (clean (strip content)) = Some mo
            /\ (Json.loads (group0 mo) = None
                \/ exists d,
                     Json.loads (group0 mo) = Some (VDict d)
                     /\ ((exists e, py_float (get_default "difficulty_rating"
                                                (VFloat 3) d) = Raise e)
                         \/ (exists e, py_int (get_default "estimated_time"
                                                 (VInt 5) d) = Raise e))))
  /\ (contains "```" content = false -> strip content = content ->
      clean (strip content) = content).
Proof.
  intros _ Hl. split.
  - unfold analyze_question, analyze_response. rewrite Hl.
    pose proof (analyze_fallback_cases (clean (strip content))) as H.
    destruct (analyze_fallback (clean (strip content))) as [[[x report]|]|e].
    + destruct H as (mo & d & t & Hs & Hd & F & T & ->). split.
      * intros [= _ E].
      * intros [Hn|(mo' & Hs' & [Hn|(d' & Hd' & [[e F']|[e T']])])];
          rewrite Hs in *; try discriminate;
          injection Hs' as <-; rewrite Hd in *; try discriminate;
          injection Hd' as <-; congruence.
    + split; [intros _; exact H | reflexivity].
    + split; [intros _; exact H | reflexivity].
  - intros Hc Hs. unfold clean. rewrite Hs, (sub_fence_id _ Hc). exact Hs.
Qed.

Lemma raw_fallback_witness :
  analyze_question (fun _ => "") (Response fenced_prose)
  = (Some 3%float, "Analysis (raw): " ++ clean (strip fenced_prose))
  /\ analyze_question (fun _ => "") (Response "The question is fine.")
     = (Some 3%float, "Analysis (raw): The question is fine.").
Proof.
  split.
  - apply (raw_fallback (fun _ => "") fenced_prose); [reflexivity | reflexivity|].
    left. reflexivity.
  - destruct (raw_fallback (fun _ => "") "The question is fine.") as [H1 H2];
      [reflexivity | reflexivity|].
    rewrite H2 in H1 by reflexivity. apply H1. left. reflexivity.
Defined.

(** C6.  Whenever the direct path answers, that is the cleaned reply parses
    and a difficulty comes back, the reply is an object, its time and level
    were normalised, and the two scans of the page read exactly the
    normalised time and level back from the report. *)
Theorem report_round_trip (str_exn : exn -> string) content result x text :
  Json.loads (clean (strip content)) = Some result ->
  analyze_question str_exn (Response content) = (Some x, text) ->
  exists d t lvl,
    result = VDict d
    /\ validate_time (get "estimated_time" d) = Ok t
    /\ validate_level (get "student_level" d) = Ok lvl
    /\ estimated_time text = Ok t
    /\ student_level text = lvl.
Proof.
  intros Hl H. apply analyze_question_some in H.
  unfold analyze_response in H. rewrite Hl in H.
  exact (direct_report_scans _ _ _ H).
Qed.

Lemma report_round_trip_witness :
  exists d t lvl,
    Json.loads (clean (strip echo_reply)) = Some (VDict d)
    /\ validate_time (get "estimated_time" d) = Ok t
    /\ validate_level (get "student_level" d) = Ok lvl
    /\ t = 12 /\ lvl = "Advanced"
    /\ estimated_time (snd (analyze_question (fun _ => "") (Response echo_reply))) = Ok t
    /\ student_level (snd (analyze_question (fun _ => "") (Response echo_reply))) = lvl.
Proof.
  destruct (Json.loads (clean (strip echo_reply))) as [result|] eqn:Hl;
    [|vm_compute in Hl; discriminate].
  destruct (analyze_question (fun _ => "") (Response echo_reply)) as [[x|] text] eqn:Ha;
    [|vm_compute in Ha; discriminate].
  destruct (report_round_trip (fun _ => "") echo_reply result x text Hl Ha)
    as (d & t & lvl & -> & Ht & Hlvl & Het & Hsl).
  exists d, t, lvl. simpl snd.
  assert (Hd : d = [("difficulty_rating", VStr "2.5"); ("estimated_time", VFloat 12.5%float);
                    ("student_level", VStr "Not advanced");
                    ("improvement_suggestions",
                      VStr "**Estimated Time:** 3 minutes, **Appropriate Student Level:** Beginner")]).
  { vm_compute in Hl. now inversion Hl. }
  subst d. vm_compute in Ht. vm_compute in Hlvl.
  inversion Ht; inversion Hlvl; subst. auto 10.
Defined.

(** The second attempt prints the level as the reply gives it, so the scan
    of the page, which stops at the first character that is not of a word,
    reads only the first word of it. *)
Lemma fallback_level_first_word (str_exn : exn -> string) :
  analyze_question str_exn (Response prose_reply_level)
  = (Some 3%float, analysis_text "3.0" "5" "not advanced" placeholder)
  /\ student_level (snd (analyze_question str_exn (Response prose_reply_level)))
     = "not".
Proof. split; vm_compute; reflexivity. Qed.









End Evaluator.

(* ================================================================== *)
(** ** The Generator: [generate_questions] *)

Module Generator.

Import Text Re Py Coerce LlmUtils TextFacts NumFacts Samples Spec.

(** *** Dictionaries *)

Lemma lookup_set_same k v (d : dict) : lookup k (set k v d) = Some v.
Proof.
  induction d as [|[k' v'] d IH]; simpl.
  - now rewrite String.eqb_refl.
  - destruct (String.eqb k k') eqn:E; simpl; rewrite ?String.eqb_refl, ?E; auto.
Qed.

Lemma lookup_set_other k k' v (d : dict) :
  String.eqb k' k = false -> lookup k' (set k v d) = lookup k' d.
Proof.
  intros Hne. induction d as [|[k0 v0] d IH]; simpl.
  - now rewrite Hne.
  - destruct (String.eqb k k0) eqn:E; simpl.
    + apply String.eqb_eq in E. subst k0. now rewrite Hne.
    + now rewrite IH.
Qed.

Lemma has_key_set_other k k' v (d : dict) :
  String.eqb k' k = false -> has_key k' (set k v d) = has_key k' d.
Proof. intros H. unfold has_key. now rewrite lookup_set_other. Qed.

Lemma get_set_other k k' v (d : dict) :
  String.eqb k' k = false -> get k' (set k v d) = get k' d.
Proof. intros H. unfold get. now rewrite lookup_set_other. Qed.

(** *** One element *)

Lemma all_in_dict ks (d : dict) :
  all_in ks (VDict d) = Ok (forallb (fun k => has_key k d) ks).
Proof.
  induction ks as [|k ks IH]; [reflexivity|].
  simpl. destruct (has_key k d); [exact IH | reflexivity].
Qed.

(** The body of the loop on an object. *)
Lemma validate_question_dict (d : dict) :
  validate_question (VDict d)
  = if has_required (VDict d) then
      x <- py_float (get "difficulty" d) ;;
      t <- (if has_key "estimated_time" d
            then py_int (get "estimated_time" d) else Ok 5) ;;
      Ok (Some (VDict (rewritten d x t)))
    else Ok None.
Proof.
  unfold validate_question. rewrite all_in_dict. cbn [bind].
  unfold has_required.
  destruct (forallb (fun k => has_key k d) required) eqn:Hreq; cbn [negb];
    [|reflexivity].
  assert (Hk : has_key "difficulty" d = true).
  { simpl in Hreq. repeat (apply andb_true_iff in Hreq as [? Hreq]). assumption. }
  unfold has_key in Hk. cbn [subscript].
  destruct (lookup "difficulty" d) as [v|] eqn:El; [|discriminate].
  assert (Eg : get "difficulty" d = v) by (unfold get; now rewrite El).
  rewrite Eg. cbn [bind].
  destruct (py_float v) as [x|e]; [|reflexivity]. cbn [bind].
  rewrite has_key_set_other, get_set_other by reflexivity.
  unfold rewritten.
  destruct (has_key "estimated_time" d).
  - destruct (py_int _) as [t|e]; reflexivity.
  - reflexivity.
Qed.

(** An element that is not an object is dropped or makes the loop raise. *)
Lemma validate_question_kept q q' :
  validate_question q = Ok (Some q') -> exists d, q = VDict d.
Proof.
  destruct q as [| | | |s|l|d]; try discriminate; [| |eauto];
    unfold validate_question;
    destruct (all_in required _) as [[]|]; cbn; discriminate.
Qed.

(** With the coercions done, an object that has the four keys is kept. *)
Lemma validate_question_ok q r :
  validate_question q = Ok r ->
  (has_required q = true /\ exists q', r = Some q')
  \/ (has_required q = false /\ r = None).
Proof.
  intros H. destruct r as [q'|].
  - destruct (validate_question_kept _ _ H) as [d ->].
    rewrite validate_question_dict in H.
    destruct (has_required (VDict d)); [left; eauto | discriminate].
  - right. split; [|reflexivity].
    destruct q as [| | | |s|l|d]; try reflexivity.
    rewrite validate_question_dict in H.
    destruct (has_required (VDict d)); [|reflexivity].
    destruct (py_float _); [|discriminate]. cbn [bind] in H.
    destruct (if has_key "estimated_time" d then _ else _); discriminate.
Qed.

(** The fields of a kept object. *)
Lemma rewritten_fields (d : dict) x t :
  lookup "difficulty" (rewritten d x t) = Some (VFloat (PyFloat.clamp_difficulty x))
  /\ lookup "estimated_time" (rewritten d x t) = Some (VInt t)
  /\ lookup "student_level" (rewritten d x t)
     = Some (match lookup "student_level" d with
             | Some v => v
             | None => VStr "Intermediate"
             end)
  /\ (forall k, normalised_key k = false ->
        lookup k (rewritten d x t) = lookup k d).
Proof.
  unfold rewritten.
  set (d2 := set "estimated_time" (VInt t)
               (set "difficulty" (VFloat (PyFloat.clamp_difficulty x)) d)).
  assert (H2 : lookup "student_level" d2 = lookup "student_level" d).
  { unfold d2. now rewrite !lookup_set_other by reflexivity. }
  assert (Hd : lookup "difficulty" d2 = Some (VFloat (PyFloat.clamp_difficulty x))).
  { unfold d2. rewrite lookup_set_other by reflexivity. apply lookup_set_same. }
  assert (Ht : lookup "estimated_time" d2 = Some (VInt t)).
  { unfold d2. apply lookup_set_same. }
  assert (Ho : forall k, normalised_key k = false -> lookup k d2 = lookup k d).
  { intros k Hk. unfold normalised_key in Hk.
    apply orb_false_iff in Hk as [Hk _]. apply orb_false_iff in Hk as [Hk1 Hk2].
    unfold d2. now rewrite !lookup_set_other. }
  unfold has_key. rewrite H2.
  destruct (lookup "student_level" d) as [v|] eqn:E.
  - auto.
  - rewrite !lookup_set_other by reflexivity. rewrite lookup_set_same.
    repeat split; auto.
    intros k Hk. rewrite lookup_set_other; [auto|].
    unfold normalised_key in Hk. now apply orb_false_iff in Hk as [_ Hk].
Qed.

(** What a kept element is made from. *)
Lemma validate_question_some q q' :
  validate_question q = Ok (Some q') ->
  exists d x t,
    q = VDict d /\ q' = VDict (rewritten d x t)
    /\ has_required q = true
    /\ py_float (get "difficulty" d) = Ok x
    /\ (if has_key "estimated_time" d
        then py_int (get "estimated_time" d) else Ok 5) = Ok t.
Proof.
  intros H. destruct (validate_question_kept _ _ H) as [d ->].
  rewrite validate_question_dict in H.
  destruct (has_required (VDict d)) eqn:Hreq; [|discriminate].
  destruct (py_float _) as [x|] eqn:Hx; [|discriminate]. cbn [bind] in H.
  destruct (if has_key "estimated_time" d then _ else _) as [t|] eqn:Ht;
    [|discriminate].
  cbn [bind] in H. inversion H. exists d, x, t. repeat split; auto.
Qed.

(** *** The loop *)

(** When no element makes the body raise, the loop appends the kept
    elements, in their order. *)
Lemma validate_questions_ok qs acc :
  Forall (fun q => exists r, validate_question q = Ok r) qs ->
  exists out,
    validate_questions qs acc = Ok (acc ++ out)%list
    /\ Forall2 (fun q q' => validate_question q = Ok (Some q'))
         (filter has_required qs) out.
Proof.
  intros H. revert acc. induction H as [|q qs [r Hr] _ IH]; intros acc.
  - exists []. rewrite List.app_nil_r. split; [reflexivity | constructor].
  - cbn [validate_questions filter]. rewrite Hr. cbn [bind].
    destruct (validate_question_ok _ _ Hr) as [[Hq [q' ->]] | [Hq ->]]; rewrite Hq.
    + destruct (IH (acc ++ [q'])%list) as (out & E & F).
      exists (q' :: out). rewrite E, <- List.app_assoc. split; [reflexivity|].
      constructor; assumption.
    + apply IH.
Qed.

(** One element that makes the body raise makes the loop raise. *)
Lemma validate_questions_raise qs acc q e :
  In q qs -> validate_question q = Raise e ->
  exists e', validate_questions qs acc = Raise e'.
Proof.
  revert acc. induction qs as [|q0 qs IH]; intros acc Hin Hq; [destruct Hin|].
  cbn [validate_questions]. destruct Hin as [-> | Hin].
  - rewrite Hq. cbn [bind]. eauto.
  - destruct (validate_question q0) as [r|e0]; cbn [bind]; eauto.
Qed.

(** Every element the loop returns was there before or is a kept element. *)
Lemma validate_questions_elements qs acc out q' :
  validate_questions qs acc = Ok out -> In q' out ->
  In q' acc \/ exists q, In q qs /\ validate_question q = Ok (Some q').
Proof.
  revert acc. induction qs as [|q qs IH]; intros acc H Hin.
  - inversion H. subst. auto.
  - cbn [validate_questions] in H.
    destruct (validate_question q) as [r|e] eqn:Hq; [|discriminate].
    cbn [bind] in H. destruct (IH _ H Hin) as [Ha | (q0 & Hq0 & Hv)].
    + destruct r as [q1|]; [|auto].
      apply in_app_or in Ha as [Ha | [<- | []]]; [auto|].
      right. exists q. split; [now left | assumption].
    + right. exists q0. split; [now right | assumption].
Qed.

(** *** The whole procedure *)

Lemma generate_questions_parsed text mo qs :
  search bracket_re text = Some mo ->
  Json.loads (group0 mo) = Some (VList qs) ->
  generate_questions (Response text)
  = match validate_questions qs [] with
    | Ok l => l
    | Raise _ => []
    end.
Proof.
  intros Hs Hl. unfold generate_questions, generate_response. now rewrite Hs, Hl.
Qed.

(** Every question returned is a kept element of the parsed batch. *)
Lemma generate_questions_elements text q' :
  In q' (generate_questions (Response text)) ->
  exists mo qs q,
    search bracket_re text = Some mo
    /\ Json.loads (group0 mo) = Some (VList qs)
    /\ In q qs /\ validate_question q = Ok (Some q').
Proof.
  unfold generate_questions, generate_response.
  destruct (search bracket_re text) as [mo|] eqn:Hs; [|intros []].
  destruct (Json.loads (group0 mo)) as [[| | | | |qs|]|] eqn:Hl; try (intros []).
  destruct (validate_questions qs []) as [out|] eqn:E; [|intros []].
  intros Hin. destruct (validate_questions_elements _ _ _ _ E Hin) as [[] | (q & Hq & Hv)].
  exists mo, qs, q. auto.
Qed.

(** Every question returned has a difficulty between 1.0 and 5.0 and an
    integer estimated time, 5 when the element had none. *)
Lemma generate_questions_fields text q' :
  In q' (generate_questions (Response text)) ->
  exists d' x t,
    q' = VDict d'
    /\ lookup "difficulty" d' = Some (VFloat x)
    /\ PrimFloat.leb 1 x = true /\ PrimFloat.leb x 5 = true
    /\ lookup "estimated_time" d' = Some (VInt t).
Proof.
  intros H. apply generate_questions_elements in H as (mo & qs & q & _ & _ & _ & Hv).
  apply validate_question_some in Hv as (d & x & t & -> & -> & _ & _ & _).
  destruct (rewritten_fields d x t) as (Hd & Ht & _).
  destruct (clamp_difficulty_range x) as [H1 H5].
  exists (rewritten d x t), (PyFloat.clamp_difficulty x), t. auto 10.
Qed.

(** *** The bracketed span *)

(** A match of the bracket pattern is a bracketed span of the text. *)
Lemma bracket_span text mo :
  search bracket_re text = Some mo ->
  exists a b c, text = a ++ "[" ++ b ++ "]" ++ c /\ group0 mo = "[" ++ b ++ "]".
Proof.
  intros H. apply search_some in H as (a & s & -> & H).
  unfold match_at, bracket_re in H. rewrite m_cat in H. cbn [m] in H.
  destruct (startswith "[" s) eqn:E1; [|discriminate].
  apply startswith_char in E1 as [s1 ->]. cbn [drop String.length] in H.
  apply star_some in H as (b & v & -> & H).
  destruct (startswith "]" v) eqn:E2; [|discriminate].
  apply startswith_char in E2 as [c ->]. cbn [drop String.length] in H.
  change (S (String.length (b ++ String "]" c)))
    with (String.length (String "[" (b ++ String "]" c))) in H.
  assert (E : String "[" (b ++ String "]" c) = ("[" ++ b ++ "]") ++ c).
  { cbn [append]. now rewrite TextFacts.app_assoc. }
  rewrite E, take_app_length in H. inversion H.
  exists a, b, c. split; reflexivity.
Qed.

(** A text with a bracketed span has a match of the bracket pattern. *)
Lemma span_found (a b c : string) :
  search bracket_re (a ++ "[" ++ b ++ "]" ++ c) <> None.
Proof.
  apply search_app_some. unfold match_at, bracket_re.
  rewrite m_cat, m_lit by reflexivity. cbn [drop String.length append].
  rewrite m_cat, m_star. apply star_any_some.
  rewrite m_lit by reflexivity. discriminate.
Qed.

(** *** The claims *)

(** A loop that comes to its end met no element that raises. *)
Lemma validate_questions_all_ok qs : forall acc out,
  validate_questions qs acc = Ok out ->
  Forall (fun q => exists r, validate_question q = Ok r) qs.
Proof.
  induction qs as [|q qs IH]; intros acc out H; [constructor|].
  cbn [validate_questions] in H.
  destruct (validate_question q) as [r|e] eqn:Hq; [|discriminate].
  cbn [bind] in H. constructor; [eauto | eapply IH, H].
Qed.

(** The records returned, when there are some, are the kept elements of the
    parsed batch, one for one. *)
Lemma generate_questions_kept text :
  generate_questions (Response text) <> [] ->
  exists mo qs,
    search bracket_re text = Some mo
    /\ Json.loads (group0 mo) = Some (VList qs)
    /\ Forall2 (fun q q' => validate_question q = Ok (Some q'))
         (filter has_required qs) (generate_questions (Response text)).
Proof.
  unfold generate_questions, generate_response.
  destruct (search bracket_re text) as [mo|] eqn:Hs; [|now intros []].
  destruct (Json.loads (group0 mo)) as [[| | | | |qs|]|] eqn:Hl; try (now intros []).
  destruct (validate_questions qs []) as [out|] eqn:E; [|now intros []].
  intros _. exists mo, qs.
  split; [first [reflexivity | assumption]|].
  split; [first [reflexivity | assumption]|].
  destruct (validate_questions_ok qs [] (validate_questions_all_ok _ _ _ E))
    as (out' & E' & F).
  rewrite E in E'. injection E' as ->. exact F.
Qed.

(** C8.  When the text has no bracketed span, or the span the pattern
    matches is rejected by the decoder (and has no escape above U+00FF, which
    the decoder does not follow), the result is the empty list; the procedure
    returns a list in every case, an exception never leaves it. *)
Theorem no_array_no_questions (text : string) :
  (forall a b c, text <> a ++ "[" ++ b ++ "]" ++ c)
  \/ (exists mo, search bracket_re text = Some mo
                 /\ Json.wide_escape (group0 mo) = false
                 /\ Json.loads (group0 mo) = None) ->
  generate_questions (Response text) = [].
Proof.
  intros [H | (mo & Hs & _ & Hl)]; unfold generate_questions, generate_response.
  - destruct (search bracket_re text) as [mo|] eqn:E; [|reflexivity].
    destruct (bracket_span _ _ E) as (a & b & c & Ht & _).
    now destruct (H a b c).
  - now rewrite Hs, Hl.
Qed.

Lemma no_array_no_questions_witness :
  generate_questions (Response "not a json array at all") = []
  /\ generate_questions (Response "The questions: [one, two]") = [].
Proof.
  split; apply no_array_no_questions.
  - left. intros a b c E.
    apply (span_found a b c). rewrite <- E. vm_compute. reflexivity.
  - right. exists ("[one, two]", []). repeat split; vm_compute; reflexivity.
Defined.

(** C10.  When the span parses to an array and one of its elements has the
    four keys but a difficulty, or an estimated time, that [float()] or
    [int()] refuses, the result is the empty list, whatever the other
    elements are. *)
Theorem uncoercible_discards_batch text mo qs d e :
  search bracket_re text = Some mo ->
  Json.loads (group0 mo) = Some (VList qs) ->
  In (VDict d) qs ->
  has_required (VDict d) = true ->
  py_float (get "difficulty" d) = Raise e
  \/ (has_key "estimated_time" d = true
      /\ py_int (get "estimated_time" d) = Raise e) ->
  generate_questions (Response text) = [].
Proof.
  intros Hs Hl Hin Hreq Hc.
  assert (Hv : exists e', validate_question (VDict d) = Raise e').
  { rewrite validate_question_dict, Hreq.
    destruct Hc as [Hf | [Hk Hi]].
    - rewrite Hf. cbn [bind]. eauto.
    - rewrite Hk, Hi. destruct (py_float _); cbn [bind]; eauto. }
  destruct Hv as [e' Hv].
  destruct (validate_questions_raise qs [] _ _ Hin Hv) as [e'' Hr].
  now rewrite (generate_questions_parsed _ _ _ Hs Hl), Hr.
Qed.

Lemma uncoercible_discards_batch_witness :
  generate_questions (Response batch_with_hard) = [].
Proof.
  apply (uncoercible_discards_batch batch_with_hard (batch_with_hard, [])
           [VDict [("question_content", VStr "a"); ("question_type", VStr "Essay");
                   ("difficulty", VInt 3); ("correct_answer", VStr "x")];
            VDict [("question_content", VStr "b"); ("question_type", VStr "Essay");
                   ("difficulty", VStr "hard"); ("correct_answer", VStr "y")]]
           [("question_content", VStr "b"); ("question_type", VStr "Essay");
            ("difficulty", VStr "hard"); ("correct_answer", VStr "y")]
           ValueError).
  - vm_compute. reflexivity.
  - vm_compute. reflexivity.
  - right. left. reflexivity.
  - reflexivity.
  - left. vm_compute. reflexivity.
Defined.

(** C7, as stated, fails: both elements of this batch have the four keys,
    and the first, whose difficulty is the number 3, is discarded with the
    second, whose difficulty is the word [hard]. *)
Lemma complete_element_discarded :
  exists q1 q2,
    Json.loads batch_with_hard = Some (VList [q1; q2])
    /\ has_required q1 = true /\ has_required q2 = true
    /\ validate_question q1
       = Ok (Some (VDict [("question_content", VStr "a"); ("question_type", VStr "Essay");
                          ("difficulty", VFloat 3); ("correct_answer", VStr "x");
                          ("estimated_time", VInt 5);
                          ("student_level", VStr "Intermediate")]))
    /\ generate_questions (Response batch_with_hard) = [].
Proof.
  eexists. eexists. split; [vm_compute; reflexivity|].
  repeat split; vm_compute; reflexivity.
Qed.

(** C7, amended.  For a parsed batch none of whose elements makes the loop
    raise (each can be searched for the keys, and the difficulty and the
    estimated time of each element that has the four keys can be coerced),
    the records returned are, in their order, the elements that are objects
    with the four keys; each is the element with its three fields rewritten;
    so there are as many records as such elements. *)
Theorem generate_questions_keeps_complete text mo qs :
  search bracket_re text = Some mo ->
  Json.loads (group0 mo) = Some (VList qs) ->
  Forall (fun q => exists r, validate_question q = Ok r) qs ->
  Forall2 kept_as (filter has_required qs) (generate_questions (Response text))
  /\ List.length (generate_questions (Response text))
     = List.length (filter has_required qs).
Proof.
  intros Hs Hl Hok.
  destruct (validate_questions_ok qs [] Hok) as (out & E & F).
  rewrite (generate_questions_parsed _ _ _ Hs Hl), E. cbn [List.app].
  split.
  - clear E. induction F as [|q q' l l' Hq _ IH]; constructor; [|exact IH].
    apply validate_question_some in Hq as (d & x & t & -> & -> & _).
    exists d, (rewritten d x t). repeat split.
    apply (rewritten_fields d x t).
  - symmetry. eapply Forall2_length. exact F.
Qed.

Lemma generate_questions_keeps_complete_witness :
  List.length (generate_questions (Response batch_of_three)) = 2%nat.
Proof.
  apply (generate_questions_keeps_complete batch_of_three
           (dq "[{'question_content': 'a', 'question_type': 'Essay', 'difficulty': 9, 'correct_answer': 'x'}, {'question_content': 'b', 'question_type': 'Essay', 'correct_answer': 'y'}, {'question_content': 'c', 'question_type': 'Essay', 'difficulty': '2.5', 'correct_answer': 'z', 'estimated_time': '90'}]", [])
           [VDict [("question_content", VStr "a"); ("question_type", VStr "Essay");
                   ("difficulty", VInt 9); ("correct_answer", VStr "x")];
            VDict [("question_content", VStr "b"); ("question_type", VStr "Essay");
                   ("correct_answer", VStr "y")];
            VDict [("question_content", VStr "c"); ("question_type", VStr "Essay");
                   ("difficulty", VStr "2.5"); ("correct_answer", VStr "z");
                   ("estimated_time", VStr "90")]]).
  - vm_compute. reflexivity.
  - vm_compute. reflexivity.
  - repeat constructor; eexists; vm_compute; reflexivity.
Defined.

(** C3, as stated, fails: the Generator returns the level [Expert] as the
    reply gives it. *)
Lemma generator_keeps_raw_level :
  generate_questions (Response batch_with_expert)
  = [VDict [("question_content", VStr "a"); ("question_type", VStr "Essay");
            ("difficulty", VFloat 3); ("correct_answer", VStr "x");
            ("student_level", VStr "Expert"); ("estimated_time", VInt 5)]].
Proof. vm_compute. reflexivity. Qed.

End Generator.

(* ================================================================== *)
(** ** The student level on both sides *)

Module Levels.

Import Text Re Py Coerce LlmUtils ReportFacts Samples Spec Generator.

(** The examples of the specification for the direct path. *)
Example validate_level_examples :
  validate_level (VStr "BEGINNER-ish") = Ok "Beginner"
  /\ validate_level (VStr "expert/advanced track") = Ok "Advanced"
  /\ validate_level (VStr "") = Ok "Intermediate"
  /\ validate_level (VStr "novice") = Ok "Intermediate"
  /\ validate_level VNone = Ok "Intermediate".
Proof. repeat split. Qed.

(** C3, amended.  On the direct path of the Evaluator the level printed in
    the report, as the page reads it back, is one of the three labels:
    [Beginner] exactly when the folded text has [beginner], [Advanced]
    exactly when it has [advanced] and not [beginner], [Intermediate] when
    the field is absent or null.  The records of the Generator are, one for
    one and in their order, the elements of the batch that have the four
    keys, and each carries the level of the element it is made of as it is,
    and [Intermediate] when that element has none. *)
Theorem student_level_policy (str_exn : exn -> string) :
  (forall content result x text,
      Json.loads (clean (strip content)) = Some result ->
      analyze_question str_exn (Response content) = (Some x, text) ->
      exists d lvl,
        result = VDict d
        /\ QuestionGenerator.student_level text = lvl
        /\ (lvl = "Beginner" \/ lvl = "Intermediate" \/ lvl = "Advanced")
        /\ (forall s, lookup "student_level" d = Some (VStr s) ->
              (lvl = "Beginner" <-> contains "beginner" (lower s) = true)
              /\ (lvl = "Advanced"
                  <-> contains "beginner" (lower s) = false
                      /\ contains "advanced" (lower s) = true))
        /\ (lookup "student_level" d = None
            \/ lookup "student_level" d = Some VNone -> lvl = "Intermediate"))
  /\ (forall text,
        generate_questions (Response text) <> [] ->
        exists mo qs,
          search bracket_re text = Some mo
          /\ Json.loads (group0 mo) = Some (VList qs)
          /\ Forall2 (fun q q' =>
                        exists d d',
                          q = VDict d /\ q' = VDict d'
                          /\ validate_question q = Ok (Some q')
                          /\ lookup "student_level" d'
                             = Some (match lookup "student_level" d with
                                     | Some v => v
                                     | None => VStr "Intermediate"
                                     end))
               (filter has_required qs) (generate_questions (Response text))).
Proof.
  split.
  - intros content result x text Hl H. apply analyze_question_some in H.
    unfold analyze_response in H. rewrite Hl in H.
    apply direct_report_scans in H as (d & t & lvl & -> & _ & Hlvl & _ & Hs).
    exists d, lvl. split; [reflexivity|]. split; [exact Hs|].
    split; [exact (validate_level_labels _ _ Hlvl)|]. split.
    + intros s Hk. unfold get in Hlvl. rewrite Hk in Hlvl.
      now apply validate_level_text.
    + unfold get in Hlvl. intros [Hk | Hk]; rewrite Hk in Hlvl; now inversion Hlvl.
  - intros text H.
    destruct (generate_questions_kept text H) as (mo & qs & Hs & Hl & F).
    exists mo, qs. split; [exact Hs|]. split; [exact Hl|].
    eapply Forall2_impl; [|exact F]. intros q q' Hq.
    pose proof Hq as Hv.
    apply validate_question_some in Hq as (d & x & t & -> & -> & _).
    exists d, (rewritten d x t). repeat split; [exact Hv|].
    apply (rewritten_fields d x t).
Qed.

Lemma student_level_policy_witness :
  QuestionGenerator.student_level
    (snd (analyze_question (fun _ => "") (Response echo_reply))) = "Advanced"
  /\ exists mo qs,
       search bracket_re batch_with_expert = Some mo
       /\ Json.loads (group0 mo) = Some (VList qs)
       /\ Forall2 (fun q q' =>
                     exists d d',
                       q = VDict d /\ q' = VDict d'
                       /\ validate_question q = Ok (Some q')
                       /\ lookup "student_level" d'
                          = Some (match lookup "student_level" d with
                                  | Some v => v
                                  | None => VStr "Intermediate"
                                  end))
            (filter has_required qs) (generate_questions (Response batch_with_expert)).
Proof.
  destruct (student_level_policy (fun _ => "")) as [HA HB]. split.
  - destruct (Json.loads (clean (strip echo_reply))) as [result|] eqn:Hl;
      [|vm_compute in Hl; discriminate].
    destruct (analyze_question (fun _ => "") (Response echo_reply)) as [[x|] text] eqn:Ha;
      [|vm_compute in Ha; discriminate].
    destruct (HA _ _ _ _ Hl Ha) as (d & lvl & -> & Hs & _ & Hk & _).
    cbn [snd]. rewrite Hs.
    apply (Hk "Not advanced"); [|split; reflexivity].
    vm_compute in Hl. inversion Hl. reflexivity.
  - apply HB. vm_compute. discriminate.
Defined.

End Levels.

(* ================================================================== *)
(** ** More on the two procedures of [llm_utils.py] *)

Module ReplyFacts.

Import Text Re Py Coerce LlmUtils Spec TextFacts NumFacts ReportFacts.

Lemma py_float_raises v e :
  py_float v = Raise e -> e = TypeError \/ e = ValueError \/ e = OverflowError.
Proof.
  destruct v as [|b|z|x|s|l|d]; cbn [py_float]; try discriminate;
    try (intros [= <-]; auto).
  - destruct (PyFloat.float_of_Z z); [discriminate | intros [= <-]; auto].
  - destruct (Num.float_of_string s); [discriminate | intros [= <-]; auto].
Qed.

Lemma py_int_raises v e :
  py_int v = Raise e -> e = TypeError \/ e = ValueError \/ e = OverflowError.
Proof.
  destruct v as [|b|z|x|s|l|d]; cbn [py_int]; try discriminate;
    try (intros [= <-]; auto).
  - destruct (PyFloat.trunc x) as [[]|]; [intros [= <-]; auto | intros [= <-]; auto
                                          | discriminate].
  - destruct (Num.int_of_string s); [discriminate | intros [= <-]; auto].
Qed.

Lemma analyze_result_raises result e :
  analyze_result result = Raise e ->
  e = AttributeError \/ e = TypeError \/ e = ValueError \/ e = OverflowError.
Proof.
  destruct result as [| | | | | |d]; try (intros [= <-]; auto).
  unfold analyze_result.
  assert (G : forall v,
            (x <- py_float v ;;
             estimated_time <- validate_time (get "estimated_time" d) ;;
             student_level <- validate_level (get "student_level" d) ;;
             Ok (Some (PyFloat.clamp_difficulty x),
                 analysis_text (PyFloat.repr (PyFloat.clamp_difficulty x))
                   (str_of_Z estimated_time) student_level
                   (validate_suggestions (get "improvement_suggestions" d))))
            = Raise e ->
            e = AttributeError \/ e = TypeError \/ e = ValueError \/ e = OverflowError).
  { intros v. destruct (py_float v) as [x|e0] eqn:F; cbn [bind].
    - unfold validate_time.
      destruct (get "estimated_time" d) as [|b|z|y|s|l|d'] eqn:Et; cbn [bind].
      1:{ unfold validate_level.
          destruct (get "student_level" d); cbn [bind]; try discriminate;
            try (intros [= <-]; auto).
          destruct (contains "beginner" (lower s)); [discriminate|].
          destruct (contains "advanced" (lower s)); discriminate. }
      all: destruct (py_int _) as [t|e1] eqn:T; cbn [bind];
        [|intros [= <-]; right; exact (py_int_raises _ _ T)].
      all: unfold validate_level;
        destruct (get "student_level" d); cbn [bind]; try discriminate;
        try (intros [= <-]; auto).
      all: destruct (contains "beginner" (lower _)); [discriminate|];
        destruct (contains "advanced" (lower _)); discriminate.
    - intros [= <-]. right. exact (py_float_raises _ _ F). }
  destruct (get "difficulty_rating" d); [discriminate|..]; apply G.
Qed.

(** X1.  A reply that is valid JSON (within the bounds of the decoder) and
    yields no difficulty is reported in one of two ways: as an object without
    a difficulty rating, with the message that says so; or, although the call
    succeeded, as an error of the call, with the message of the
    [AttributeError], [TypeError], [ValueError] or [OverflowError] that
    reading the fields raised. *)
Theorem unusable_reply_message (str_exn : exn -> string) content result :
  Json.within (clean (strip content)) = true ->
  Json.loads (clean (strip content)) = Some result ->
  fst (analyze_question str_exn (Response content)) = None ->
  (exists d,
      result = VDict d /\ get "difficulty_rating" d = VNone
      /\ snd (analyze_question str_exn (Response content))
         = "Error: No difficulty rating provided in analysis")
  \/ (exists e,
        analyze_result result = Raise e
        /\ (e = AttributeError \/ e = TypeError \/ e = ValueError
            \/ e = OverflowError)
        /\ snd (analyze_question str_exn (Response content))
           = "Error calling Groq API: " ++ str_exn e).
Proof.
  intros _ Hl. unfold analyze_question, analyze_response. rewrite Hl.
  destruct (analyze_result result) as [[[x|] text]|e] eqn:E; cbn [fst snd];
    [discriminate| |].
  - intros _. left.
    destruct result as [| | | | | |d]; try discriminate.
    exists d. split; [reflexivity|].
    unfold analyze_result in E.
    destruct (get "difficulty_rating" d) eqn:G;
      [injection E as <-; auto|..];
      (destruct (py_float _); cbn [bind] in E; [|discriminate];
       destruct (validate_time _); cbn [bind] in E; [|discriminate];
       destruct (validate_level _); cbn [bind] in E; discriminate).
  - intros _. right. exists e. split; [reflexivity|].
    split; [exact (analyze_result_raises _ _ E) | reflexivity].
Qed.

Lemma unusable_reply_message_witness :
  (exists d,
      VList [VInt 1; VInt 2] = VDict d /\ get "difficulty_rating" d = VNone
      /\ snd (analyze_question (fun _ => "list has no get") (Response "[1, 2]"))
         = "Error: No difficulty rating provided in analysis")
  \/ (exists e,
        analyze_result (VList [VInt 1; VInt 2]) = Raise e
        /\ (e = AttributeError \/ e = TypeError \/ e = ValueError
            \/ e = OverflowError)
        /\ snd (analyze_question (fun _ => "list has no get") (Response "[1, 2]"))
           = "Error calling Groq API: " ++ (fun _ : exn => "list has no get") e).
Proof.
  apply (unusable_reply_message (fun _ => "list has no get") "[1, 2]"
           (VList [VInt 1; VInt 2])); reflexivity.
Defined.

(** *** The records of [generate_questions] *)

Lemma has_key_lookup k (d : dict) v : lookup k d = Some v -> has_key k d = true.
Proof. unfold has_key. now intros ->. Qed.

Lemma has_key_rewritten k (d : dict) x t :
  has_key k d = true -> has_key k (rewritten d x t) = true.
Proof.
  intros H. destruct (Generator.rewritten_fields d x t) as (H1 & H2 & H3 & H4).
  destruct (normalised_key k) eqn:N.
  - unfold normalised_key in N.
    destruct (String.eqb_spec k "difficulty") as [->|_];
      [exact (has_key_lookup _ _ _ H1)|].
    destruct (String.eqb_spec k "estimated_time") as [->|_];
      [exact (has_key_lookup _ _ _ H2)|].
    destruct (String.eqb_spec k "student_level") as [->|_];
      [exact (has_key_lookup _ _ _ H3)|discriminate].
  - unfold has_key in *. now rewrite (H4 k N).
Qed.


Lemma has_required_rewritten (d : dict) x t :
  has_required (VDict d) = true -> has_required (VDict (rewritten d x t)) = true.
Proof.
  unfold has_required. rewrite !forallb_forall. intros H k Hk.
  apply has_key_rewritten, H, Hk.
Qed.

(** What every record of [generate_questions] has. *)
Lemma generated_record_fields (g : gateway) (q : value) :
  In q (generate_questions g) ->
  exists d x t lvl,
    q = VDict d
    /\ has_required (VDict d) = true
    /\ lookup "difficulty" d = Some (VFloat x)
    /\ PrimFloat.leb 1 x = true /\ PrimFloat.leb x 5 = true
    /\ lookup "estimated_time" d = Some (VInt t)
    /\ lookup "student_level" d = Some lvl.
Proof.
  destruct g as [|e|text]; try contradiction.
  intros H. apply Generator.generate_questions_elements in H
    as (mo & qs & q0 & _ & _ & _ & H).
  apply Generator.validate_question_some in H as (d & x & t & -> & -> & Hr & _ & _).
  destruct (Generator.rewritten_fields d x t) as (H1 & H2 & H3 & _).
  destruct (clamp_difficulty_range x).
  exists (rewritten d x t), (PyFloat.clamp_difficulty x), t.
  eexists. repeat split; try eassumption.
  now apply has_required_rewritten.
Qed.

(** X2.  Whatever the call comes to, every record that
    [generate_questions] returns is an object with the four required keys,
    a [difficulty] that is a float between 1.0 and 5.0, an [estimated_time]
    that is an integer, and a [student_level]. *)
Theorem generated_record_shape (g : gateway) (q : value) :
  In q (generate_questions g) ->
  exists d x t lvl,
    q = VDict d
    /\ has_required (VDict d) = true
    /\ lookup "difficulty" d = Some (VFloat x)
    /\ PrimFloat.leb 1 x = true /\ PrimFloat.leb x 5 = true
    /\ lookup "estimated_time" d = Some (VInt t)
    /\ lookup "student_level" d = Some lvl.
Proof. exact (generated_record_fields g q). Qed.

Lemma generated_record_shape_witness :
  exists d x t lvl,
    VDict [("question_content", VStr "a"); ("question_type", VStr "Essay");
           ("difficulty", VFloat 3); ("correct_answer", VStr "x");
           ("student_level", VStr "Expert"); ("estimated_time", VInt 5)]
    = VDict d
    /\ has_required (VDict d) = true
    /\ lookup "difficulty" d = Some (VFloat x)
    /\ PrimFloat.leb 1 x = true /\ PrimFloat.leb x 5 = true
    /\ lookup "estimated_time" d = Some (VInt t)
    /\ lookup "student_level" d = Some lvl.
Proof.
  apply (generated_record_shape (Response Samples.batch_with_expert)).
  vm_compute. left. reflexivity.
Defined.

(** *** The span of the array *)

(** The greedy repetition of any character goes as far as the last place
    where the rest of the pattern matches. *)
Lemma star_any_last {A} (a b : string) (k : string -> option A) x :
  k b = Some x ->
  (forall c b', b = String c b' -> forall u v, b' = u ++ v -> k v = None) ->
  star any_char (a ++ b) k = Some x.
Proof.
  intros Hk Hn. induction a as [|c a IH].
  - cbn [append]. destruct b as [|c b']; [exact Hk|].
    cbn [star any_char]. rewrite (star_none any_char b' k (Hn c b' eq_refl)).
    exact Hk.
  - cbn [append star any_char]. now rewrite IH.
Qed.

Lemma free_suffix sep (u v : string) : free sep (u ++ v) = true -> free sep v = true.
Proof.
  unfold free. rewrite all_chars_app. intros H.
  now apply andb_true_iff in H as [_ H].
Qed.

Lemma match_span (body post : string) :
  free "]" post = true ->
  match_at bracket_re ("[" ++ body ++ "]" ++ post) = Some ("[" ++ body ++ "]", []).
Proof.
  intros F. unfold match_at, bracket_re.
  rewrite m_cat, m_lit by reflexivity. cbn [drop String.length append].
  rewrite m_cat, m_star.
  apply star_any_last.
  - rewrite m_lit by reflexivity. cbn [drop String.length append].
    f_equal. f_equal.
    assert (E : String "[" (body ++ String "]" post) = ("[" ++ body ++ "]") ++ post)
      by (cbn [append]; now rewrite app_assoc).
    change (S (String.length (body ++ String "]" post)))
      with (String.length (String "[" (body ++ String "]" post))).
    rewrite E. exact (take_app_length ("[" ++ body ++ "]") post).
  - intros c b' [= <- <-] u v ->. apply m_lit_none.
    apply free_suffix in F. destruct v as [|c v]; [reflexivity|].
    unfold free in F. cbn [all_chars] in F. cbn [startswith].
    rewrite (Ascii.eqb_sym "]" c).
    destruct (Ascii.eqb c "]"); [discriminate F | reflexivity].
Qed.

Lemma search_span (pre body post : string) :
  free "[" pre = true -> free "]" post = true ->
  search bracket_re (pre ++ "[" ++ body ++ "]" ++ post)
  = Some ("[" ++ body ++ "]", []).
Proof.
  intros Fp Fq. unfold bracket_re at 1.
  rewrite search_skip.
  - apply search_found, match_span, Fq.
  - revert Fp. unfold free. apply all_chars_impl. intros c.
    now rewrite (Ascii.eqb_sym c "[").
Qed.

(** X3.  Prose around the array does not matter: when the text
    before the first opening bracket has none and the text after the last
    closing bracket has none, the span of the pattern is exactly the
    bracketed piece, and [generate_questions] returns what it returns for
    that piece alone. *)
Theorem prose_around_array (pre body post : string) :
  free "[" pre = true -> free "]" post = true ->
  search bracket_re (pre ++ "[" ++ body ++ "]" ++ post)
  = Some ("[" ++ body ++ "]", [])
  /\ generate_questions (Response (pre ++ "[" ++ body ++ "]" ++ post))
     = generate_questions (Response ("[" ++ body ++ "]")).
Proof.
  intros Fp Fq. split; [now apply search_span|].
  unfold generate_questions, generate_response.
  rewrite (search_span pre body post Fp Fq).
  pose proof (search_span "" body "" eq_refl eq_refl) as E.
  cbn [append] in E. cbn [append]. now rewrite E.
Qed.

Lemma prose_around_array_witness :
  search bracket_re
    ("Here you are: [" ++ dq "{'question_content': 'a', 'question_type': 'Essay', 'difficulty': 9, 'correct_answer': 'x'}" ++ "] Good luck!")
  = Some ("[" ++ dq "{'question_content': 'a', 'question_type': 'Essay', 'difficulty': 9, 'correct_answer': 'x'}" ++ "]", [])
  /\ generate_questions
       (Response ("Here you are: [" ++ dq "{'question_content': 'a', 'question_type': 'Essay', 'difficulty': 9, 'correct_answer': 'x'}" ++ "] Good luck!"))
     = generate_questions
         (Response ("[" ++ dq "{'question_content': 'a', 'question_type': 'Essay', 'difficulty': 9, 'correct_answer': 'x'}" ++ "]")).
Proof.
  exact (prose_around_array "Here you are: "
           (dq "{'question_content': 'a', 'question_type': 'Essay', 'difficulty': 9, 'correct_answer': 'x'}")
           " Good luck!" eq_refl eq_refl).
Defined.

End ReplyFacts.

(* ================================================================== *)
(** ** The client and the call *)

Module GatewayFacts.

Import Text Py Coerce Gateway.

Section Client.

Variable Client : Type.
Variable Groq : value -> res Client.
Variable create : Client -> request -> res (option string).

(** Where a client comes from. *)
Lemma get_groq_client_some environ_key secret c :
  get_groq_client Client Groq environ_key secret = Some c ->
  exists key,
    truthy key = true /\ Groq key = Ok c
    /\ ((exists k, environ_key = Some k /\ k <> "" /\ key = VStr k)
        \/ ((environ_key = None \/ environ_key = Some "") /\ secret = Ok key)).
Proof.
  unfold get_groq_client.
  destruct environ_key as [k|].
  - cbn [truthy]. destruct (String.eqb k "") eqn:E; cbn [negb].
    + apply String.eqb_eq in E. subst k.
      destruct secret as [v|e]; [|discriminate].
      destruct (truthy v) eqn:T; [|discriminate].
      destruct (Groq v) as [c'|] eqn:G; [|discriminate].
      intros [= <-]. exists v. auto 8.
    + cbn [truthy]. rewrite E. cbn [negb]. apply String.eqb_neq in E.
      destruct (Groq (VStr k)) as [c'|] eqn:G; [|discriminate].
      intros [= <-]. exists (VStr k). repeat split; auto.
      * cbn. now apply negb_true_iff, String.eqb_neq.
      * left. now exists k.
  - cbn [truthy].
    destruct secret as [v|e]; [|discriminate].
    destruct (truthy v) eqn:T; [|discriminate].
    destruct (Groq v) as [c'|] eqn:G; [|discriminate].
    intros [= <-]. exists v. auto 8.
Qed.

Lemma get_groq_client_none environ_key secret :
  ((environ_key = None \/ environ_key = Some "")
   /\ (forall v, secret = Ok v -> truthy v = false))
  \/ (forall key, exists e, Groq key = Raise e) ->
  get_groq_client Client Groq environ_key secret = None.
Proof.
  intros H.
  destruct (get_groq_client Client Groq environ_key secret) as [c|] eqn:E;
    [|reflexivity].
  apply get_groq_client_some in E as (key & T & G & K).
  destruct H as [[He Hs]|Hg].
  - destruct K as [(k & -> & Hk & _)|(_ & ->)].
    + destruct He as [He|He]; [discriminate | injection He as ->; contradiction].
    + rewrite (Hs key eq_refl) in T. discriminate.
  - destruct (Hg key) as [e He]. congruence.
Qed.

(** X4.  Without a usable key (the environment variable is absent
    or empty and the secret is missing or falsy) or when the constructor of
    the client raises, neither procedure reaches the endpoint:
    [analyze_question] returns no difficulty with the fixed message and
    [generate_questions] returns the empty list, whatever the endpoint
    would have answered. *)
Theorem no_key_no_call (str_exn : exn -> string) environ_key secret
    (question_content question_type course_title chapter_title chapter_summary
     ilos difficulty_level model_name : string)
    (num_questions : Z) (question_types existing_questions : list string) :
  ((environ_key = None \/ environ_key = Some "")
   /\ (forall v, secret = Ok v -> truthy v = false))
  \/ (forall key, exists e, Groq key = Raise e) ->
  analyze_question Client Groq create str_exn environ_key secret
    question_content question_type course_title chapter_title ilos
  = (None, "Error: Groq client not initialized. Please check your API key configuration.")
  /\ generate_questions Client Groq create environ_key secret course_title
       chapter_title chapter_summary ilos num_questions difficulty_level
       question_types existing_questions model_name
     = [].
Proof.
  intros H. unfold analyze_question, generate_questions, analysis_call,
    generation_call.
  rewrite (get_groq_client_none _ _ H). split; reflexivity.
Qed.

(** X5.  A client is only ever made from a truthy key, which is
    the non-empty environment variable or else the secret; and with a
    non-empty environment variable the secret is not looked at. *)
Theorem client_key_precedence environ_key secret :
  (forall c, get_groq_client Client Groq environ_key secret = Some c ->
     exists key,
       truthy key = true /\ Groq key = Ok c
       /\ ((exists k, environ_key = Some k /\ k <> "" /\ key = VStr k)
           \/ ((environ_key = None \/ environ_key = Some "")
               /\ secret = Ok key)))
  /\ (forall k secret',
        environ_key = Some k -> k <> "" ->
        get_groq_client Client Groq environ_key secret
        = get_groq_client Client Groq environ_key secret').
Proof.
  split; [intros c; apply get_groq_client_some|].
  intros k secret' -> Hk. unfold get_groq_client. cbn [truthy].
  apply String.eqb_neq in Hk. rewrite Hk. reflexivity.
Qed.

(** X6.  Only the first three existing questions reach the endpoint: two
    lists of examples that agree on their first three elements give the same
    request, prompt and all. *)
Theorem examples_limited_to_three
    (course_title chapter_title chapter_summary ilos difficulty_level
     model_name : string) (num_questions : Z)
    (question_types existing1 existing2 : list string) :
  firstn 3 existing1 = firstn 3 existing2 ->
  generation_request course_title chapter_title chapter_summary ilos
    num_questions difficulty_level question_types existing1 model_name
  = generation_request course_title chapter_title chapter_summary ilos
      num_questions difficulty_level question_types existing2 model_name.
Proof.
  intros H.
  unfold generation_request, generation_user_prompt, examples_text.
  destruct existing1 as [|a l1]; destruct existing2 as [|b l2];
    try discriminate; [reflexivity|].
  now rewrite H.
Qed.

End Client.

Lemma no_key_no_call_witness :
  analyze_question unit (fun _ => Ok tt) (fun _ _ => Ok (Some "[]")) (fun _ => "")
    (Some "") (Raise KeyError) "What is a tree?" "Essay" "Graphs" "Trees"
    "Define a tree."
  = (None, "Error: Groq client not initialized. Please check your API key configuration.")
  /\ generate_questions unit (fun _ => Ok tt) (fun _ _ => Ok (Some "[]"))
       (Some "") (Raise KeyError) "Graphs" "Trees" "" "Define a tree." 3 "mixed"
       default_question_types [] default_model
     = [].
Proof.
  apply (no_key_no_call unit (fun _ => Ok tt) (fun _ _ => Ok (Some "[]"))
           (fun _ => "") (Some "") (Raise KeyError) "What is a tree?" "Essay"
           "Graphs" "Trees" "" "Define a tree." "mixed" default_model 3
           default_question_types []).
  left. split; [now right | discriminate].
Defined.

Lemma client_key_precedence_witness :
  get_groq_client string (fun key => Ok (str key)) (Some "from the environment")
    (Ok (VStr "from the secrets"))
  = get_groq_client string (fun key => Ok (str key)) (Some "from the environment")
      (Raise KeyError).
Proof.
  apply (proj2 (client_key_precedence string (fun key => Ok (str key))
                  (Some "from the environment") (Ok (VStr "from the secrets")))
           "from the environment" (Raise KeyError));
    [reflexivity | discriminate].
Defined.

Lemma examples_limited_to_three_witness :
  generation_request "Graphs" "Trees" "" "Define a tree." 3 "mixed"
    default_question_types ["a"; "b"; "c"; "d"] default_model
  = generation_request "Graphs" "Trees" "" "Define a tree." 3 "mixed"
      default_question_types ["a"; "b"; "c"] default_model.
Proof.
  apply (examples_limited_to_three "Graphs" "Trees" "" "Define a tree."
           "mixed" default_model 3 default_question_types
           ["a"; "b"; "c"; "d"] ["a"; "b"; "c"]).
  reflexivity.
Defined.

End GatewayFacts.

(* ================================================================== *)
(** ** The options of a multiple-choice question *)

Module OptionFacts.

Import Text Py Coerce Models Exam QuestionForm TextFacts.

Lemma contains_bar_free (s : string) :
  contains "|" s = false <-> free "|" s = true.
Proof.
  unfold free. induction s as [|c s IH]; [cbn; tauto|].
  cbn [contains startswith all_chars]. rewrite andb_true_r.
  rewrite (Ascii.eqb_sym c "|").
  destruct (Ascii.eqb "|" c); cbn [orb negb andb]; [split; discriminate|].
  exact IH.
Qed.

Lemma split_not_nil sep (s : string) : split sep s <> [].
Proof.
  induction s as [|c s IH]; simpl; [discriminate|].
  destruct (Ascii.eqb c sep); [discriminate|].
  destruct (split sep s); discriminate.
Qed.

Lemma join_cons sep x y (l : list string) :
  join sep (x :: y :: l) = x ++ sep ++ join sep (y :: l).
Proof. reflexivity. Qed.

(** Joining the parts of a text gives the text back. *)
Lemma join_split sep (s : string) : join (String sep "") (split sep s) = s.
Proof.
  induction s as [|c s IH]; [reflexivity|]. cbn [split].
  destruct (Ascii.eqb c sep) eqn:E.
  - apply Ascii.eqb_eq in E. subst c.
    destruct (split sep s) as [|p ps] eqn:Es; [now destruct (split_not_nil sep s)|].
    rewrite join_cons, IH. reflexivity.
  - destruct (split sep s) as [|p ps] eqn:Es; [now destruct (split_not_nil sep s)|].
    destruct ps as [|p' ps].
    + simpl in *. now rewrite IH.
    + rewrite join_cons in *. rewrite <- IH. reflexivity.
Qed.

(** No part has the separator. *)
Lemma split_free sep (s : string) : Forall (fun p => free sep p = true) (split sep s).
Proof.
  induction s as [|c s IH]; simpl; [repeat constructor|].
  destruct (Ascii.eqb c sep) eqn:E.
  - constructor; [reflexivity | exact IH].
  - destruct (split sep s) as [|p ps].
    + constructor; [|constructor]. unfold free. simpl. now rewrite E.
    + inversion IH; subst. constructor; [|assumption].
      unfold free in *. simpl. now rewrite E.
Qed.

Lemma split_free_one sep (a : string) : free sep a = true -> split sep a = [a].
Proof.
  unfold free. induction a as [|c a IH]; simpl; [reflexivity|].
  intros H. apply andb_true_iff in H as [Hc Ha]. apply negb_true_iff in Hc.
  now rewrite Hc, (IH Ha).
Qed.

Lemma split_app sep (a b : string) :
  free sep a = true -> split sep (a ++ String sep b) = a :: split sep b.
Proof.
  unfold free. induction a as [|c a IH]; simpl.
  - now rewrite Ascii.eqb_refl.
  - intros H. apply andb_true_iff in H as [Hc Ha]. apply negb_true_iff in Hc.
    now rewrite Hc, (IH Ha).
Qed.

(** Splitting what was joined gives the parts back, when there is a part and
    none has the separator. *)
Lemma split_join sep (l : list string) :
  l <> [] -> Forall (fun p => free sep p = true) l ->
  split sep (join (String sep "") l) = l.
Proof.
  induction l as [|x l IH]; intros Hne Hf; [contradiction|].
  inversion Hf as [|? ? Hx Hl]; subst.
  destruct l as [|y l].
  - simpl. now apply split_free_one.
  - rewrite join_cons. cbn [append]. rewrite (split_app _ _ _ Hx).
    f_equal. apply IH; [discriminate | assumption].
Qed.

(** A text with the separator has at least two parts. *)
Lemma split_two sep (s : string) :
  free sep s = false -> exists a b l, split sep s = a :: b :: l.
Proof.
  unfold free. induction s as [|c s IH]; simpl; [discriminate|].
  destruct (Ascii.eqb c sep) eqn:E; simpl.
  - intros _. destruct (split sep s) as [|b l] eqn:Es;
      [now destruct (split_not_nil sep s)|]. now exists "", b, l.
  - intros H. destruct (IH H) as (a & b & l & ->). now exists (String c a), b, l.
Qed.

Lemma contains_bar_join (a : string) o (l : list string) :
  contains "|" (join "|" (a :: o :: l)) = true.
Proof.
  destruct (contains "|" (join "|" (a :: o :: l))) eqn:E; [reflexivity|].
  apply contains_bar_free in E. rewrite join_cons in E. unfold free in E.
  rewrite all_chars_app in E. apply andb_true_iff in E as [_ E].
  simpl in E. discriminate.
Qed.


Lemma shown_of_join (a o : string) (l : list string) :
  free "|" a = true -> Forall (fun o => free "|" o = true) (o :: l) ->
  shown_options "Multiple Choice" (join "|" (a :: o :: l)) = Some (a, o :: l).
Proof.
  intros Fa Fo. unfold shown_options. rewrite String.eqb_refl. cbn [andb].
  rewrite contains_bar_join.
  change "|" with (String "|" "") at 1 3.
  rewrite split_join; [reflexivity | discriminate | now constructor].
Qed.

Lemma shown_parts (s a : string) (opts : list string) :
  shown_options "Multiple Choice" s = Some (a, opts) ->
  (exists o l, opts = o :: l)
  /\ s = join "|" (a :: opts)
  /\ free "|" a = true
  /\ Forall (fun o => free "|" o = true) opts.
Proof.
  unfold shown_options. rewrite String.eqb_refl. cbn [andb].
  destruct (contains "|" s) eqn:C; [|discriminate].
  assert (F : free "|" s = false).
  { destruct (free "|" s) eqn:F; [|reflexivity].
    apply contains_bar_free in F. congruence. }
  destruct (split_two _ _ F) as (a0 & b & l & E).
  pose proof (join_split "|" s) as J. pose proof (split_free "|" s) as Fr.
  rewrite E in *. cbn [hd tl List.length Nat.ltb Nat.leb].
  intros [= <- <-]. inversion Fr; subst.
  repeat split; [now exists b, l | assumption | assumption].
Qed.

Lemma free_label i (o : string) : free "|" o = true -> (i < 4)%nat ->
  free "|" (option_label i o) = true.
Proof.
  intros F Hi. unfold option_label, free in *.
  do 4 (destruct i as [|i]; [cbn; exact F|]). lia.
Qed.

(** The options of the form, when all four inputs are filled. *)
Lemma form_options_four (ti : nat -> string) :
  (forall i, (i < 4)%nat -> ti i <> "") ->
  form_options "Multiple Choice" ti
  = [option_label 0 (ti 0%nat); option_label 1 (ti 1%nat);
     option_label 2 (ti 2%nat); option_label 3 (ti 3%nat)].
Proof.
  intros H. unfold form_options. rewrite String.eqb_refl. cbn [seq flat_map].
  assert (E : forall i, (i < 4)%nat -> String.eqb (ti i) "" = false)
    by (intros i Hi; apply String.eqb_neq; auto).
  rewrite !E by lia. reflexivity.
Qed.

(** Four options come from four filled inputs only. *)
Lemma form_options_length (qt : string) (ti : nat -> string) :
  List.length (form_options qt ti) = 4%nat ->
  qt = "Multiple Choice" /\ forall i, (i < 4)%nat -> ti i <> "".
Proof.
  unfold form_options. destruct (String.eqb qt "Multiple Choice") eqn:Q;
    [|discriminate]. apply String.eqb_eq in Q. cbn [seq flat_map].
  destruct (String.eqb (ti 0%nat) "") eqn:E0; destruct (String.eqb (ti 1%nat) "") eqn:E1;
    destruct (String.eqb (ti 2%nat) "") eqn:E2; destruct (String.eqb (ti 3%nat) "") eqn:E3;
    cbn [app List.length]; try discriminate.
  intros _. split; [assumption|]. intros i Hi.
  do 4 (destruct i as [|i]; [now apply String.eqb_neq|]). lia.
Qed.

Lemma form_options_short (qt : string) (ti : nat -> string) :
  (List.length (form_options qt ti) <= 4)%nat.
Proof.
  unfold form_options. destruct (String.eqb qt "Multiple Choice"); [|simpl; lia].
  cbn [seq flat_map].
  destruct (String.eqb (ti 0%nat) ""); destruct (String.eqb (ti 1%nat) "");
    destruct (String.eqb (ti 2%nat) ""); destruct (String.eqb (ti 3%nat) "");
    cbn [app List.length]; lia.
Qed.

Lemma form_options_filled (qt : string) (ti : nat -> string) :
  forallb (fun o => negb (String.eqb o "")) (form_options qt ti) = true.
Proof.
  unfold form_options. destruct (String.eqb qt "Multiple Choice"); [|reflexivity].
  cbn [seq flat_map].
  destruct (String.eqb (ti 0%nat) ""); destruct (String.eqb (ti 1%nat) "");
    destruct (String.eqb (ti 2%nat) ""); destruct (String.eqb (ti 3%nat) "");
    reflexivity.
Qed.

(** The stored answer of a multiple-choice question. *)
Lemma final_correct_answer_done (ca : string) (options : list string) final :
  final_correct_answer "Multiple Choice" ca options = Done final ->
  exists o0 o1 o2 o3 l,
    options = o0 :: o1 :: o2 :: o3 :: l
    /\ final = join "|" [ca; o0; o1; o2; o3].
Proof.
  unfold final_correct_answer. rewrite String.eqb_refl. unfold item.
  destruct options as [|o0 [|o1 [|o2 [|o3 l]]]]; cbn; try discriminate.
  intros [= <-]. now exists o0, o1, o2, o3, l.
Qed.

Lemma form_error_none (qc ca ex qt : string) (ti : nat -> string) :
  form_error qc ca ex qt (form_options qt ti) = None
  <-> qc <> "" /\ ca <> "" /\ ex <> ""
      /\ (qt = "Multiple Choice" -> forall i, (i < 4)%nat -> ti i <> "").
Proof.
  unfold form_error. rewrite form_options_filled. cbn [negb orb].
  rewrite orb_false_r.
  destruct (String.eqb qc "") eqn:E1; [apply String.eqb_eq in E1|apply String.eqb_neq in E1];
    [split; [discriminate | tauto]|].
  destruct (String.eqb ca "") eqn:E2; [apply String.eqb_eq in E2|apply String.eqb_neq in E2];
    [split; [discriminate | tauto]|].
  destruct (String.eqb ex "") eqn:E3; [apply String.eqb_eq in E3|apply String.eqb_neq in E3];
    [split; [discriminate | tauto]|].
  cbn [orb].
  destruct (String.eqb qt "Multiple Choice") eqn:Q;
    [apply String.eqb_eq in Q|apply String.eqb_neq in Q]; cbn [andb].
  - destruct (Nat.eqb (List.length (form_options qt ti)) 4) eqn:L; cbn [negb].
    + apply Nat.eqb_eq in L. apply form_options_length in L as [_ L].
      split; [auto | reflexivity].
    + split; [discriminate|]. intros (_ & _ & _ & H). exfalso.
      apply Nat.eqb_neq in L. apply L. subst qt.
      now rewrite (form_options_four ti (H eq_refl)).
  - split; [|reflexivity]. intros _. repeat split; auto; intros; contradiction.
Qed.

(** X7.  What the exam pages show for a stored multiple-choice
    answer: they show the answer [a] and the options [opts] exactly when
    there is at least one option, the stored text is [a] and the options
    joined by bars, and neither [a] nor an option has a bar. *)
Theorem shown_options_parts (s a : string) (opts : list string) :
  shown_options "Multiple Choice" s = Some (a, opts)
  <-> (exists o l, opts = o :: l)
      /\ s = join "|" (a :: opts)
      /\ free "|" a = true
      /\ Forall (fun o => free "|" o = true) opts.
Proof.
  split; [apply shown_parts|].
  intros ((o & l & ->) & -> & Fa & Fo). now apply shown_of_join.
Qed.

Lemma shown_options_parts_witness :
  shown_options "Multiple Choice" "4|A. 3|B. 4" = Some ("4", ["A. 3"; "B. 4"]).
Proof.
  apply (proj2 (shown_options_parts "4|A. 3|B. 4" "4" ["A. 3"; "B. 4"])).
  repeat split; [eauto | repeat constructor].
Defined.

(** X8.  The form lets a question pass exactly when the content, the
    answer and the explanation are filled and, for a multiple-choice
    question, all four option inputs are; the labelled options it builds
    are never empty, so the second half of the test on them never decides. *)
Theorem form_accepts (qc ca ex qt : string) (ti : nat -> string) :
  (form_error qc ca ex qt (form_options qt ti) = None
   <-> qc <> "" /\ ca <> "" /\ ex <> ""
       /\ (qt = "Multiple Choice" -> forall i, (i < 4)%nat -> ti i <> ""))
  /\ forallb (fun o => negb (String.eqb o "")) (form_options qt ti) = true.
Proof. split; [apply form_error_none | apply form_options_filled]. Qed.

Lemma form_accepts_witness :
  form_error "What is a tree?" "A connected acyclic graph." "By definition."
    "Essay" (form_options "Essay" (fun _ => ""))
  = None.
Proof.
  apply (proj2 (proj1 (form_accepts "What is a tree?" "A connected acyclic graph."
                         "By definition." "Essay" (fun _ => "")))).
  repeat split; discriminate.
Defined.

(** X9.  What the form stores for a multiple-choice question is
    read back by the exam pages: when neither the answer nor an option
    input has a bar, the stored text decodes to the answer and the four
    labelled options. *)
Theorem form_answer_round_trip (ca : string) (ti : nat -> string) final :
  free "|" ca = true ->
  (forall i, (i < 4)%nat -> free "|" (ti i) = true) ->
  final_correct_answer "Multiple Choice" ca (form_options "Multiple Choice" ti)
  = Done final ->
  form_options "Multiple Choice" ti
  = ["A. " ++ ti 0%nat; "B. " ++ ti 1%nat; "C. " ++ ti 2%nat; "D. " ++ ti 3%nat]
  /\ shown_options "Multiple Choice" final
     = Some (ca, form_options "Multiple Choice" ti).
Proof.
  intros Fa Fi H.
  destruct (final_correct_answer_done _ _ _ H) as (o0 & o1 & o2 & o3 & l & E & ->).
  assert (L : List.length (form_options "Multiple Choice" ti) = 4%nat).
  { pose proof (form_options_short "Multiple Choice" ti) as S.
    rewrite E in *. cbn [List.length] in *. lia. }
  apply form_options_length in L as [_ L].
  rewrite (form_options_four ti L) in *. injection E as <- <- <- <- <-.
  split; [reflexivity|].
  apply shown_of_join; [assumption|].
  repeat (constructor; [apply free_label; [apply Fi|]; lia|]). constructor.
Qed.

Lemma form_answer_round_trip_witness :
  form_options "Multiple Choice"
    (fun i => nth i ["2"; "3"; "4"; "5"] "")
  = ["A. 2"; "B. 3"; "C. 4"; "D. 5"]
  /\ shown_options "Multiple Choice" "4|A. 2|B. 3|C. 4|D. 5"
     = Some ("4", form_options "Multiple Choice"
                    (fun i => nth i ["2"; "3"; "4"; "5"] "")).
Proof.
  apply (form_answer_round_trip "4" (fun i => nth i ["2"; "3"; "4"; "5"] "")).
  - reflexivity.
  - intros i Hi. do 4 (destruct i as [|i]; [reflexivity|]). lia.
  - reflexivity.
Defined.

End OptionFacts.

(* ================================================================== *)
(** ** The form of [pages/question_generator.py] *)

Module FormFacts.

Import Text Py Coerce Models Exam QuestionForm LlmUtils TextFacts ReportFacts
  OptionFacts.

(** What [submit] comes to once the form has let the question pass and the
    analysis gave a difficulty. *)
Lemma submit_added ch uid (qc qt ca ex : string) ti x text commit q :
  submit ch uid qc qt ca ex ti (Some x, text) commit = Added q ->
  exists t final,
    QuestionGenerator.estimated_time text = Ok t
    /\ final_correct_answer qt ca (form_options qt ti) = Done final
    /\ q = {| chapter_id := ch; content := VStr qc; question_type := VStr qt;
              correct_answer := VStr final; explanation := VStr ex;
              difficulty := x; estimated_time := t;
              student_level := VStr (QuestionGenerator.student_level text);
              tags := None; created_by := Some uid |}
    /\ commit q = true.
Proof.
  unfold submit.
  destruct (form_error qc ca ex qt (form_options qt ti)); [discriminate|].
  destruct (QuestionGenerator.estimated_time text) as [t|e]; cbn [lift and_then];
    [|discriminate].
  destruct (final_correct_answer qt ca (form_options qt ti)) as [final|f];
    cbn [and_then]; [|discriminate].
  match goal with |- context [commit ?r] => destruct (commit r) eqn:C end;
    [|discriminate].
  intros [= <-]. exists t, final. auto.
Qed.

(** X10.  A question analysed on the direct path is stored with the
    normalised values: the row has the time the report was printed with,
    between 1 and 60, one of the three level labels, and a difficulty
    between 1.0 and 5.0. *)
Theorem submit_direct_path (str_exn : exn -> string) reply result
    ch uid (qc qt ca ex : string) (ti : nat -> string) commit q :
  Json.loads (clean (strip reply)) = Some result ->
  submit ch uid qc qt ca ex ti
    (LlmUtils.analyze_question str_exn (Response reply)) commit = Added q ->
  exists d t lvl,
    result = VDict d
    /\ validate_time (get "estimated_time" d) = Ok t
    /\ validate_level (get "student_level" d) = Ok lvl
    /\ estimated_time q = t /\ 1 <= t <= 60
    /\ student_level q = VStr lvl
    /\ (lvl = "Beginner" \/ lvl = "Intermediate" \/ lvl = "Advanced")
    /\ PrimFloat.leb 1 (difficulty q) = true
    /\ PrimFloat.leb (difficulty q) 5 = true
    /\ content q = VStr qc /\ created_by q = Some uid.
Proof.
  intros Hl H.
  destruct (LlmUtils.analyze_question str_exn (Response reply)) as [[x|] text] eqn:Ha.
  2:{ unfold submit in H. destruct (form_error _ _ _ _ _); discriminate. }
  apply submit_added in H as (t & final & Ht & _ & -> & _).
  apply analyze_question_some in Ha. unfold analyze_response in Ha.
  rewrite Hl in Ha.
  destruct (direct_report_scans _ _ _ Ha) as (d & t' & lvl & -> & Hvt & Hvl & Het & Hsl).
  rewrite Het in Ht. injection Ht as <-.
  exists d, t', lvl. cbn [estimated_time student_level difficulty Models.content created_by].
  pose proof (validate_time_range _ _ Hvt).
  pose proof (validate_level_labels _ _ Hvl).
  destruct (Evaluator.analyze_result_difficulty_range _ _ _ Ha).
  rewrite Hsl. auto 12.
Qed.

Lemma submit_direct_path_witness :
  exists d t lvl,
    Json.loads (clean (strip Samples.example_payload)) = Some (VDict d)
    /\ validate_time (get "estimated_time" d) = Ok t
    /\ validate_level (get "student_level" d) = Ok lvl
    /\ t = 60 /\ lvl = "Intermediate".
Proof.
  destruct (Json.loads (clean (strip Samples.example_payload))) as [result|] eqn:Hl;
    [|vm_compute in Hl; discriminate].
  destruct (submit 1 2 "What is a tree?" "Essay" "A connected acyclic graph"
              "By definition." (fun _ => "")
              (LlmUtils.analyze_question (fun _ => "")
                 (Response Samples.example_payload))
              (fun _ => true)) as [msg|q|f] eqn:Hs;
    [vm_compute in Hs; discriminate| |vm_compute in Hs; discriminate].
  destruct (submit_direct_path _ _ _ _ _ _ _ _ _ _ _ _ Hl Hs)
    as (d & t & lvl & -> & Ht & Hlvl & Eq & _ & El & _).
  exists d, t, lvl. repeat split; try assumption.
  - vm_compute in Hs. injection Hs as <-. cbn in Eq. now subst t.
  - vm_compute in Hs. injection Hs as <-. cbn in El. now injection El as <-.
Defined.

(** X11.  Once the form has let the question pass, making the stored answer
    never fails on a missing option: it is the answer as typed, followed for
    a multiple-choice question by the four labelled options, each after a
    bar. *)
Theorem stored_answer_never_fails (qc ca ex qt : string) (ti : nat -> string) :
  form_error qc ca ex qt (form_options qt ti) = None ->
  exists final,
    final_correct_answer qt ca (form_options qt ti) = Done final
    /\ (qt = "Multiple Choice" ->
        final = ca ++ "|A. " ++ ti 0%nat ++ "|B. " ++ ti 1%nat
                   ++ "|C. " ++ ti 2%nat ++ "|D. " ++ ti 3%nat)
    /\ (qt <> "Multiple Choice" -> final = ca).
Proof.
  intros H. apply form_error_none in H as (_ & _ & _ & H).
  unfold final_correct_answer.
  destruct (String.eqb qt "Multiple Choice") eqn:Q.
  - apply String.eqb_eq in Q. subst qt.
    rewrite (form_options_four ti (H eq_refl)). cbn [item nth_error and_then].
    eexists. split; [reflexivity|]. split; [|congruence].
    intros _. unfold option_label. cbn [Nat.add].
    change (ascii_of_nat 65) with "A"%char. change (ascii_of_nat 66) with "B"%char.
    change (ascii_of_nat 67) with "C"%char. change (ascii_of_nat 68) with "D"%char.
    reflexivity.
  - apply String.eqb_neq in Q. exists ca.
    split; [reflexivity|]. split; [intros E; contradiction | reflexivity].
Qed.

Lemma stored_answer_never_fails_witness :
  exists final,
    final_correct_answer "Multiple Choice" "4"
      (form_options "Multiple Choice" (fun i => nth i ["2"; "3"; "4"; "5"] ""))
    = Done final
    /\ ("Multiple Choice" = "Multiple Choice" -> final = "4|A. 2|B. 3|C. 4|D. 5")
    /\ ("Multiple Choice" <> "Multiple Choice" -> final = "4").
Proof.
  apply (stored_answer_never_fails "What is 2 + 2?" "4" "Two and two make four."
           "Multiple Choice" (fun i => nth i ["2"; "3"; "4"; "5"] "")).
  reflexivity.
Defined.

End FormFacts.

(* ================================================================== *)
(** ** The page of [pages/bulk_question_generator.py] *)

Module BulkFacts.

Import Text Py Coerce Models Exam Bulk LlmUtils Spec TextFacts OptionFacts
  ReplyFacts.

(** *** The selection *)

Lemma existsb_eqb_In i (l : list nat) : existsb (Nat.eqb i) l = true <-> In i l.
Proof.
  rewrite existsb_exists. split.
  - intros (x & Hx & E). apply Nat.eqb_eq in E. now subst.
  - intros H. exists i. split; [assumption | apply Nat.eqb_refl].
Qed.

Lemma In_remove_first x j (l : list nat) :
  NoDup l -> In j (remove_first x l) <-> j <> x /\ In j l.
Proof.
  induction l as [|y l IH]; intros N; cbn [remove_first In]; [tauto|].
  inversion N as [|? ? Hy Nl]; subst.
  destruct (Nat.eqb_spec x y) as [->|Hxy].
  - split.
    + intros H. split; [intros ->; contradiction | now right].
    + intros [Hj [->|H]]; [contradiction | assumption].
  - cbn [In]. rewrite (IH Nl). split.
    + intros [->|[Hj H]]; [split; [congruence | now left] | split; [assumption | now right]].
    + intros [Hj [->|H]]; [now left | right; now split].
Qed.

Lemma NoDup_remove_first x (l : list nat) : NoDup l -> NoDup (remove_first x l).
Proof.
  induction l as [|y l IH]; intros N; cbn [remove_first]; [constructor|].
  inversion N as [|? ? Hy Nl]; subst.
  destruct (Nat.eqb x y); [assumption|].
  constructor; [|now apply IH].
  intros H. apply (In_remove_first x y l Nl) in H as [_ H]. contradiction.
Qed.

Lemma NoDup_snoc (i : nat) (l : list nat) : NoDup l -> ~ In i l -> NoDup (l ++ [i]).
Proof.
  intros N H. apply NoDup_app; [assumption | repeat constructor; intros [] |].
  intros x Hx [->|[]]. contradiction.
Qed.

Lemma tick_spec (b : bool) i j (sel : list nat) :
  NoDup sel ->
  NoDup (tick b i sel)
  /\ (In j (tick b i sel) <-> (j = i /\ b = true) \/ (j <> i /\ In j sel)).
Proof.
  intros N. unfold tick.
  destruct (existsb (Nat.eqb i) sel) eqn:E.
  - apply existsb_eqb_In in E. destruct b.
    + split; [assumption|]. destruct (Nat.eq_dec j i) as [->|Hj]; [tauto|].
      split; [intros H; right; tauto | intros [[H _]|[_ H]]; [contradiction | assumption]].
    + split; [now apply NoDup_remove_first|].
      rewrite (In_remove_first i j sel N). split; [tauto|].
      intros [[_ H]|H]; [discriminate | assumption].
  - assert (Hi : ~ In i sel).
    { intros H. apply existsb_eqb_In in H. congruence. }
    destruct b.
    + split; [now apply NoDup_snoc|]. rewrite in_app_iff. cbn [In]. split.
      * intros [H|[<-|[]]]; [right; split; [intros ->; contradiction | assumption] | now left].
      * intros [[-> _]|[_ H]]; [right; now left | now left].
    + split; [assumption|]. split.
      * intros H. right. split; [intros ->; contradiction | assumption].
      * intros [[_ H]|[_ H]]; [discriminate | assumption].
Qed.

Lemma tick_fold (checked : nat -> bool) m : forall a (sel : list nat),
  NoDup sel ->
  NoDup (fold_left (fun s i => tick (checked i) i s) (seq a m) sel)
  /\ forall j,
       In j (fold_left (fun s i => tick (checked i) i s) (seq a m) sel)
       <-> ((a <= j < a + m)%nat /\ checked j = true)
           \/ ((j < a \/ a + m <= j)%nat /\ In j sel).
Proof.
  induction m as [|m IH]; intros a sel N; cbn [seq fold_left].
  - split; [assumption|]. intros j. split; [intros H; right; split; [lia | assumption]|].
    intros [[H _]|[_ H]]; [lia | assumption].
  - destruct (tick_spec (checked a) a a sel N) as [N' _].
    destruct (IH (S a) _ N') as [N2 H2]. split; [assumption|].
    intros j. rewrite (H2 j).
    destruct (tick_spec (checked a) a j sel N) as [_ ->].
    destruct (Nat.eq_dec j a) as [->|Hj].
    + split.
      * intros [[H _]|[_ [[_ H]|[H _]]]]; [lia | left; split; [lia | assumption] | contradiction].
      * intros [[_ H]|[H _]]; [right; split; [lia|]; now left | lia].
    + split.
      * intros [[H C]|[H [[H' _]|[_ H']]]];
          [left; split; [lia | assumption] | contradiction | right; split; [lia | assumption]].
      * intros [[H C]|[H H']]; [left; split; [lia | assumption]|].
        right. split; [lia|]. right. now split.
Qed.

(** What the loop from question [a] on leaves. *)
Lemma expanders_spec (checked : nat -> bool) questions : forall a sel sel' r,
  NoDup sel ->
  expanders checked a questions sel = (sel', r) ->
  NoDup sel'
  /\ exists k,
       (k <= List.length questions)%nat
       /\ sel' = fold_left (fun s i => tick (checked i) i s) (seq a k) sel
       /\ (forall q, In q (firstn k questions) -> expander q = Ok tt)
       /\ match r with
          | None => k = List.length questions
          | Some e =>
              exists q, nth_error questions k = Some q /\ expander q = Raise e
          end.
Proof.
  induction questions as [|q questions IH]; intros a sel sel' r N;
    cbn [expanders].
  - intros [= <- <-]. split; [assumption|]. exists 0%nat.
    split; [cbn; lia|]. split; [reflexivity|]. split; [now intros q []|reflexivity].
  - destruct (expander q) as [[]|e] eqn:E.
    + intros H.
      destruct (tick_spec (checked a) a a sel N) as [N' _].
      destruct (IH _ _ _ _ N' H) as (N2 & k & Hk & Hs & Hq & Hr).
      split; [assumption|]. exists (S k). cbn [List.length seq fold_left firstn].
      split; [lia|]. split; [exact Hs|]. split.
      * intros q0 [<-|H0]; [exact E | now apply Hq].
      * destruct r as [e|]; [exact Hr | now f_equal].
    + intros [= <- <-]. split; [assumption|]. exists 0%nat.
      cbn [seq fold_left firstn List.length nth_error].
      split; [lia|]. split; [reflexivity|]. split; [now intros q0 [] | now exists q].
Qed.

(** X12.  The selection after the questions were shown, from a selection
    without repeats: it has no repeats; the boxes of the first [k] questions
    were read, where [k] is the number of questions when nothing raised, 0
    when the table raised, and else the place of the first question that
    raised; an index below [k] is selected exactly when its box is ticked,
    and an index from [k] on stays as it was. *)
Theorem selection_after_display (checked : nat -> bool) (generated : list value)
    (sel sel' : list nat) (r : option exn) :
  NoDup sel ->
  display_generated_questions checked generated sel = (sel', r) ->
  NoDup sel'
  /\ exists k,
       (k <= List.length generated)%nat
       /\ sel' = tick_all checked k sel
       /\ (forall i,
             In i sel'
             <-> ((i < k)%nat /\ checked i = true) \/ ((k <= i)%nat /\ In i sel))
       /\ match r with
          | None => k = List.length generated
          | Some e =>
              (k = 0%nat /\ table generated = Raise e)
              \/ (table generated = Ok tt
                  /\ (forall q, In q (firstn k generated) -> expander q = Ok tt)
                  /\ exists q,
                       nth_error generated k = Some q /\ expander q = Raise e)
          end.
Proof.
  intros N. unfold display_generated_questions.
  destruct (table generated) as [[]|e] eqn:T.
  - intros H. destruct (expanders_spec _ _ _ _ _ _ N H) as (N' & k & Hk & Hs & Hq & Hr).
    split; [assumption|]. exists k.
    split; [assumption|]. split; [exact Hs|]. split.
    + intros i. rewrite Hs. destruct (tick_fold checked k 0 sel N) as [_ H2].
      rewrite (H2 i).
      split; (intros [[Hi C]|[Hi Hin]];
              [left; split; [lia | assumption] | right; split; [lia | assumption]]).
    + destruct r as [e|]; [|exact Hr]. right. auto.
  - intros [= <- <-]. split; [assumption|]. exists 0%nat.
    split; [lia|]. split; [reflexivity|]. split.
    + intros i. split; [intros H; right; split; [lia | assumption]|].
      intros [[Hi _]|[_ H]]; [lia | assumption].
    + left. auto.
Qed.

Lemma selection_after_display_witness :
  NoDup [1; 2; 3; 4]%nat
  /\ exists k,
       (k <= List.length [Samples.generated_record;
                          VDict [("question_content", VStr "a");
                                 ("question_type", VStr "Essay");
                                 ("difficulty", VFloat 3);
                                 ("correct_answer", VStr "x")];
                          Samples.generated_record])%nat
       /\ [1; 2; 3; 4]%nat = tick_all (fun _ => false) k [0; 1; 2; 3; 4]%nat
       /\ (forall i,
             In i [1; 2; 3; 4]%nat
             <-> ((i < k)%nat /\ (fun _ : nat => false) i = true)
                 \/ ((k <= i)%nat /\ In i [0; 1; 2; 3; 4]%nat))
       /\ ((k = 0%nat
            /\ table [Samples.generated_record;
                      VDict [("question_content", VStr "a");
                             ("question_type", VStr "Essay");
                             ("difficulty", VFloat 3);
                             ("correct_answer", VStr "x")];
                      Samples.generated_record] = Raise KeyError)
           \/ (table [Samples.generated_record;
                      VDict [("question_content", VStr "a");
                             ("question_type", VStr "Essay");
                             ("difficulty", VFloat 3);
                             ("correct_answer", VStr "x")];
                      Samples.generated_record] = Ok tt
               /\ (forall q,
                     In q (firstn k [Samples.generated_record;
                                     VDict [("question_content", VStr "a");
                                            ("question_type", VStr "Essay");
                                            ("difficulty", VFloat 3);
                                            ("correct_answer", VStr "x")];
                                     Samples.generated_record]) ->
                     expander q = Ok tt)
               /\ exists q,
                    nth_error [Samples.generated_record;
                               VDict [("question_content", VStr "a");
                                      ("question_type", VStr "Essay");
                                      ("difficulty", VFloat 3);
                                      ("correct_answer", VStr "x")];
                               Samples.generated_record] k = Some q
                    /\ expander q = Raise KeyError)).
Proof.
  apply (selection_after_display (fun _ => false)
           [Samples.generated_record;
            VDict [("question_content", VStr "a"); ("question_type", VStr "Essay");
                   ("difficulty", VFloat 3); ("correct_answer", VStr "x")];
            Samples.generated_record]
           [0; 1; 2; 3; 4]%nat [1; 2; 3; 4]%nat (Some KeyError)).
  - repeat constructor; cbn; intuition lia.
  - reflexivity.
Defined.


(** *** The row of a generated question *)


Lemma py_join_raises sep v e : py_join sep v = Raise e -> e = TypeError.
Proof.
  destruct v as [| | | | |l|d]; cbn [py_join]; try (now intros [= <-]); try discriminate.
  assert (H : forall l e', texts l = Raise e' -> e' = TypeError).
  { clear. induction l as [|v l IH]; intros e'; cbn [texts]; [discriminate|].
    destruct v; try (now intros [= <-]).
    destruct (texts l) as [r|e0]; cbn [bind]; [discriminate|].
    intros [= <-]. now apply IH. }
  destruct (texts l) as [r|e0] eqn:E; cbn [bind]; [discriminate|].
  intros [= <-]. now apply (H l).
Qed.

Lemma has_key_some k (d : dict) : has_key k d = true -> exists v, lookup k d = Some v.
Proof. unfold has_key. destruct (lookup k d) as [v|]; [eauto | discriminate]. Qed.

Lemma required_fields (d : dict) :
  has_required (VDict d) = true ->
  exists c ty a,
    lookup "question_content" d = Some c
    /\ lookup "question_type" d = Some ty
    /\ lookup "correct_answer" d = Some a.
Proof.
  unfold has_required, required. cbn [forallb].
  intros H. repeat (apply andb_true_iff in H as [?%has_key_some H]).
  repeat match goal with H : exists _, _ |- _ => destruct H end.
  eauto 8.
Qed.

(** [new_question] on a record with the fields [generate_questions] sets. *)
Lemma new_question_dict chapter (d : dict) c ty a x t lvl :
  lookup "question_content" d = Some c ->
  lookup "question_type" d = Some ty ->
  lookup "correct_answer" d = Some a ->
  lookup "difficulty" d = Some (VFloat x) ->
  lookup "estimated_time" d = Some (VInt t) ->
  lookup "student_level" d = Some lvl ->
  new_question chapter (VDict d)
  = (final <- (if is_text "Multiple Choice" ty then
                 if has_key "options" d then
                   options_str <- py_join "|" (get "options" d) ;;
                   Ok (VStr (str a ++ "|" ++ options_str))
                 else Ok a
               else Ok a) ;;
     explanation <- subscript "explanation" (VDict d) ;;
     Ok {| chapter_id := chapter; content := c; question_type := ty;
           correct_answer := final; explanation := explanation;
           difficulty := x; estimated_time := t; student_level := lvl;
           tags := Some (get_default "tags" (VStr "") d);
           created_by := None |}).
Proof.
  intros Hc Hty Ha Hx Ht Hl.
  unfold new_question, py_in, py_get, get_default.
  cbn [subscript]. rewrite Hc, Hty, Ha, Hx, Ht, Hl. cbn [bind py_float py_int].
  destruct (is_text "Multiple Choice" ty); [|reflexivity].
  unfold has_key, get. destruct (lookup "options" d) as [o|]; reflexivity.
Qed.

(** What saving makes of a record of [generate_questions]. *)
Lemma generated_record_cases (g : gateway) (q : value) (chapter : Z) :
  In q (generate_questions g) ->
  exists d x t,
    q = VDict d
    /\ lookup "difficulty" d = Some (VFloat x)
    /\ lookup "estimated_time" d = Some (VInt t)
    /\ match new_question chapter q with
       | Ok row =>
           has_key "explanation" d = true
           /\ chapter_id row = chapter
           /\ difficulty row = x
           /\ PrimFloat.leb 1 x = true /\ PrimFloat.leb x 5 = true
           /\ estimated_time row = t
       | Raise e =>
           (e = TypeError
            /\ lookup "question_type" d = Some (VStr "Multiple Choice")
            /\ exists e', py_join "|" (get "options" d) = Raise e')
           \/ (e = KeyError /\ has_key "explanation" d = false)
       end.
Proof.
  intros H. apply generated_record_fields in H
    as (d & x & t & lvl & -> & Hr & Hx & H1 & H5 & Ht & Hl).
  exists d, x, t. repeat split; try assumption.
  destruct (required_fields d Hr) as (c & ty & a & Hc & Hty & Ha).
  rewrite (new_question_dict chapter d c ty a x t lvl Hc Hty Ha Hx Ht Hl).
  assert (E : forall final,
             match
               explanation <- subscript "explanation" (VDict d) ;;
               Ok {| chapter_id := chapter; content := c; question_type := ty;
                     correct_answer := final; explanation := explanation;
                     difficulty := x; estimated_time := t; student_level := lvl;
                     tags := Some (get_default "tags" (VStr "") d);
                     created_by := None |}
             with
             | Ok row =>
                 has_key "explanation" d = true
                 /\ chapter_id row = chapter
                 /\ difficulty row = x
                 /\ PrimFloat.leb 1 x = true /\ PrimFloat.leb x 5 = true
                 /\ estimated_time row = t
             | Raise e =>
                 (e = TypeError
                  /\ lookup "question_type" d = Some (VStr "Multiple Choice")
                  /\ exists e', py_join "|" (get "options" d) = Raise e')
                 \/ (e = KeyError /\ has_key "explanation" d = false)
             end).
  { intros final. cbn [subscript]. unfold has_key.
    destruct (lookup "explanation" d) as [ex|]; cbn [bind];
      [cbn; auto 8 | right; auto]. }
  destruct (is_text "Multiple Choice" ty) eqn:T; cbn [bind]; [|apply E].
  destruct (has_key "options" d); cbn [bind]; [|apply E].
  destruct (py_join "|" (get "options" d)) as [o|e] eqn:J; cbn [bind]; [apply E|].
  left. rewrite (py_join_raises _ _ _ J). repeat split; [|eauto].
  destruct ty; try discriminate. cbn [is_text] in T.
  apply String.eqb_eq in T. now subst.
Qed.

(** X13.  Saving a record of [generate_questions]: the row keeps
    the clamped difficulty and the integer time; making it fails only with a
    [KeyError], when the record has no explanation, or with a [TypeError],
    when the options of a multiple-choice record cannot be joined. *)
Theorem generated_record_row (g : gateway) (q : value) (chapter : Z) :
  In q (generate_questions g) ->
  exists d x t,
    q = VDict d
    /\ lookup "difficulty" d = Some (VFloat x)
    /\ lookup "estimated_time" d = Some (VInt t)
    /\ match new_question chapter q with
       | Ok row =>
           has_key "explanation" d = true
           /\ chapter_id row = chapter
           /\ difficulty row = x
           /\ PrimFloat.leb 1 x = true /\ PrimFloat.leb x 5 = true
           /\ estimated_time row = t
       | Raise e =>
           (e = TypeError
            /\ lookup "question_type" d = Some (VStr "Multiple Choice")
            /\ exists e', py_join "|" (get "options" d) = Raise e')
           \/ (e = KeyError /\ has_key "explanation" d = false)
       end.
Proof. exact (generated_record_cases g q chapter). Qed.

Lemma generated_record_row_witness :
  exists d x t,
    VDict [("question_content", VStr "a"); ("question_type", VStr "Essay");
           ("difficulty", VFloat 3); ("correct_answer", VStr "x");
           ("student_level", VStr "Expert"); ("estimated_time", VInt 5)]
    = VDict d
    /\ lookup "difficulty" d = Some (VFloat x)
    /\ lookup "estimated_time" d = Some (VInt t)
    /\ new_question 7 (VDict d) = Raise KeyError.
Proof.
  destruct (generated_record_row (Response Samples.batch_with_expert)
              (VDict [("question_content", VStr "a"); ("question_type", VStr "Essay");
                      ("difficulty", VFloat 3); ("correct_answer", VStr "x");
                      ("student_level", VStr "Expert"); ("estimated_time", VInt 5)])
              7) as (d & x & t & E & Hx & Ht & _).
  - vm_compute. left. reflexivity.
  - exists d, x, t. injection E as <-. repeat split; assumption || reflexivity.
Defined.



(** A row made of a record of [generate_questions]. *)
Lemma generated_row (g : gateway) (q : value) (chapter : Z) row :
  In q (generate_questions g) -> new_question chapter q = Ok row ->
  PrimFloat.leb 1 (difficulty row) = true
  /\ PrimFloat.leb (difficulty row) 5 = true
  /\ chapter_id row = chapter /\ created_by row = None.
Proof.
  intros H R. apply generated_record_fields in H
    as (d & x & t & lvl & -> & Hr & Hx & H1 & H5 & Ht & Hl).
  destruct (required_fields d Hr) as (c & ty & a & Hc & Hty & Ha).
  rewrite (new_question_dict chapter d c ty a x t lvl Hc Hty Ha Hx Ht Hl) in R.
  match type of R with
  | bind ?f _ = _ => destruct f as [final|]; cbn [bind] in R; [|discriminate R]
  end.
  destruct (subscript "explanation" (VDict d)) as [ex|]; cbn [bind] in R;
    [|discriminate R].
  injection R as <-. cbn. auto.
Qed.

(** *** Saving *)

(** The rows of a run of the loop that comes to its end. *)
Lemma add_all_done generated chapter : forall sel added rows,
  add_all generated sel chapter added = Done rows ->
  exists new,
    rows = (added ++ new)%list
    /\ Forall2 (fun idx row =>
                  exists q, nth_error generated idx = Some q
                            /\ new_question chapter q = Ok row) sel new.
Proof.
  induction sel as [|idx sel IH]; intros added rows; cbn [add_all].
  - intros [= <-]. exists []. split; [now rewrite app_nil_r | constructor].
  - destruct (nth_error generated idx) as [q|] eqn:E; [|discriminate].
    destruct (new_question chapter q) as [row|e] eqn:R; cbn [lift and_then];
      [|discriminate].
    intros H. apply IH in H as (new & -> & F).
    exists (row :: new). split; [now rewrite <- List.app_assoc|].
    constructor; [now exists q | assumption].
Qed.

(** An index past the end stops the loop, if nothing stopped it before. *)
Lemma add_all_stale generated chapter i : forall sel added,
  In i sel -> (List.length generated <= i)%nat ->
  exists f, add_all generated sel chapter added = Failed f.
Proof.
  intros sel added Hi Hlen.
  destruct (add_all generated sel chapter added) as [rows|f] eqn:E; [|eauto].
  apply add_all_done in E as (new & _ & F). exfalso.
  clear added rows. induction F as [|idx row sel new (q & Hq & _) F IH].
  - contradiction.
  - destruct Hi as [->|Hi]; [|auto].
    apply nth_error_None in Hlen. congruence.
Qed.

Section Save.

Variable str_failure : failure -> string.
Variable commit : list Question -> bool.

Lemma save_outcome generated sel chapter table state :
  save_questions_to_database str_failure commit generated sel chapter table state
  = match sel with
    | [] => ("Please select at least one question to save.", table, state)
    | _ :: _ =>
        match add_all generated sel chapter [] with
        | Done rows =>
            if commit rows
            then ("Successfully saved " ++ str_of_Z (Z.of_nat (List.length rows))
                  ++ " questions to the database!", (table ++ rows)%list, reset)
            else ("Error: " ++ str_failure DatabaseError, table, state)
        | Failed f => ("Error: " ++ str_failure f, table, state)
        end
    end.
Proof.
  unfold save_questions_to_database. destruct sel as [|i sel]; [reflexivity|].
  destruct (add_all generated (i :: sel) chapter []) as [rows|f]; cbn [and_then];
    [|reflexivity].
  now destruct (commit rows).
Qed.

(** X15.  Saving is all or nothing: either the table and the
    state of the page are unchanged, or the table has grown by one row for
    each selected index, in order, the database accepted them, the state is
    reset and the message counts the rows. *)
Theorem save_all_or_nothing generated sel chapter table state msg table' state' :
  save_questions_to_database str_failure commit generated sel chapter table state
  = (msg, table', state') ->
  (table' = table /\ state' = state)
  \/ exists rows,
       table' = (table ++ rows)%list /\ state' = reset
       /\ commit rows = true
       /\ Forall2 (fun idx row =>
                     exists q, nth_error generated idx = Some q
                               /\ new_question chapter q = Ok row) sel rows
       /\ msg = "Successfully saved " ++ str_of_Z (Z.of_nat (List.length sel))
                ++ " questions to the database!".
Proof.
  rewrite save_outcome. destruct sel as [|i sel]; [intros [= _ <- <-]; now left|].
  destruct (add_all generated (i :: sel) chapter []) as [rows|f] eqn:E;
    [|intros [= _ <- <-]; now left].
  destruct (commit rows) eqn:C; [|intros [= _ <- <-]; now left].
  intros [= <- <- <-]. right. exists rows.
  apply add_all_done in E as (new & -> & F). cbn [app] in *.
  repeat split; try assumption.
  now rewrite (Forall2_length F).
Qed.

(** X16.  An index left in the selection from a longer batch
    survives the display of a shorter one, and then saving stores nothing
    and reports an error. *)
Theorem stale_selection_blocks_save generated (checked : nat -> bool) sel i
    chapter table state :
  NoDup sel -> In i sel -> (List.length generated <= i)%nat ->
  exists f,
    save_questions_to_database str_failure commit generated
      (tick_all checked (List.length generated) sel) chapter table state
    = ("Error: " ++ str_failure f, table, state).
Proof.
  intros N Hi Hlen.
  destruct (tick_fold checked (List.length generated) 0 sel N) as [_ H].
  assert (Hin : In i (tick_all checked (List.length generated) sel)).
  { apply H. right. split; [lia | assumption]. }
  rewrite save_outcome.
  destruct (tick_all checked (List.length generated) sel) as [|j l] eqn:E;
    [contradiction|].
  destruct (add_all_stale generated chapter i (j :: l) [] Hin Hlen) as [f ->].
  now exists f.
Qed.

(** X17.  Whatever the call comes to and whatever is selected,
    saving what [generate_questions] returned only ever adds rows of the
    chapter with a difficulty between 1.0 and 5.0 and no creator. *)
Theorem saved_rows_in_range (g : gateway) sel chapter table state msg table' state' :
  save_questions_to_database str_failure commit (generate_questions g) sel
    chapter table state
  = (msg, table', state') ->
  exists rows,
    table' = (table ++ rows)%list
    /\ Forall (fun row =>
                 PrimFloat.leb 1 (difficulty row) = true
                 /\ PrimFloat.leb (difficulty row) 5 = true
                 /\ chapter_id row = chapter /\ created_by row = None) rows.
Proof.
  rewrite save_outcome.
  assert (N : exists rows : list Question,
            table = (table ++ rows)%list
            /\ Forall (fun row =>
                         PrimFloat.leb 1 (difficulty row) = true
                         /\ PrimFloat.leb (difficulty row) 5 = true
                         /\ chapter_id row = chapter /\ created_by row = None) rows)
    by (exists []; split; [now rewrite app_nil_r | constructor]).
  destruct sel as [|i sel]; [intros [= _ <- _]; exact N|].
  destruct (add_all (generate_questions g) (i :: sel) chapter []) as [rows|f] eqn:E;
    [|intros [= _ <- _]; exact N].
  destruct (commit rows); [|intros [= _ <- _]; exact N].
  intros [= _ <- _]. exists rows. split; [reflexivity|].
  apply add_all_done in E as (new & -> & F). cbn [app]. clear N.
  induction F as [|idx row l new (q & Hq & Hrow) F IH]; constructor; [|exact IH].
  apply (generated_row g q chapter row); [|exact Hrow].
  eapply nth_error_In, Hq.
Qed.

End Save.

Lemma save_all_or_nothing_witness :
  exists msg table' state',
    save_questions_to_database (fun _ => "list index out of range") (fun _ => true)
      [Samples.generated_record] [0%nat] 7 [] reset
    = (msg, table', state')
    /\ ((table' = [] /\ state' = reset)
        \/ exists rows,
             table' = ([] ++ rows)%list /\ state' = reset
             /\ (fun _ : list Question => true) rows = true
             /\ Forall2 (fun idx row =>
                           exists q, nth_error [Samples.generated_record] idx = Some q
                                     /\ new_question 7 q = Ok row) [0%nat] rows
             /\ msg = "Successfully saved " ++ str_of_Z (Z.of_nat (List.length [0%nat]))
                      ++ " questions to the database!").
Proof.
  eexists. eexists. eexists. split; [vm_compute; reflexivity|].
  eapply (save_all_or_nothing (fun _ => "list index out of range") (fun _ => true)
            [Samples.generated_record] [0%nat] 7 [] reset).
  vm_compute. reflexivity.
Defined.

Lemma stale_selection_blocks_save_witness :
  exists f,
    save_questions_to_database (fun _ => "list index out of range") (fun _ => true)
      [Samples.generated_record]
      (tick_all (fun _ => true) (List.length [Samples.generated_record]) [0; 1; 2]%nat)
      7 [] reset
    = ("Error: " ++ (fun _ : failure => "list index out of range") f, [], reset).
Proof.
  apply (stale_selection_blocks_save (fun _ => "list index out of range")
           (fun _ => true) [Samples.generated_record] (fun _ => true)
           [0; 1; 2]%nat 2%nat 7 [] reset).
  - repeat constructor; cbn; intuition lia.
  - cbn. auto.
  - cbn. lia.
Defined.

Lemma saved_rows_in_range_witness :
  exists msg table' state',
    save_questions_to_database (fun _ => "list index out of range") (fun _ => true)
      (generate_questions (Response Samples.batch_to_save)) [0%nat] 7 [] reset
    = (msg, table', state')
    /\ List.length table' = 1%nat
    /\ exists rows,
         table' = ([] ++ rows)%list
         /\ Forall (fun row =>
                      PrimFloat.leb 1 (difficulty row) = true
                      /\ PrimFloat.leb (difficulty row) 5 = true
                      /\ chapter_id row = 7 /\ created_by row = None) rows.
Proof.
  eexists. eexists. eexists. split; [vm_compute; reflexivity|].
  split; [reflexivity|].
  eapply (saved_rows_in_range (fun _ => "list index out of range") (fun _ => true)
            (Response Samples.batch_to_save) [0%nat] 7 [] reset).
  vm_compute. reflexivity.
Defined.

End BulkFacts.

(* ================================================================== *)
(** ** The scans of [pages/response_comparison.py] *)

Module ComparisonFacts.

Import Text Re Py Coerce LlmUtils TextFacts NumFacts ReportFacts Comparison.

(** No character of a printed number is an upper-case letter. *)
Lemma digit_no_upper c : is_digit c = true -> no_upper c = true.
Proof.
  unfold no_upper, is_digit, is_upper_ascii, in_range. intros H.
  apply andb_true_iff in H as [_ H]. apply N.leb_le in H.
  apply negb_true_iff, andb_false_iff. left. apply N.leb_gt. lia.
Qed.

Lemma no_upper_str_of_Z (z : Z) : all_chars no_upper (str_of_Z z) = true.
Proof.
  unfold str_of_Z, DecimalString.NilZero.string_of_int.
  destruct (Z.to_int z) as [d|d]; simpl;
    apply (all_chars_impl _ _ _ digit_no_upper), digits_of_uint_zero.
Qed.

Lemma no_upper_zeros n : all_chars no_upper (PyFloat.zeros n) = true.
Proof. induction n; simpl; auto. Qed.

Lemma no_upper_strip_trailing_zeros (s : string) :
  all_chars no_upper s = true ->
  all_chars no_upper (PyFloat.strip_trailing_zeros s) = true.
Proof.
  intros H. unfold PyFloat.strip_trailing_zeros.
  assert (Hl : forallb no_upper
                 (rev (PyFloat.strip_zeros_rev (rev (list_ascii_of_string s)))) = true).
  { apply forallb_rev, forallb_strip_zeros_rev, forallb_rev.
    now rewrite forallb_of_string. }
  destruct (rev (PyFloat.strip_zeros_rev (rev (list_ascii_of_string s)))) as [|c l];
    [reflexivity|].
  now rewrite all_chars_of_list.
Qed.

Lemma no_upper_layout (digits : string) (k : Z) :
  all_chars no_upper digits = true ->
  all_chars no_upper (PyFloat.layout digits k) = true.
Proof.
  intros H. unfold PyFloat.layout.
  destruct (Z.ltb (-4) k && Z.leb k 16)%bool.
  - destruct (Z.leb k 0); [|destruct (Z.leb _ k)];
      rewrite ?all_chars_app, ?no_upper_zeros, ?H, ?all_chars_take,
        ?all_chars_drop by exact H; reflexivity.
  - assert (Hm : all_chars no_upper
                   match digits with
                   | String c EmptyString => digits
                   | String c rest => String c ("." ++ rest)
                   | EmptyString => digits
                   end = true).
    { destruct digits as [|c [|c' r]]; exact H. }
    rewrite !all_chars_app, Hm.
    destruct (Z.ltb (k - 1) 0), (Z.ltb (Z.abs (k - 1)) 10);
      rewrite ?all_chars_app, ?no_upper_str_of_Z; reflexivity.
Qed.

Lemma no_upper_repr (x : float) : all_chars no_upper (PyFloat.repr x) = true.
Proof.
  unfold PyFloat.repr.
  destruct (Prim2SF x) as [[]|[]| |s mt e]; try reflexivity.
  destruct (PyFloat.shortest _ _ _ _ _ _) as [c k'].
  rewrite all_chars_app, no_upper_layout
    by apply no_upper_strip_trailing_zeros, no_upper_str_of_Z.
  now destruct s.
Qed.

Lemma no_upper_not (a : ascii) (s : string) :
  is_upper_ascii a = true -> all_chars no_upper s = true ->
  all_chars (fun c => negb (Ascii.eqb a c)) s = true.
Proof.
  intros Ha. apply all_chars_impl. intros c Hc.
  destruct (Ascii.eqb_spec a c) as [<-|_]; [|reflexivity].
  unfold no_upper in Hc. now rewrite Ha in Hc.
Qed.

(** The scan of the comparison page for the time, on a report. *)
Lemma search_time_comparison (R T L S : string) c r :
  all_chars no_upper R = true -> T = String c r -> all_chars is_digit T = true ->
  exists g0, search estimated_time_re (analysis_text R T L S) = Some (g0, [T]).
Proof.
  intros HR -> HT. unfold analysis_text, estimated_time_re, nl.
  cbn [append]. pass_over.
  rewrite search_skip by (apply no_upper_not; [reflexivity | exact HR]).
  cbn [append]. pass_over.
  eexists. apply search_found. unfold match_at.
  rewrite m_cat, m_lit by reflexivity. cbn [drop String.length].
  eapply (m_group_plus is_digit c r); [exact HT | reflexivity | reflexivity].
Qed.

(** The scan of the comparison page for the level, on a report. *)
Lemma search_level_comparison (R T L S : string) :
  all_chars no_upper R = true -> all_chars is_digit T = true ->
  (L = "Beginner" \/ L = "Intermediate" \/ L = "Advanced") ->
  exists g0, search student_level_re (analysis_text R T L S) = Some (g0, [L]).
Proof.
  intros HR HT HL. unfold analysis_text, student_level_re, nl.
  cbn [append]. pass_over.
  rewrite search_skip by (apply no_upper_not; [reflexivity | exact HR]).
  cbn [append]. pass_over.
  rewrite search_skip
    by (apply no_upper_not;
        [reflexivity | apply (all_chars_impl _ _ _ digit_no_upper), HT]).
  cbn [append]. pass_over.
  eexists. apply search_found. unfold match_at.
  rewrite m_cat, m_lit by reflexivity. cbn [drop String.length].
  destruct HL as [-> | [-> | ->]];
    (eapply (m_group_plus is_word); [reflexivity | reflexivity | reflexivity]).
Qed.

(** X18.  On a report of the direct path the two scans of the
    comparison page, whose patterns are shorter, read the same time and the
    same level as the scans of the page that stores the question: the
    normalised ones. *)
Theorem comparison_reads_the_report (str_exn : exn -> string) reply result x text :
  Json.loads (clean (strip reply)) = Some result ->
  analyze_question str_exn (Response reply) = (Some x, text) ->
  exists d t lvl,
    result = VDict d
    /\ validate_time (get "estimated_time" d) = Ok t
    /\ validate_level (get "student_level" d) = Ok lvl
    /\ ai_estimated_time text = Ok t
    /\ ai_student_level text = lvl
    /\ ai_estimated_time text = QuestionGenerator.estimated_time text
    /\ ai_student_level text = QuestionGenerator.student_level text.
Proof.
  intros Hl H. apply analyze_question_some in H.
  unfold analyze_response in H. rewrite Hl in H.
  destruct (direct_report_scans _ _ _ H) as (d0 & t0 & lvl0 & E0 & Ht0 & Hl0 & Het & Hsl).
  apply analyze_result_some in H as (d & raw & t & lvl & -> & _ & -> & Ht & Hlvl & ->).
  injection E0 as <-.
  rewrite Ht in Ht0. injection Ht0 as <-.
  rewrite Hlvl in Hl0. injection Hl0 as <-.
  destruct (minutes_text t (validate_time_range _ _ Ht)) as (Hd & (c & r & Hc) & Hi).
  assert (E1 : ai_estimated_time
                 (analysis_text (PyFloat.repr (PyFloat.clamp_difficulty raw))
                    (str_of_Z t) lvl
                    (validate_suggestions (get "improvement_suggestions" d))) = Ok t).
  { destruct (search_time_comparison (PyFloat.repr (PyFloat.clamp_difficulty raw))
                (str_of_Z t) lvl
                (validate_suggestions (get "improvement_suggestions" d)) c r
                (no_upper_repr _) Hc Hd) as [g0 Hs].
    unfold ai_estimated_time. rewrite Hs. unfold group1. simpl. now rewrite Hi. }
  assert (E2 : ai_student_level
                 (analysis_text (PyFloat.repr (PyFloat.clamp_difficulty raw))
                    (str_of_Z t) lvl
                    (validate_suggestions (get "improvement_suggestions" d))) = lvl).
  { destruct (search_level_comparison (PyFloat.repr (PyFloat.clamp_difficulty raw))
                (str_of_Z t) lvl
                (validate_suggestions (get "improvement_suggestions" d))
                (no_upper_repr _) Hd (validate_level_labels _ _ Hlvl)) as [g0 Hs].
    unfold ai_student_level. now rewrite Hs. }
  exists d, t, lvl. rewrite E1, E2, Het, Hsl. auto 10.
Qed.

Lemma comparison_reads_the_report_witness :
  exists d t lvl,
    Json.loads (clean (strip Samples.echo_reply)) = Some (VDict d)
    /\ validate_time (get "estimated_time" d) = Ok t
    /\ validate_level (get "student_level" d) = Ok lvl
    /\ ai_estimated_time
         (snd (analyze_question (fun _ => "") (Response Samples.echo_reply))) = Ok t
    /\ ai_student_level
         (snd (analyze_question (fun _ => "") (Response Samples.echo_reply))) = lvl.
Proof.
  destruct (Json.loads (clean (strip Samples.echo_reply))) as [result|] eqn:Hl;
    [|vm_compute in Hl; discriminate].
  destruct (analyze_question (fun _ => "") (Response Samples.echo_reply))
    as [[x|] text] eqn:Ha; [|vm_compute in Ha; discriminate].
  destruct (comparison_reads_the_report (fun _ => "") Samples.echo_reply result x
              text Hl Ha) as (d & t & lvl & -> & Ht & Hlvl & E1 & E2 & _).
  exists d, t, lvl. cbn [snd]. auto.
Defined.

End ComparisonFacts.
